(** * Message-board backend: the authorization core of the route handlers

    A shallow embedding of [server.js] and [middleware/auth.js].

    - Mongo collections are finite maps from ObjectId strings to documents.
    - A route handler is a computation in the [DB] monad: it threads the
      store and may throw, as an [await] on a rejected promise does; the
      [try { ... } catch] of every handler is [try_catch].
    - The driver (mongoose) is an external collaborator.  What it does
      before it reaches the database is written out: the cast of a route
      or filter string to an ObjectId, and the validation of a document
      against its schema.  Every round trip to the database consumes one
      entry of a fault schedule carried by the state; [true] makes that
      call reject (connection loss and the like).
    - A like count is a JavaScript number: additions round to the nearest
      double.
    - [jsonwebtoken] is external too: signature checking is the abstract
      function [jwt_decode]; the expiry test made by [jwt.verify] is
      written out. *)

From stdpp Require Import gmap strings list fin_maps.
From Stdlib Require Import ZArith Ascii String.

Open Scope string_scope.
Open Scope Z_scope.

(** ** Documents (the mongoose schemas of server.js) *)

(** An ObjectId, in its [toString()] form. *)
Abbreviation oid := string (only parsing).

(** [messageSchema] *)
Record MessageDoc := mkMessage {
  m_name : string;
  m_message : string;
  m_userId : oid;
  m_textColor : string;
  m_images : list string;
  m_likes : Z;           (* an integer-valued JS number *)
  m_replies : list oid
}.

(** Assignments to one field of a message document. *)
Definition with_name (v : string) (m : MessageDoc) : MessageDoc :=
  mkMessage v (m_message m) (m_userId m) (m_textColor m) (m_images m) (m_likes m) (m_replies m).
Definition with_message (v : string) (m : MessageDoc) : MessageDoc :=
  mkMessage (m_name m) v (m_userId m) (m_textColor m) (m_images m) (m_likes m) (m_replies m).
Definition with_textColor (v : string) (m : MessageDoc) : MessageDoc :=
  mkMessage (m_name m) (m_message m) (m_userId m) v (m_images m) (m_likes m) (m_replies m).
Definition with_likes (v : Z) (m : MessageDoc) : MessageDoc :=
  mkMessage (m_name m) (m_message m) (m_userId m) (m_textColor m) (m_images m) v (m_replies m).
Definition with_replies (v : list oid) (m : MessageDoc) : MessageDoc :=
  mkMessage (m_name m) (m_message m) (m_userId m) (m_textColor m) (m_images m) (m_likes m) v.

(** [replySchema] *)
Record ReplyDoc := mkReply {
  r_messageId : oid;
  r_userId : oid;
  r_reply : string;
  r_createdAt : Z
}.

(** [appealSchema] (the one server.js declares inline) *)
Record AppealDoc := mkAppeal {
  a_userId : oid;
  a_appealType : string;
  a_report : string;
  a_content : string
}.

(** The payload [jwt.sign] puts in a token at login, with the two
    registered claims the library adds. *)
Record JwtPayload := mkPayload {
  userId : oid;
  role : string;
  avatar : option string;
  gender : string;
  iat : Z;
  exp : option Z
}.

(** ** The store and the monad of handlers *)

Record Db := mkDb {
  Messages : gmap string MessageDoc;
  Replies : gmap string ReplyDoc;
  Appeals : gmap string AppealDoc
}.

Record St := mkSt {
  db : Db;
  faults : list bool;   (* outcome of the next driver calls: true = rejects *)
  next_oid : N;         (* counter of the driver's ObjectId generator *)
  now : Z               (* Date.now(), milliseconds *)
}.

Inductive Result (A : Type) : Type :=
  | Ok (a : A)
  | Throw.
Arguments Ok {A} a.
Arguments Throw {A}.

Definition DB (A : Type) : Type := St -> Result A * St.

#[global] Instance DB_ret : MRet DB := fun A a s => (Ok a, s).
#[global] Instance DB_bind : MBind DB := fun A B f c s =>
  match c s with
  | (Ok a, s') => f a s'
  | (Throw, s') => (Throw, s')
  end.

Definition throw {A} : DB A := fun s => (Throw, s).

(** [try { body } catch (error) { handler }] *)
Definition try_catch {A} (body handler : DB A) : DB A := fun s =>
  match body s with
  | (Ok a, s') => (Ok a, s')
  | (Throw, s') => handler s'
  end.

(** The state after the store is replaced by [d]. *)
Definition write (d : Db) (s : St) : St := mkSt d (faults s) (next_oid s) (now s).

Definition get_db : DB Db := fun s => (Ok (db s), s).
Definition put_db (d : Db) : DB unit := fun s => (Ok tt, write d s).
Definition Date_now : DB Z := fun s => (Ok (now s), s).

(** One round trip to the driver: consumes the head of the schedule. *)
Definition rejects (s : St) : bool :=
  match faults s with
  | true :: _ => true
  | _ => false
  end.

Definition tick (s : St) : St :=
  mkSt (db s) (tail (faults s)) (next_oid s) (now s).

Definition driver_call : DB unit := fun s =>
  if rejects s then (Throw, tick s) else (Ok tt, tick s).

(** *** ObjectId generation *)

Definition hex_digit (n : N) : ascii :=
  match n with
  | 0%N => "0" | 1%N => "1" | 2%N => "2" | 3%N => "3" | 4%N => "4"
  | 5%N => "5" | 6%N => "6" | 7%N => "7" | 8%N => "8" | 9%N => "9"
  | 10%N => "a" | 11%N => "b" | 12%N => "c" | 13%N => "d" | 14%N => "e"
  | _ => "f"
  end%char.

Fixpoint hex_fixed (width : nat) (n : N) (acc : string) : string :=
  match width with
  | O => acc
  | S w => hex_fixed w (n / 16)%N (String (hex_digit (n mod 16)%N) acc)
  end.

(** A 12-byte ObjectId rendered as 24 hexadecimal digits. *)
Definition ObjectId (n : N) : oid := hex_fixed 24 n "".

Definition new_ObjectId : DB oid := fun s =>
  (Ok (ObjectId (next_oid s)), mkSt (db s) (faults s) (N.succ (next_oid s)) (now s)).

(** *** Casting a string to an ObjectId *)

(** A hexadecimal digit, in lower case; [None] for any other character. *)
Definition cast_hex_digit (c : ascii) : option ascii :=
  let n := N_of_ascii c in
  if ((48 <=? n) && (n <=? 57))%N then Some c
  else if ((97 <=? n) && (n <=? 102))%N then Some c
  else if ((65 <=? n) && (n <=? 70))%N then Some (ascii_of_N (n + 32))
  else None.

Fixpoint cast_hex (width : nat) (x : string) : option string :=
  match width, x with
  | O, EmptyString => Some EmptyString
  | S w, String c rest =>
      match cast_hex_digit c, cast_hex w rest with
      | Some c', Some rest' => Some (String c' rest')
      | _, _ => None
      end
  | _, _ => None
  end.

(** The cast mongoose applies to a string given where the schema has an
    ObjectId: a string of 24 hexadecimal digits, in either case, names
    the id whose [toString()] is the same digits in lower case; any
    other string is a CastError.  (So it is with the driver's bson from
    version 5 on; before that a string of 12 characters was taken as
    well.) *)
Definition cast_oid (x : string) : option oid := cast_hex 24 x.

(** *** Arithmetic on like counts *)

(** The double nearest to an integer, ties to the even significand:
    the integer itself up to 2^53 in magnitude, and beyond that a
    multiple of the spacing of the doubles around it.  (The largest
    double is no bound here: a count that grows by one never leaves
    2^53.) *)
Definition js_round (z : Z) : Z :=
  let a := Z.abs z in
  if a <=? 2 ^ 53 then z
  else
    let q := 2 ^ (Z.log2 a - 52) in
    let k := a / q in
    let r := a mod q in
    let k' := if 2 * r <? q then k
              else if q <? 2 * r then k + 1
              else if Z.even k then k else k + 1 in
    Z.sgn z * (k' * q).

(** [a + b] and [a - b] on numbers *)
Definition js_add (a b : Z) : Z := js_round (a + b).
Definition js_sub (a b : Z) : Z := js_round (a - b).

(** *** The model methods the handlers call *)

(** A query or a document whose id string does not cast is rejected
    before anything is sent to the database. *)
Definition casting {A} (x : string) (k : oid -> DB A) : DB A :=
  match cast_oid x with
  | Some id => k id
  | None => throw
  end.

Definition set_Messages (f : gmap string MessageDoc -> gmap string MessageDoc) (d : Db) : Db :=
  mkDb (f (Messages d)) (Replies d) (Appeals d).
Definition set_Replies (f : gmap string ReplyDoc -> gmap string ReplyDoc) (d : Db) : Db :=
  mkDb (Messages d) (f (Replies d)) (Appeals d).
Definition set_Appeals (f : gmap string AppealDoc -> gmap string AppealDoc) (d : Db) : Db :=
  mkDb (Messages d) (Replies d) (f (Appeals d)).

(** [$push: { replies: rid }] on one document. *)
Definition push_reply (rid : oid) (m : MessageDoc) : MessageDoc :=
  with_replies (m_replies m ++ [rid]) m.

Module Message.
(** [Message.findById(x)]: the document with its [_id], or null. *)
Definition findById (x : string) : DB (option (oid * MessageDoc)) :=
  casting x (fun id =>
    driver_call ;; d ← get_db; mret ((fun m => (id, m)) <$> Messages d !! id)).

(** [Message.findByIdAndDelete(x)] *)
Definition findByIdAndDelete (x : string) : DB unit :=
  casting x (fun id =>
    driver_call ;; d ← get_db; put_db (set_Messages (delete id) d)).

(** What [messageSchema] requires of a document: [name] and [message]
    are required, and a required string is not empty.  ([userId] is
    required too, and a document here always has one.) *)
Definition valid (doc : MessageDoc) : Prop :=
  m_name doc ≠ "" /\ m_message doc ≠ "".

#[global] Instance valid_dec doc : Decision (valid doc).
Proof. unfold valid. apply _. Defined.

(** [doc.save()] of a document loaded under [id].  The document is
    validated first, and a document that is not valid is rejected before
    anything is sent.  Then it is written back; the driver rejects when
    the document is gone. *)
Definition save (id : oid) (doc : MessageDoc) : DB unit :=
  if bool_decide (valid doc) then
    driver_call ;; d ← get_db;
    match Messages d !! id with
    | Some _ => put_db (set_Messages (<[id := doc]>) d)
    | None => throw
    end
  else throw.

(** [Message.findByIdAndUpdate(x, { $push: { replies: rid } })]: no
    document with that id is not an error, nothing is updated. *)
Definition findByIdAndUpdate_push_replies (x : string) (rid : oid) : DB unit :=
  casting x (fun id =>
    driver_call ;; d ← get_db;
    put_db (set_Messages (alter (push_reply rid) id) d)).
End Message.

Module Reply.
(** [Reply.findById(x)] *)
Definition findById (x : string) : DB (option ReplyDoc) :=
  casting x (fun id => driver_call ;; d ← get_db; mret (Replies d !! id)).

(** [Reply.create({ messageId, userId, reply })]: [messageId] is cast,
    which is part of the document's validation; then a new _id from the
    driver, [createdAt] by its schema default; an _id already in the
    collection is a duplicate-key rejection.  [userId] is the session's,
    an id's [toString()] as the login put it in the token. *)
Definition create (messageId : string) (uid : oid) (reply : string)
  : DB (oid * ReplyDoc) :=
  casting messageId (fun mid =>
    driver_call ;;
    id ← new_ObjectId; t ← Date_now; d ← get_db;
    match Replies d !! id with
    | Some _ => throw
    | None =>
        let doc := mkReply mid uid reply t in
        put_db (set_Replies (<[id := doc]>) d) ;; mret (id, doc)
    end).

(** [Reply.deleteOne({ _id: x })] *)
Definition deleteOne (x : string) : DB unit :=
  casting x (fun id =>
    driver_call ;; d ← get_db; put_db (set_Replies (delete id) d)).
End Reply.

Module Appeal.
(** [Appeal.findByIdAndDelete(x)] *)
Definition findByIdAndDelete (x : string) : DB unit :=
  casting x (fun id =>
    driver_call ;; d ← get_db; put_db (set_Appeals (delete id) d)).
End Appeal.

(** ** Requests and responses *)

(** [req]: the Authorization header, the route parameters, the JSON body
    (string-valued fields) and [req.user], set by the middleware. *)
Record Request := mkReq {
  authorization : option string;
  params : gmap string string;
  body : gmap string string;
  user : option JwtPayload
}.

Inductive Payload : Type :=
  | Text (s : string)                 (* res.send('...') *)
  | JsonMessage (s : string)          (* { message: '...' } *)
  | SentMessage (id : oid) (m : MessageDoc)
  | SentReply (id : oid) (r : ReplyDoc).

Record Response := mkRes { status : nat; sent : Payload }.

Definition Handler : Type := Request -> DB Response.

(** [req.params.x]; a matched route defines each of its parameters. *)
Definition param (req : Request) (x : string) : string :=
  default "" (params req !! x).

(** [req.user]: dereferencing it throws a TypeError when it is undefined. *)
Definition req_user (req : Request) : DB JwtPayload :=
  match user req with
  | Some c => mret c
  | None => throw
  end.

(** JavaScript's [!s] on a body field: undefined or the empty string. *)
Definition falsy (v : option string) : bool :=
  match v with
  | None => true
  | Some s => bool_decide (s = "")
  end.

(** ** The route handlers of server.js *)

(** [app.delete('/api/messages/:id', authMiddleware, ...)] *)
Definition delete_message : Handler := fun req =>
  try_catch
    (message ← Message.findById (param req "id");
     match message with
     | None => mret (mkRes 404 (JsonMessage "沒有找到留言"))
     | Some (_, message) =>
         c ← req_user req;
         if bool_decide (m_userId message ≠ userId c) && bool_decide (role c ≠ "admin")
         then mret (mkRes 403 (JsonMessage "沒有權限刪除留言"))
         else
           Message.findByIdAndDelete (param req "id") ;;
           mret (mkRes 200 (JsonMessage "Message deleted successfully"))
     end)
    (mret (mkRes 500 (JsonMessage "伺服器錯誤"))).

(** [if (x !== undefined) { doc.field = x; }] *)
Definition assign_if_defined {A} (x : option string) (set : string -> A -> A) (doc : A) : A :=
  match x with
  | Some v => set v doc
  | None => doc
  end.

(** [app.put('/api/messages/:id', authMiddleware, ...)] *)
Definition put_message : Handler := fun req =>
  try_catch
    (let name := body req !! "name" in
     let message := body req !! "message" in
     let textColor := body req !! "textColor" in
     messageToUpdate ← Message.findById (param req "id");
     match messageToUpdate with
     | None => mret (mkRes 404 (Text "留言不存在"))
     | Some (_id, messageToUpdate) =>
         c ← req_user req;
         if bool_decide (m_userId messageToUpdate ≠ userId c)
         then mret (mkRes 403 (Text "無權編輯此留言"))
         else
           let messageToUpdate := assign_if_defined name with_name messageToUpdate in
           let messageToUpdate := assign_if_defined message with_message messageToUpdate in
           let messageToUpdate := assign_if_defined textColor with_textColor messageToUpdate in
           Message.save _id messageToUpdate ;;
           mret (mkRes 200 (SentMessage _id messageToUpdate))
     end)
    (mret (mkRes 500 (Text "編輯留言失敗"))).

(** [app.post('/api/messages/:id/like', authMiddleware, ...)] *)
Definition like_message : Handler := fun req =>
  try_catch
    (message ← Message.findById (param req "id");
     match message with
     | None => mret (mkRes 404 (Text "留言不存在"))
     | Some (_id, message) =>
         let message := with_likes (js_add (m_likes message) 1) message in
         Message.save _id message ;;
         mret (mkRes 200 (SentMessage _id message))
     end)
    (mret (mkRes 500 (Text "點讚失败"))).

(** [app.post('/api/messages/:id/unlike', authMiddleware, ...)] *)
Definition unlike_message : Handler := fun req =>
  try_catch
    (message ← Message.findById (param req "id");
     match message with
     | None => mret (mkRes 404 (Text "留言不存在"))
     | Some (_id, message) =>
         let message :=
           if bool_decide (m_likes message > 0)
           then with_likes (js_sub (m_likes message) 1) message
           else message in
         Message.save _id message ;;
         mret (mkRes 200 (SentMessage _id message))
     end)
    (mret (mkRes 500 (Text "取消點讚失敗"))).

(** [app.post('/api/messages/:id/replies', authMiddleware, ...)].  Its
    catch block passes the error to the application's error middleware,
    which answers first. *)
Definition post_reply : Handler := fun req =>
  try_catch
    (let reply := body req !! "reply" in
     if falsy reply
     then mret (mkRes 400 (Text "回覆内容是必须的"))
     else
       let messageId := param req "id" in
       c ← req_user req;
       newReply ← Reply.create messageId (userId c) (default "" reply);
       Message.findByIdAndUpdate_push_replies messageId newReply.1 ;;
       mret (mkRes 201 (SentReply newReply.1 newReply.2)))
    (mret (mkRes 500 (Text "伺服器錯誤"))).

(** [message.replies.filter((r) => r.toString() !== replyId)], assigned
    back to the loaded document: each id's [toString()] is compared with
    the route's string as it came. *)
Definition without_reply (replyId : string) (message : MessageDoc) : MessageDoc :=
  with_replies (filter (fun r => r ≠ replyId) (m_replies message)) message.

(** [app.delete('/api/messages/:messageId/replies/:replyId', authMiddleware, ...)] *)
Definition delete_reply : Handler := fun req =>
  try_catch
    (let messageId := param req "messageId" in
     let replyId := param req "replyId" in
     message ← Message.findById messageId;
     match message with
     | None => mret (mkRes 404 (Text "留言未找到"))
     | Some (_id, message) =>
         reply ← Reply.findById replyId;
         match reply with
         | None => mret (mkRes 404 (Text "回覆未找到"))
         | Some reply =>
             c ← req_user req;
             if bool_decide (r_userId reply ≠ userId c) && bool_decide (role c ≠ "admin")
             then mret (mkRes 403 (Text "無權限刪除該回覆"))
             else
               Reply.deleteOne replyId ;;
               let message := without_reply replyId message in
               Message.save _id message ;;
               mret (mkRes 200 (Text "回覆已刪除"))
         end
     end)
    (mret (mkRes 500 (Text "刪除回覆失敗"))).

(** [app.delete('/api/appeals/:id', authMiddleware, ...)] *)
Definition delete_appeal : Handler := fun req =>
  try_catch
    (let id := param req "id" in
     Appeal.findByIdAndDelete id ;;
     mret (mkRes 200 (JsonMessage "申訴已刪除")))
    (mret (mkRes 500 (JsonMessage "無法刪除申訴"))).

(** ** The session validator of middleware/auth.js *)

(** [authorizationHeader.split(' ')] *)
Fixpoint split (sep : ascii) (s : string) : list string :=
  match s with
  | EmptyString => [EmptyString]
  | String c rest =>
      if Ascii.eqb c sep then EmptyString :: split sep rest
      else match split sep rest with
           | h :: t => String c h :: t
           | [] => [String c EmptyString]
           end
  end.

Section Auth.
(** [process.env.SECRET_KEY] *)
Variable env_SECRET_KEY : option string.

(** Signature check and decoding of the token under a key, by the
    jsonwebtoken library: [None] for a malformed token or a signature
    that does not match. *)
Variable jwt_decode : string -> string -> option JwtPayload.

(** [process.env.SECRET_KEY || 'your_secret_key'] *)
Definition SECRET_KEY : string :=
  match env_SECRET_KEY with
  | Some k => if bool_decide (k = "") then "your_secret_key" else k
  | None => "your_secret_key"
  end.

(** [jwt.verify(token, key)]: throws on a bad signature, and when the
    token carries [exp] and the clock, in seconds, has reached it. *)
Definition jwt_verify (token key : string) : DB JwtPayload :=
  match jwt_decode token key with
  | None => throw
  | Some decoded =>
      t ← Date_now;
      match exp decoded with
      | Some e => if bool_decide (t / 1000 >= e) then throw else mret decoded
      | None => mret decoded
      end
  end.

Definition with_user (c : JwtPayload) (req : Request) : Request :=
  mkReq (authorization req) (params req) (body req) (Some c).

(** [authMiddleware(req, res, next)].  The catch block guards
    [jwt.verify] only: [next()] hands the request over to the route's
    handler, and Express itself takes what a handler throws. *)
Definition authMiddleware (req : Request) (next : Handler) : DB Response :=
  let authorizationHeader := authorization req in
  if falsy authorizationHeader
  then mret (mkRes 401 (Text "未提供 Authorization 標頭"))
  else
    let token := split " " (default "" authorizationHeader) !! 1%nat in
    if falsy token
    then mret (mkRes 401 (Text "未提供 token"))
    else
      verified ← try_catch
        (decoded ← jwt_verify (default "" token) SECRET_KEY; mret (Some decoded))
        (mret None);
      match verified with
      | Some decoded => next (with_user decoded req)
      | None => mret (mkRes 403 (Text "無效的 token"))
      end.

(** [app.METHOD(path, authMiddleware, handler)] *)
Definition protected (h : Handler) : Handler := fun req => authMiddleware req h.
End Auth.

(** ** Sample data, used to exercise the statements below *)

Definition alice : JwtPayload :=
  mkPayload "64b0000000000000000000a1" "user" None "female" 1700000000 (Some 1700003600).
Definition bob : JwtPayload :=
  mkPayload "64b0000000000000000000b2" "user" None "male" 1700000000 (Some 1700003600).
Definition root : JwtPayload :=
  mkPayload "64b0000000000000000000c3" "admin" None "male" 1700000000 (Some 1700003600).

Definition mid1 : oid := "64b000000000000000000101".
Definition mid2 : oid := "64b000000000000000000102".
Definition rid1 : oid := "64b000000000000000000201".
Definition aid1 : oid := "64b000000000000000000301".

(** A message id that the sample store does not hold. *)
Definition mid_missing : oid := "64b0000000000000000000ff".

(** Alice's message, with Bob's reply to it; a message of Bob's. *)
Definition msg1 : MessageDoc :=
  mkMessage "alice" "hi" (userId alice) "#000" [] 0 [rid1].
Definition msg2 : MessageDoc :=
  mkMessage "bob" "hello" (userId bob) "#00f" ["1700000000000-cat.png"] 2 [].
Definition reply1 : ReplyDoc :=
  mkReply mid1 (userId bob) "welcome" 1700000100000.
Definition appeal1 : AppealDoc :=
  mkAppeal (userId alice) "spam" "bob" "too many messages".

Definition db0 : Db :=
  mkDb (<[mid1 := msg1]> (<[mid2 := msg2]> ∅)) (<[rid1 := reply1]> ∅) (<[aid1 := appeal1]> ∅).

(** A quiet driver, half an hour after the tokens above were issued. *)
Definition st0 : St := mkSt db0 [] 1 1700001800000.

(** The id of Bob's reply as a client may spell it. *)
Definition rid1_upper : string := "64B000000000000000000201".

(** Alice's message once its like count has reached 2^53. *)
Definition msg1_max : MessageDoc := with_likes (2 ^ 53) msg1.
Definition st_max : St :=
  mkSt (mkDb (<[mid1 := msg1_max]> (<[mid2 := msg2]> ∅)) (<[rid1 := reply1]> ∅)
          (<[aid1 := appeal1]> ∅)) [] 1 1700001800000.

Definition request (ps body : list (string * string)) (u : option JwtPayload) : Request :=
  mkReq None (list_to_map ps) (list_to_map body) u.

(** A token table standing for the signature check: one token per user,
    valid under the default key only. *)
Definition sample_decode (token key : string) : option JwtPayload :=
  if bool_decide (key = "your_secret_key") then
    if bool_decide (token = "tok.alice") then Some alice
    else if bool_decide (token = "tok.root") then Some root
    else None
  else None.

(** ** Sequences of like and unlike requests *)

Inductive Vote : Type := Like | Unlike.

Definition vote_handler (v : Vote) : Handler :=
  match v with
  | Like => like_message
  | Unlike => unlike_message
  end.

(** The state after serving the requests one after the other. *)
Fixpoint serve_votes (l : list (Vote * Request)) (s : St) : St :=
  match l with
  | [] => s
  | (v, req) :: l' => serve_votes l' (vote_handler v req s).2
  end.

(** No stored message has a negative like count. *)
Definition likes_nonneg (d : Db) : Prop :=
  forall id m, Messages d !! id = Some m -> 0 <= m_likes m.

(** The answer of the catch block of the reply deletion. *)
Definition failed (s' : St) : Result Response * St :=
  (Ok (mkRes 500 (Text "刪除回覆失敗")), s').

(** ** The routes on stored messages, replies and appeals *)

Inductive Route : Type :=
  | DeleteMessage | PutMessage | LikeMessage | UnlikeMessage
  | PostReply | DeleteReply | DeleteAppeal.

Definition route_handler (r : Route) : Handler :=
  match r with
  | DeleteMessage => delete_message
  | PutMessage => put_message
  | LikeMessage => like_message
  | UnlikeMessage => unlike_message
  | PostReply => post_reply
  | DeleteReply => delete_reply
  | DeleteAppeal => delete_appeal
  end.

(** The state after serving the requests one after the other. *)
Fixpoint serve (l : list (Route * Request)) (s : St) : St :=
  match l with
  | [] => s
  | (r, req) :: l' => serve l' (route_handler r req s).2
  end.

(** The id a route works on in the collection of messages. *)
Definition message_param (r : Route) : string :=
  match r with
  | DeleteReply => "messageId"
  | _ => "id"
  end.

(** A string without a space character. *)
Fixpoint no_space (s : string) : bool :=
  match s with
  | EmptyString => true
  | String c rest => negb (Ascii.eqb c " ") && no_space rest
  end.

(** ** The other routes of server.js: appeals and messages created *)

(** What these routes send besides the payloads above. *)
Inductive Sent : Type :=
  | Plain (p : Payload)
  | JsonError (s : string)                      (* { error: '...' } *)
  | SentAppeal (id : oid) (a : AppealDoc).

Record Answer := mkAns { code : nat; content : Sent }.

(** [Appeal.create({ userId, appealType, report, content })] *)
Definition Appeal_create (uid : oid) (appealType report content : string)
  : DB (oid * AppealDoc) :=
  driver_call ;;
  id ← new_ObjectId; d ← get_db;
  match Appeals d !! id with
  | Some _ => throw
  | None =>
      let doc := mkAppeal uid appealType report content in
      put_db (set_Appeals (<[id := doc]>) d) ;; mret (id, doc)
  end.

(** [app.post('/api/appeals', authMiddleware, ...)] *)
Definition post_appeal (req : Request) : DB Answer :=
  try_catch
    (let appealType := body req !! "appealType" in
     let report := body req !! "report" in
     let content := body req !! "content" in
     if falsy appealType || falsy report || falsy content
     then mret (mkAns 400 (Plain (Text "所有字段都是必填的")))
     else
       c ← req_user req;
       newAppeal ← Appeal_create (userId c) (default "" appealType)
                     (default "" report) (default "" content);
       mret (mkAns 201 (SentAppeal newAppeal.1 newAppeal.2)))
    (mret (mkAns 500 (Plain (Text "創建申訴失敗")))).

(** [Message.create({ name, message, textColor, userId, images })].  The
    document is validated before it is sent to the driver: [name] and
    [message] are required, and a required string is neither undefined
    nor empty.  The schema gives [textColor] its default, casts a single
    [images] string to an array of one, and starts [likes] at 0 and
    [replies] empty. *)
Definition Message_create (name message textColor : option string) (uid : oid)
    (images : option string) : DB (oid * MessageDoc) :=
  if falsy name || falsy message then throw
  else
    driver_call ;;
    id ← new_ObjectId; d ← get_db;
    match Messages d !! id with
    | Some _ => throw
    | None =>
        let doc :=
          mkMessage (default "" name) (default "" message) uid
            (default "#000" textColor)
            (match images with Some v => [v] | None => [] end) 0 [] in
        put_db (set_Messages (<[id := doc]>) d) ;; mret (id, doc)
    end.

(** [app.post('/api/messages', authMiddleware, upload.array('images', 10), ...)],
    on the body as the upload middleware leaves it.  Its catch block
    passes the error to the application's error middleware, which answers
    first. *)
Definition post_message (req : Request) : DB Answer :=
  let name := body req !! "name" in
  let message := body req !! "message" in
  let textColor := body req !! "textColor" in
  let images := body req !! "images" in
  try_catch
    (match user req with
     | None => mret (mkAns 401 (JsonError "未授權"))
     | Some c =>
         newMessage ← Message_create name message textColor (userId c) images;
         mret (mkAns 201 (Plain (SentMessage newMessage.1 newMessage.2)))
     end)
    (mret (mkAns 500 (Plain (Text "伺服器錯誤")))).

(** ** Accounts: registration, login and the session's user *)

(** [userSchema] *)
Record UserDoc := mkUser {
  u_username : string;
  u_password : string;
  u_role : string;
  u_gender : string;
  u_age : string
}.

(** The collection of users beside the rest of the state. *)
Record World := mkWorld {
  Users : gmap string UserDoc;
  base : St
}.

Definition UDB (A : Type) : Type := World -> Result A * World.

#[global] Instance UDB_ret : MRet UDB := fun A a w => (Ok a, w).
#[global] Instance UDB_bind : MBind UDB := fun A B f c w =>
  match c w with
  | (Ok a, w') => f a w'
  | (Throw, w') => (Throw, w')
  end.

Definition uthrow {A} : UDB A := fun w => (Throw, w).

Definition utry_catch {A} (body handler : UDB A) : UDB A := fun w =>
  match body w with
  | (Ok a, w') => (Ok a, w')
  | (Throw, w') => handler w'
  end.

(** A computation on the rest of the state, run beside the users. *)
Definition lift {A} (c : DB A) : UDB A := fun w =>
  match c (base w) with
  | (r, s') => (r, mkWorld (Users w) s')
  end.

Definition get_users : UDB (gmap string UserDoc) := fun w => (Ok (Users w), w).
Definition put_users (us : gmap string UserDoc) : UDB unit := fun w =>
  (Ok tt, mkWorld us (base w)).

(** [User.findOne({ username })] *)
Definition User_findOne (username : string) : UDB (option (oid * UserDoc)) :=
  lift driver_call ;; us ← get_users;
  mret (head (map_to_list (filter (fun kv => u_username kv.2 = username) us))).

(** [User.findById(id)] *)
Definition User_findById (id : oid) : UDB (option UserDoc) :=
  lift driver_call ;; us ← get_users; mret (us !! id).

(** [User.create({ username, password, gender, age, avatar })].  The
    schema has no [avatar] path, so the field is dropped; [role] takes
    its default.  The four required strings are validated before the
    driver is called; the unique index on [username] rejects a second
    document with the same name. *)
Definition User_create (username password gender age : string)
  : UDB (oid * UserDoc) :=
  if bool_decide (username = "") || bool_decide (password = "")
     || bool_decide (gender = "") || bool_decide (age = "")
  then uthrow
  else
    lift driver_call ;;
    id ← lift new_ObjectId; us ← get_users;
    match us !! id, head (map_to_list (filter (fun kv => u_username kv.2 = username) us)) with
    | None, None =>
        let doc := mkUser username password "user" gender age in
        put_users (<[id := doc]> us) ;; mret (id, doc)
    | _, _ => uthrow
    end.

(** What the account routes send. *)
Inductive AccountSent : Type :=
  | Said (s : string)                                   (* res.send('...') *)
  | SaidMessage (s : string)                            (* { message: '...' } *)
  | SentNewUser (id : oid) (u : UserDoc)                (* res.send(newUser) *)
  | SentLogin (token : string) (userId : oid) (avatar : option string) (gender : string)
  | SentIdentity (userId : oid) (role : string).        (* { userId, role } *)

Record AccountAnswer := mkAcc { acc_code : nat; acc_sent : AccountSent }.

Section Accounts.
(** [process.env.SECRET_KEY], as server.js reads it: no default. *)
Variable env_SECRET_KEY : option string.

(** [bcrypt.hash(password, 10)] and [bcrypt.compare(password, hash)] *)
Variable bcrypt_hash : string -> string.
Variable bcrypt_compare : string -> string -> bool.

(** The token [jwt.sign] makes of a payload under a key. *)
Variable jwt_sign : JwtPayload -> string -> string.

(** [app.post('/api/register', ...)].  Its catch block passes the error
    to the application's error middleware, which answers first. *)
Definition register (req : Request) : UDB AccountAnswer :=
  utry_catch
    (let username := body req !! "username" in
     let password := body req !! "password" in
     let gender := body req !! "gender" in
     let age := body req !! "age" in
     if falsy username || falsy password || falsy gender || falsy age
     then mret (mkAcc 400 (Said "所有字段都是必填的"))
     else
       existingUser ← User_findOne (default "" username);
       match existingUser with
       | Some _ => mret (mkAcc 400 (Said "用戶名已存在"))
       | None =>
           let hashedPassword := bcrypt_hash (default "" password) in
           newUser ← User_create (default "" username) hashedPassword
                       (default "" gender) (default "" age);
           mret (mkAcc 201 (SentNewUser newUser.1 newUser.2))
       end)
    (mret (mkAcc 500 (Said "伺服器錯誤"))).

(** [jwt.sign(payload, SECRET_KEY, { expiresIn: '1h' })]: throws without
    a key; [iat] is the clock in seconds and [exp] an hour later. *)
Definition sign_for_an_hour (uid role : string) (avatar : option string) (gender : string)
  : UDB string :=
  match env_SECRET_KEY with
  | None => uthrow
  | Some key =>
      if bool_decide (key = "") then uthrow
      else
        t ← lift Date_now;
        let iat := t / 1000 in
        mret (jwt_sign (mkPayload uid role avatar gender iat (Some (iat + 3600))) key)
  end.

(** [app.post('/api/login', ...)].  A stored user has no avatar, the
    schema having no such path. *)
Definition login (req : Request) : UDB AccountAnswer :=
  utry_catch
    (let username := body req !! "username" in
     let password := body req !! "password" in
     if falsy username || falsy password
     then mret (mkAcc 400 (Said "用戶名和密碼是必填的"))
     else
       user ← User_findOne (default "" username);
       match user with
       | None => mret (mkAcc 400 (Said "用戶不存在"))
       | Some user =>
           let isPasswordValid :=
             bcrypt_compare (default "" password) (u_password user.2) in
           if negb isPasswordValid
           then mret (mkAcc 400 (Said "密碼錯誤"))
           else
             token ← sign_for_an_hour user.1 (u_role user.2) None (u_gender user.2);
             mret (mkAcc 200 (SentLogin token user.1 None (u_gender user.2)))
       end)
    (mret (mkAcc 500 (Said "伺服器錯誤"))).

(** [app.get('/api/user', authMiddleware, ...)] *)
Definition get_user (req : Request) : UDB AccountAnswer :=
  utry_catch
    (match user req with
     | None => uthrow
     | Some c =>
         user ← User_findById (userId c);
         match user with
         | None => mret (mkAcc 404 (SaidMessage "用戶未找到"))
         | Some user => mret (mkAcc 200 (SentIdentity (userId c) (u_role user)))
         end
     end)
    (mret (mkAcc 500 (SaidMessage "獲取用戶失敗"))).
End Accounts.

(** No two stored users share a username. *)
Definition unique_usernames (us : gmap string UserDoc) : Prop :=
  forall i j u v, us !! i = Some u -> us !! j = Some v ->
                  u_username u = u_username v -> i = j.

(** Stand-ins for the two libraries in the examples: a hash that tags
    the password, and one token per signed payload's user. *)
Definition sample_hash (password : string) : string := "$2b$10$" ++ password.
Definition sample_compare (password hash : string) : bool :=
  bool_decide (hash = sample_hash password).

(** Carol, registered under the sample hash, and a world holding her. *)
Definition carol_id : oid := "64b0000000000000000000d4".
Definition carol : UserDoc := mkUser "carol" (sample_hash "pw123") "user" "female" "22".
Definition world0 : World := mkWorld (<[carol_id := carol]> ∅) st0.

(** A signer and a decoder for the examples, standing for the two
    directions of the token library under one key: the token names the
    user, and decodes to the payload signed at the clock of [st0]. *)
Definition sample_sign (p : JwtPayload) (key : string) : string :=
  "tok." ++ userId p.
Definition sample_verify (token key : string) : option JwtPayload :=
  if bool_decide (key = "s3cret") && bool_decide (token = "tok." ++ carol_id)
  then Some (mkPayload carol_id "user" None "female" 1700001800 (Some 1700005400))
  else None.

(** ** The listings *)

(** A user as [populate] selects it: [_id] with [username] and [gender]
    (the selected [avatar] is no path of the schema). *)
Record UserView := mkView { v_id : oid; v_username : string; v_gender : string }.

(** [populate('userId', ...)] on one reference: what the route selects
    of the user, or null when no user has the id. *)
Definition populate_one {V} (select : oid -> UserDoc -> V)
    (us : gmap string UserDoc) (uid : oid) : option V :=
  select uid <$> us !! uid.

(** ['username avatar gender'] and ['username'] *)
Definition select_view (uid : oid) (u : UserDoc) : UserView :=
  mkView uid (u_username u) (u_gender u).
Definition select_username (uid : oid) (u : UserDoc) : oid * string :=
  (uid, u_username u).

(** [Reply.find({ messageId })]: the filter is cast like an id. *)
Definition Reply_find (messageId : string) : DB (list (oid * ReplyDoc)) :=
  casting messageId (fun mid =>
    driver_call ;; d ← get_db;
    mret (map_to_list (filter (fun kv => r_messageId kv.2 = mid) (Replies d)))).

(** [Appeal.find()] *)
Definition Appeal_find : DB (list (oid * AppealDoc)) :=
  driver_call ;; d ← get_db; mret (map_to_list (Appeals d)).

(** The second query of a populated find, on the users. *)
Definition populate {A V} (owner : A -> oid) (select : oid -> UserDoc -> V)
    (docs : list (oid * A)) : UDB (list (oid * A * option V)) :=
  lift driver_call ;; us ← get_users;
  mret ((fun kv => (kv.1, kv.2, populate_one select us (owner kv.2))) <$> docs).

Inductive ListSent : Type :=
  | SaidList (s : string)
  | SentReplies (l : list (oid * ReplyDoc * option UserView))
  | SentAppeals (l : list (oid * AppealDoc * option (oid * string))).

Record ListAnswer := mkList { list_code : nat; list_sent : ListSent }.

(** [app.get('/api/messages/:id/replies', ...)]: no validator on this
    route. *)
Definition get_replies (req : Request) : UDB ListAnswer :=
  utry_catch
    (let messageId := param req "id" in
     replies ← lift (Reply_find messageId);
     replies ← populate r_userId select_view replies;
     mret (mkList 200 (SentReplies replies)))
    (mret (mkList 500 (SaidList "獲取回覆失敗"))).

(** [app.get('/api/appeals', authMiddleware, ...)] *)
Definition get_appeals (req : Request) : UDB ListAnswer :=
  utry_catch
    (appeals ← lift Appeal_find;
     appeals ← populate a_userId select_username appeals;
     mret (mkList 200 (SentAppeals appeals)))
    (mret (mkList 500 (SaidList "獲取申訴失敗"))).

(** * Properties *)

(** ** Running a handler, one driver call at a time *)

Lemma bind_run {A B} (c : DB A) (f : A -> DB B) (s : St) :
  ((c ≫= f) : DB B) s =
  match c s with
  | (Ok a, s') => f a s'
  | (Throw, s') => (Throw, s')
  end.
Proof. reflexivity. Qed.

Lemma ret_run {A} (a : A) (s : St) : (mret a : DB A) s = (Ok a, s).
Proof. reflexivity. Qed.

Lemma throw_run {A} (s : St) : @throw A s = (Throw, s).
Proof. reflexivity. Qed.

Lemma tick_db s : db (tick s) = db s.
Proof. reflexivity. Qed.

Lemma tick_quiet s : faults s = [] -> tick s = s.
Proof. destruct s as [d fs n t]. simpl. intros ->. reflexivity. Qed.

Lemma rejects_quiet s : faults s = [] -> rejects s = false.
Proof. unfold rejects. by intros ->. Qed.

Lemma db_write d s : db (write d s) = d.
Proof. reflexivity. Qed.

Lemma rejects_write d s : rejects (write d s) = rejects s.
Proof. reflexivity. Qed.

Lemma tick_write d s : tick (write d s) = write d (tick s).
Proof. reflexivity. Qed.

(** ** The cast and the arithmetic *)

Lemma cast_hex_digit_hex_digit n : cast_hex_digit (hex_digit n) = Some (hex_digit n).
Proof.
  destruct n as [|p]; [reflexivity|].
  do 4 (destruct p as [p|p|]; try reflexivity).
Qed.

Lemma cast_hex_hex_fixed w n k acc :
  cast_hex k acc = Some acc ->
  cast_hex (w + k) (hex_fixed w n acc) = Some (hex_fixed w n acc).
Proof.
  revert n k acc. induction w as [|w IH]; intros n k acc Hacc; [exact Hacc|].
  cbn [hex_fixed]. replace (S w + k)%nat with (w + S k)%nat by lia.
  apply IH. cbn [cast_hex]. by rewrite cast_hex_digit_hex_digit, Hacc.
Qed.

(** An id the driver generated casts to itself. *)
Lemma cast_ObjectId n : cast_oid (ObjectId n) = Some (ObjectId n).
Proof. exact (cast_hex_hex_fixed 24 n 0 "" eq_refl). Qed.

Lemma js_round_exact z : Z.abs z <= 2 ^ 53 -> js_round z = z.
Proof. intros H. unfold js_round. cbv zeta. by rewrite (proj2 (Z.leb_le _ _) H). Qed.

Lemma js_round_nonneg z : 0 <= z -> 0 <= js_round z.
Proof.
  intros H. unfold js_round. cbv zeta.
  destruct (Z.abs z <=? 2 ^ 53) eqn:E; [exact H|].
  apply Z.leb_gt in E.
  assert (Hz : 0 < z) by lia.
  rewrite (Z.sgn_pos _ Hz), Z.mul_1_l.
  assert (Hq : 0 <= 2 ^ (Z.log2 (Z.abs z) - 52)) by (apply Z.pow_nonneg; lia).
  assert (Hk : 0 <= Z.abs z / 2 ^ (Z.log2 (Z.abs z) - 52)).
  { apply Z_div_nonneg_nonneg; lia. }
  set (q := 2 ^ (Z.log2 (Z.abs z) - 52)) in *.
  set (k := Z.abs z / q) in *.
  destruct (2 * (Z.abs z mod q) <? q); [nia|].
  destruct (q <? 2 * (Z.abs z mod q)); [nia|].
  destruct (Z.even k); nia.
Qed.

(** The first integer that is not a double. *)
Example js_add_at_2_53 : js_add (2 ^ 53) 1 = 2 ^ 53 /\ js_sub (2 ^ 53) 1 = 2 ^ 53 - 1.
Proof. split; reflexivity. Qed.

(** ** The model methods *)

Lemma casting_run {A} x (k : oid -> DB A) s :
  casting x k s = match cast_oid x with Some id => k id s | None => (Throw, s) end.
Proof. unfold casting. by destruct (cast_oid x). Qed.

Lemma Message_findById_run x s :
  Message.findById x s =
  match cast_oid x with
  | Some id =>
      if rejects s then (Throw, tick s)
      else (Ok ((fun m => (id, m)) <$> Messages (db s) !! id), tick s)
  | None => (Throw, s)
  end.
Proof.
  unfold Message.findById. rewrite casting_run. destruct (cast_oid x); [|done].
  unfold driver_call. rewrite bind_run. by destruct (rejects s).
Qed.

Lemma Reply_findById_run x s :
  Reply.findById x s =
  match cast_oid x with
  | Some id =>
      if rejects s then (Throw, tick s) else (Ok (Replies (db s) !! id), tick s)
  | None => (Throw, s)
  end.
Proof.
  unfold Reply.findById. rewrite casting_run. destruct (cast_oid x); [|done].
  unfold driver_call. rewrite bind_run. by destruct (rejects s).
Qed.

Lemma Message_findByIdAndDelete_run x s :
  Message.findByIdAndDelete x s =
  match cast_oid x with
  | Some id =>
      if rejects s then (Throw, tick s)
      else (Ok tt, write (set_Messages (delete id) (db s)) (tick s))
  | None => (Throw, s)
  end.
Proof.
  unfold Message.findByIdAndDelete. rewrite casting_run. destruct (cast_oid x); [|done].
  unfold driver_call. rewrite bind_run. by destruct (rejects s).
Qed.

Lemma Reply_deleteOne_run x s :
  Reply.deleteOne x s =
  match cast_oid x with
  | Some id =>
      if rejects s then (Throw, tick s)
      else (Ok tt, write (set_Replies (delete id) (db s)) (tick s))
  | None => (Throw, s)
  end.
Proof.
  unfold Reply.deleteOne. rewrite casting_run. destruct (cast_oid x); [|done].
  unfold driver_call. rewrite bind_run. by destruct (rejects s).
Qed.

Lemma Appeal_findByIdAndDelete_run x s :
  Appeal.findByIdAndDelete x s =
  match cast_oid x with
  | Some id =>
      if rejects s then (Throw, tick s)
      else (Ok tt, write (set_Appeals (delete id) (db s)) (tick s))
  | None => (Throw, s)
  end.
Proof.
  unfold Appeal.findByIdAndDelete. rewrite casting_run. destruct (cast_oid x); [|done].
  unfold driver_call. rewrite bind_run. by destruct (rejects s).
Qed.

Lemma Message_save_run id doc s :
  Message.save id doc s =
  if bool_decide (Message.valid doc) then
    if rejects s then (Throw, tick s)
    else match Messages (db s) !! id with
         | Some _ => (Ok tt, write (set_Messages (<[id := doc]>) (db s)) (tick s))
         | None => (Throw, tick s)
         end
  else (Throw, s).
Proof.
  unfold Message.save. destruct (bool_decide (Message.valid doc)); [|done].
  unfold driver_call. rewrite bind_run.
  destruct (rejects s); [done|]. rewrite bind_run. simpl.
  by destruct (Messages (db s) !! id).
Qed.

(** What a handler changes of a document leaves it as valid as it was. *)
Lemma valid_with_likes n m :
  bool_decide (Message.valid (with_likes n m)) = bool_decide (Message.valid m).
Proof. reflexivity. Qed.

Lemma valid_without_reply y m :
  bool_decide (Message.valid (without_reply y m)) = bool_decide (Message.valid m).
Proof. reflexivity. Qed.

Lemma req_user_run req c s : user req = Some c -> req_user req s = (Ok c, s).
Proof. unfold req_user. by intros ->. Qed.

(** Symbolic execution of a handler applied to a state. *)
Ltac db_simpl :=
  repeat first
    [ progress (lazy beta iota zeta)
    | progress (cbn [fmap option_fmap option_map fst snd])
    | rewrite bind_run
    | rewrite ret_run
    | rewrite throw_run
    | rewrite Message_findById_run
    | rewrite Reply_findById_run
    | rewrite Message_findByIdAndDelete_run
    | rewrite Reply_deleteOne_run
    | rewrite Appeal_findByIdAndDelete_run
    | rewrite Message_save_run
    | rewrite valid_with_likes
    | rewrite valid_without_reply
    | rewrite tick_db
    | rewrite db_write
    | rewrite rejects_write
    | rewrite tick_write
    | match goal with
      | H : cast_oid ?x = _ |- context [cast_oid ?x] => rewrite H
      end ].

(** The same, for a driver that never rejects. *)
Ltac db_quiet H :=
  repeat first
    [ rewrite (rejects_quiet _ H)
    | rewrite (tick_quiet _ H)
    | progress db_simpl ].

(** ** Deleting a message or a reply: the owner or an administrator *)

Lemma delete_guard_allowed (owner : oid) (c : JwtPayload) :
  owner = userId c \/ role c = "admin" ->
  bool_decide (owner ≠ userId c) && bool_decide (role c ≠ "admin") = false.
Proof.
  intros [H|H]; apply andb_false_iff; [left|right];
    by apply bool_decide_eq_false_2; intros ?.
Qed.

Lemma delete_guard_denied (owner : oid) (c : JwtPayload) :
  ~ (owner = userId c \/ role c = "admin") ->
  bool_decide (owner ≠ userId c) && bool_decide (role c ≠ "admin") = true.
Proof.
  intros H. apply andb_true_iff.
  split; apply bool_decide_eq_true_2; intros ?; apply H; auto.
Qed.

Section DeleteMessage.
Variables (req : Request) (c : JwtPayload) (s : St).
Variables (x : string) (id : oid) (m : MessageDoc).
Hypothesis Huser : user req = Some c.
Hypothesis Hid : params req !! "id" = Some x.
Hypothesis Hcast : cast_oid x = Some id.
Hypothesis Hm : Messages (db s) !! id = Some m.

Lemma delete_message_allowed :
  m_userId m = userId c \/ role c = "admin" ->
  delete_message req s =
  if rejects s || rejects (tick s)
  then (Ok (mkRes 500 (JsonMessage "伺服器錯誤")),
        if rejects s then tick s else tick (tick s))
  else (Ok (mkRes 200 (JsonMessage "Message deleted successfully")),
        write (set_Messages (delete id) (db s)) (tick (tick s))).
Proof.
  intros Hp. unfold delete_message, try_catch, param. rewrite Hid. simpl default.
  db_simpl. destruct (rejects s); db_simpl; [done|]. rewrite Hm.
  db_simpl. rewrite (req_user_run _ _ _ Huser). db_simpl.
  rewrite (delete_guard_allowed _ _ Hp).
  db_simpl. by destruct (rejects (tick s)).
Qed.

Lemma delete_message_denied :
  ~ (m_userId m = userId c \/ role c = "admin") ->
  delete_message req s =
  if rejects s
  then (Ok (mkRes 500 (JsonMessage "伺服器錯誤")), tick s)
  else (Ok (mkRes 403 (JsonMessage "沒有權限刪除留言")), tick s).
Proof.
  intros Hp. unfold delete_message, try_catch, param. rewrite Hid. simpl default.
  db_simpl. destruct (rejects s); db_simpl; [done|]. rewrite Hm.
  db_simpl. rewrite (req_user_run _ _ _ Huser). db_simpl.
  by rewrite (delete_guard_denied _ _ Hp).
Qed.
End DeleteMessage.

Section DeleteReply.
Variables (req : Request) (c : JwtPayload) (s : St).
Variables (x y : string) (messageId replyId : oid) (m : MessageDoc) (r : ReplyDoc).
Hypothesis Huser : user req = Some c.
Hypothesis Hmid : params req !! "messageId" = Some x.
Hypothesis Hrid : params req !! "replyId" = Some y.
Hypothesis Hcastm : cast_oid x = Some messageId.
Hypothesis Hcastr : cast_oid y = Some replyId.
Hypothesis Hm : Messages (db s) !! messageId = Some m.
Hypothesis Hr : Replies (db s) !! replyId = Some r.

(** The reply is looked up and deleted under the id the route's string
    casts to; the parent's list is filtered by the string itself. *)
Lemma delete_reply_allowed :
  r_userId r = userId c \/ role c = "admin" ->
  delete_reply req s =
  let s1 := tick s in
  let s2 := tick s1 in
  let s3 := tick s2 in
  let s4 := tick s3 in
  let d3 := set_Replies (delete replyId) (db s) in
  if rejects s then failed s1
  else if rejects s1 then failed s2
  else if rejects s2 then failed s3
  else if bool_decide (Message.valid m) then
    if rejects s3 then failed (write d3 s4)
    else (Ok (mkRes 200 (Text "回覆已刪除")),
          write (set_Messages (<[messageId := without_reply y m]>) d3) s4)
  else failed (write d3 s3).
Proof.
  intros Hp. unfold delete_reply, try_catch, param, failed.
  rewrite Hmid, Hrid. simpl default.
  db_simpl. destruct (rejects s); db_simpl; [done|]. rewrite Hm. db_simpl.
  destruct (rejects (tick s)); db_simpl; [done|]. rewrite Hr. db_simpl.
  rewrite (req_user_run _ _ _ Huser). db_simpl.
  rewrite (delete_guard_allowed _ _ Hp). db_simpl.
  destruct (rejects (tick (tick s))); db_simpl; [done|].
  destruct (bool_decide (Message.valid m)); db_simpl; [|done].
  destruct (rejects (tick (tick (tick s)))); db_simpl; [done|].
  simpl Messages. rewrite Hm. by db_simpl.
Qed.

Lemma delete_reply_denied :
  ~ (r_userId r = userId c \/ role c = "admin") ->
  delete_reply req s =
  if rejects s then failed (tick s)
  else if rejects (tick s) then failed (tick (tick s))
  else (Ok (mkRes 403 (Text "無權限刪除該回覆")), tick (tick s)).
Proof.
  intros Hp. unfold delete_reply, try_catch, param, failed.
  rewrite Hmid, Hrid. simpl default.
  db_simpl. destruct (rejects s); db_simpl; [done|]. rewrite Hm. db_simpl.
  destruct (rejects (tick s)); db_simpl; [done|]. rewrite Hr. db_simpl.
  rewrite (req_user_run _ _ _ Huser). db_simpl.
  by rewrite (delete_guard_denied _ _ Hp).
Qed.
End DeleteReply.

(** C1.  A delete request on a message or on a reply, by an authenticated
    user, where the route's ids name stored documents (in whatever
    spelling of their hexadecimal digits): when the driver answers, the
    entity is deleted if and only if the session's userId is the
    entity's owner or its role is admin, and otherwise the answer is
    403.  A permitted deletion is answered 200; for a reply that is so
    when the named message passes its schema's validation, as every
    message the routes have stored does, and 500 otherwise.  Whatever
    the driver does, a request without that permission leaves the store
    as it was. *)
Theorem delete_iff_owner_or_admin (req : Request) (c : JwtPayload) (s : St) :
  user req = Some c ->
  (forall x id m,
      params req !! "id" = Some x -> cast_oid x = Some id ->
      Messages (db s) !! id = Some m ->
      exists res s',
        delete_message req s = (Ok res, s') /\
        (~ (m_userId m = userId c \/ role c = "admin") -> db s' = db s) /\
        (faults s = [] ->
         (Messages (db s') !! id = None <->
          m_userId m = userId c \/ role c = "admin") /\
         (m_userId m = userId c \/ role c = "admin" -> status res = 200%nat) /\
         (~ (m_userId m = userId c \/ role c = "admin") ->
          status res = 403%nat /\ s' = s))) /\
  (forall x y messageId replyId m r,
      params req !! "messageId" = Some x -> cast_oid x = Some messageId ->
      params req !! "replyId" = Some y -> cast_oid y = Some replyId ->
      Messages (db s) !! messageId = Some m ->
      Replies (db s) !! replyId = Some r ->
      exists res s',
        delete_reply req s = (Ok res, s') /\
        (~ (r_userId r = userId c \/ role c = "admin") -> db s' = db s) /\
        (faults s = [] ->
         (Replies (db s') !! replyId = None <->
          r_userId r = userId c \/ role c = "admin") /\
         (r_userId r = userId c \/ role c = "admin" ->
          status res = if bool_decide (Message.valid m) then 200%nat else 500%nat) /\
         (~ (r_userId r = userId c \/ role c = "admin") ->
          status res = 403%nat /\ s' = s))).
Proof.
  intros Hu. split.
  - intros x id m Hid Hc Hm.
    destruct (decide (m_userId m = userId c \/ role c = "admin")) as [Hp|Hp].
    + rewrite (delete_message_allowed _ _ _ _ _ _ Hu Hid Hc Hm Hp).
      destruct (rejects s) eqn:E1; [|destruct (rejects (tick s)) eqn:E2]; simpl;
        eexists _, _; (split; [reflexivity|]); (split; [done|]); intros Hq;
        rewrite ?(tick_quiet _ Hq), ?(rejects_quiet _ Hq) in *; try discriminate.
      simpl. rewrite lookup_delete_eq. tauto.
    + rewrite (delete_message_denied _ _ _ _ _ _ Hu Hid Hc Hm Hp).
      destruct (rejects s) eqn:E1;
        eexists _, _; (split; [reflexivity|]); (split; [done|]); intros Hq;
        rewrite ?(tick_quiet _ Hq), ?(rejects_quiet _ Hq) in *; try discriminate.
      rewrite Hm. split; [|done]. split; [done|tauto].
  - intros x y mid rid m r Hmid Hcm Hrid Hcr Hm Hr.
    destruct (decide (r_userId r = userId c \/ role c = "admin")) as [Hp|Hp].
    + rewrite (delete_reply_allowed _ _ _ _ _ _ _ _ _ Hu Hmid Hrid Hcm Hcr Hm Hr Hp).
      cbv zeta. unfold failed.
      destruct (rejects s) eqn:E1; [|destruct (rejects (tick s)) eqn:E2;
        [|destruct (rejects (tick (tick s))) eqn:E3;
          [|destruct (bool_decide (Message.valid m)) eqn:Ev;
            [destruct (rejects (tick (tick (tick s)))) eqn:E4|]]]];
        eexists _, _; (split; [reflexivity|]); (split; [done|]); intros Hq;
        rewrite ?(tick_quiet _ Hq), ?(rejects_quiet _ Hq) in *; try discriminate;
        simpl; rewrite lookup_delete_eq; tauto.
    + rewrite (delete_reply_denied _ _ _ _ _ _ _ _ _ Hu Hmid Hrid Hcm Hcr Hm Hr Hp).
      unfold failed.
      destruct (rejects s) eqn:E1; [|destruct (rejects (tick s)) eqn:E2];
        eexists _, _; (split; [reflexivity|]); (split; [done|]); intros Hq;
        rewrite ?(tick_quiet _ Hq), ?(rejects_quiet _ Hq) in *; try discriminate.
      rewrite Hr. split; [|done]. split; [done|tauto].
Qed.

Lemma delete_iff_owner_or_admin_witness :
  (exists res s',
      delete_message (request [("id", mid1)] [] (Some bob)) st0 = (Ok res, s') /\
      status res = 403%nat /\ s' = st0) /\
  (exists res s',
      delete_reply (request [("messageId", mid1); ("replyId", rid1_upper)] [] (Some root)) st0
      = (Ok res, s') /\
      status res = 200%nat /\ Replies (db s') !! rid1 = None).
Proof.
  split.
  - destruct (proj1 (delete_iff_owner_or_admin
                       (request [("id", mid1)] [] (Some bob)) bob st0 eq_refl)
                mid1 mid1 msg1 eq_refl eq_refl eq_refl) as (res & s' & Hrun & _ & Hq).
    destruct (Hq eq_refl) as (_ & _ & Hdenied).
    exists res, s'. split; [exact Hrun|].
    apply Hdenied. intros [H|H]; discriminate H.
  - destruct (proj2 (delete_iff_owner_or_admin
                       (request [("messageId", mid1); ("replyId", rid1_upper)] [] (Some root))
                       root st0 eq_refl)
                mid1 rid1_upper mid1 rid1 msg1 reply1
                eq_refl eq_refl eq_refl eq_refl eq_refl eq_refl)
      as (res & s' & Hrun & _ & Hq).
    destruct (Hq eq_refl) as (Hiff & Hallowed & _).
    exists res, s'. split; [exact Hrun|]. split.
    + exact (Hallowed (or_intror eq_refl)).
    + apply Hiff. right. reflexivity.
Defined.

(** ** The session validator *)

Example split_bearer_token :
  split " " "Bearer tok.alice" = ["Bearer"; "tok.alice"].
Proof. reflexivity. Qed.

Example split_bearer_alone :
  split " " "Bearer" !! 1%nat = None /\ split " " "Bearer " !! 1%nat = Some "".
Proof. split; reflexivity. Qed.

(** Two spaces after the scheme: the second segment is empty. *)
Example split_two_spaces :
  split " " "Bearer  tok.alice" = ["Bearer"; ""; "tok.alice"].
Proof. reflexivity. Qed.

Lemma Date_now_run s : Date_now s = (Ok (now s), s).
Proof. reflexivity. Qed.

(** C2.  On a protected route the validator answers 401 when the
    Authorization header is missing or has no second segment (no token
    after Bearer), and 403 when the token's signature does not verify or
    its expiry time has been reached; in each of these cases the handler
    is not run and the state is the one the request found.  Otherwise the
    handler runs on the request with the decoded payload as [req.user],
    from that same state. *)
Theorem authMiddleware_validates
    (env_SECRET_KEY : option string) (jwt_decode : string -> string -> option JwtPayload)
    (req : Request) (next : Handler) (s : St) :
  (authorization req = None \/ authorization req = Some "" ->
   authMiddleware env_SECRET_KEY jwt_decode req next s
   = (Ok (mkRes 401 (Text "未提供 Authorization 標頭")), s)) /\
  (forall h,
      authorization req = Some h -> h <> "" ->
      split " " h !! 1%nat = None \/ split " " h !! 1%nat = Some "" ->
      authMiddleware env_SECRET_KEY jwt_decode req next s
      = (Ok (mkRes 401 (Text "未提供 token")), s)) /\
  (authorization req = Some "Bearer" \/ authorization req = Some "Bearer " ->
   authMiddleware env_SECRET_KEY jwt_decode req next s
   = (Ok (mkRes 401 (Text "未提供 token")), s)) /\
  (forall h token,
      authorization req = Some h ->
      split " " h !! 1%nat = Some token -> token <> "" ->
      (jwt_decode token (SECRET_KEY env_SECRET_KEY) = None ->
       authMiddleware env_SECRET_KEY jwt_decode req next s
       = (Ok (mkRes 403 (Text "無效的 token")), s)) /\
      (forall decoded e,
          jwt_decode token (SECRET_KEY env_SECRET_KEY) = Some decoded ->
          exp decoded = Some e -> e <= now s / 1000 ->
          authMiddleware env_SECRET_KEY jwt_decode req next s
          = (Ok (mkRes 403 (Text "無效的 token")), s)) /\
      (forall decoded,
          jwt_decode token (SECRET_KEY env_SECRET_KEY) = Some decoded ->
          (forall e, exp decoded = Some e -> now s / 1000 < e) ->
          authMiddleware env_SECRET_KEY jwt_decode req next s
          = next (mkReq (authorization req) (params req) (body req) (Some decoded)) s)).
Proof.
  assert (Hseg : forall h, authorization req = Some h -> h <> "" ->
            split " " h !! 1%nat = None \/ split " " h !! 1%nat = Some "" ->
            authMiddleware env_SECRET_KEY jwt_decode req next s
            = (Ok (mkRes 401 (Text "未提供 token")), s)).
  { intros h Hh Hne Hseg. unfold authMiddleware. rewrite Hh. simpl.
    rewrite bool_decide_eq_false_2 by done.
    destruct Hseg as [-> | ->]; reflexivity. }
  split; [|split; [exact Hseg|split]].
  - intros [Hh|Hh]; unfold authMiddleware; by rewrite Hh.
  - intros [Hh|Hh]; apply (Hseg _ Hh); try done; [by left | by right].
  - intros h token Hh Htok Hne.
    assert (Hhne : h <> "") by (intros ->; discriminate Htok).
    unfold authMiddleware. rewrite Hh. simpl.
    rewrite bool_decide_eq_false_2 by done. rewrite Htok. simpl.
    rewrite bool_decide_eq_false_2 by done.
    unfold jwt_verify, try_catch, with_user.
    split; [|split].
    + intros ->. by db_simpl.
    + intros decoded e -> He Hle. db_simpl. rewrite Date_now_run. db_simpl.
      rewrite He. rewrite bool_decide_eq_true_2 by lia. by db_simpl.
    + intros decoded -> Hlive. db_simpl. rewrite Date_now_run. db_simpl.
      destruct (exp decoded) as [e|] eqn:He; [|db_simpl; by rewrite Hh].
      specialize (Hlive e eq_refl).
      rewrite bool_decide_eq_false_2 by lia. db_simpl. by rewrite Hh.
Qed.

Lemma authMiddleware_validates_witness :
  (forall next : Handler,
      authMiddleware None sample_decode
        (mkReq (Some "Bearer tok.alice") ∅ ∅ None) next
        (mkSt db0 [] 1 1700003600000)
      = (Ok (mkRes 403 (Text "無效的 token")), mkSt db0 [] 1 1700003600000)) /\
  (forall next : Handler,
      authMiddleware None sample_decode
        (mkReq (Some "Bearer tok.alice") ∅ ∅ None) next st0
      = next (mkReq (Some "Bearer tok.alice") ∅ ∅ (Some alice)) st0).
Proof.
  split; intros next.
  - refine (proj1 (proj2 (proj2 (proj2 (proj2 (authMiddleware_validates
              None sample_decode (mkReq (Some "Bearer tok.alice") ∅ ∅ None) next
              (mkSt db0 [] 1 1700003600000))))
            "Bearer tok.alice" "tok.alice" eq_refl eq_refl _))
          alice 1700003600 eq_refl eq_refl _).
    + discriminate.
    + vm_compute. discriminate.
  - refine (proj2 (proj2 (proj2 (proj2 (proj2 (authMiddleware_validates
              None sample_decode (mkReq (Some "Bearer tok.alice") ∅ ∅ None) next st0)))
            "Bearer tok.alice" "tok.alice" eq_refl eq_refl _))
          alice eq_refl _).
    + discriminate.
    + intros e He. injection He as <-. reflexivity.
Defined.

(** ** Editing a message *)

Section PutMessage.
Variables (req : Request) (c : JwtPayload) (s : St).
Variables (x : string) (id : oid) (m : MessageDoc).
Hypothesis Huser : user req = Some c.
Hypothesis Hid : params req !! "id" = Some x.
Hypothesis Hcast : cast_oid x = Some id.
Hypothesis Hm : Messages (db s) !! id = Some m.

Lemma put_message_denied :
  m_userId m ≠ userId c ->
  put_message req s =
  if rejects s
  then (Ok (mkRes 500 (Text "編輯留言失敗")), tick s)
  else (Ok (mkRes 403 (Text "無權編輯此留言")), tick s).
Proof.
  intros Hp. unfold put_message, try_catch, param. rewrite Hid. simpl default.
  db_simpl. destruct (rejects s); db_simpl; [done|]. rewrite Hm.
  db_simpl. rewrite (req_user_run _ _ _ Huser). db_simpl.
  by rewrite bool_decide_eq_true_2.
Qed.

(** The patched document is validated before it is sent. *)
Lemma put_message_allowed :
  m_userId m = userId c ->
  put_message req s =
  let m' :=
    assign_if_defined (body req !! "textColor") with_textColor
      (assign_if_defined (body req !! "message") with_message
         (assign_if_defined (body req !! "name") with_name m)) in
  if rejects s then (Ok (mkRes 500 (Text "編輯留言失敗")), tick s)
  else if bool_decide (Message.valid m') then
    if rejects (tick s) then (Ok (mkRes 500 (Text "編輯留言失敗")), tick (tick s))
    else (Ok (mkRes 200 (SentMessage id m')),
          write (set_Messages (<[id := m']>) (db s)) (tick (tick s)))
  else (Ok (mkRes 500 (Text "編輯留言失敗")), tick s).
Proof.
  intros Hp. unfold put_message, try_catch, param. rewrite Hid. simpl default.
  db_simpl. destruct (rejects s); db_simpl; [done|]. rewrite Hm.
  db_simpl. rewrite (req_user_run _ _ _ Huser). db_simpl.
  rewrite bool_decide_eq_false_2 by (intros H; by apply H).
  db_simpl.
  match goal with |- context [bool_decide (Message.valid ?d)] =>
    destruct (bool_decide (Message.valid d)) end; db_simpl; [|done].
  destruct (rejects (tick s)); db_simpl; [done|].
  rewrite Hm. by db_simpl.
Qed.
End PutMessage.

(** C3.  An edit request on a stored message by an authenticated user who
    is not its owner, whatever the user's role (admin included): the
    store is left as it was, and when the driver answers the response is
    403 and nothing at all has changed. *)
Theorem edit_by_non_owner_is_forbidden
    (req : Request) (c : JwtPayload) (s : St)
    (x : string) (id : oid) (m : MessageDoc) :
  user req = Some c ->
  params req !! "id" = Some x -> cast_oid x = Some id ->
  Messages (db s) !! id = Some m ->
  m_userId m ≠ userId c ->
  exists res s',
    put_message req s = (Ok res, s') /\
    db s' = db s /\
    (status res = 403%nat \/ status res = 500%nat) /\
    (faults s = [] -> res = mkRes 403 (Text "無權編輯此留言") /\ s' = s).
Proof.
  intros Hu Hid Hc Hm Hp. rewrite (put_message_denied _ _ _ _ _ _ Hu Hid Hc Hm Hp).
  destruct (rejects s) eqn:E; eexists _, _; (split; [reflexivity|]);
    (split; [done|]); (split; [by (left + right)|]); intros Hq.
  - rewrite (rejects_quiet _ Hq) in E. discriminate.
  - by rewrite (tick_quiet _ Hq).
Qed.

Lemma edit_by_non_owner_is_forbidden_witness :
  role root = "admin" /\
  put_message (request [("id", mid1)] [("message", "edited")] (Some root)) st0
  = (Ok (mkRes 403 (Text "無權編輯此留言")), st0).
Proof.
  split; [reflexivity|].
  destruct (edit_by_non_owner_is_forbidden
              (request [("id", mid1)] [("message", "edited")] (Some root))
              root st0 mid1 mid1 msg1 eq_refl eq_refl eq_refl eq_refl)
    as (res & s' & Hrun & _ & _ & Hq).
  - discriminate.
  - destruct (Hq eq_refl) as [-> ->]. exact Hrun.
Defined.




(** ** Likes *)

Lemma like_message_run req s :
  like_message req s =
  match cast_oid (param req "id") with
  | None => (Ok (mkRes 500 (Text "點讚失败")), s)
  | Some id =>
      if rejects s then (Ok (mkRes 500 (Text "點讚失败")), tick s)
      else match Messages (db s) !! id with
           | None => (Ok (mkRes 404 (Text "留言不存在")), tick s)
           | Some m =>
               let m' := with_likes (js_add (m_likes m) 1) m in
               if bool_decide (Message.valid m) then
                 if rejects (tick s)
                 then (Ok (mkRes 500 (Text "點讚失败")), tick (tick s))
                 else (Ok (mkRes 200 (SentMessage id m')),
                       write (set_Messages (<[id := m']>) (db s)) (tick (tick s)))
               else (Ok (mkRes 500 (Text "點讚失败")), tick s)
           end
  end.
Proof.
  unfold like_message, try_catch. db_simpl.
  destruct (cast_oid (param req "id")) as [id|]; db_simpl; [|done].
  destruct (rejects s); db_simpl; [done|].
  destruct (Messages (db s) !! id) as [m|] eqn:Hm; db_simpl; [|done].
  destruct (bool_decide (Message.valid m)); db_simpl; [|done].
  destruct (rejects (tick s)); db_simpl; [done|].
  rewrite Hm. by db_simpl.
Qed.

Lemma unlike_message_run req s :
  unlike_message req s =
  match cast_oid (param req "id") with
  | None => (Ok (mkRes 500 (Text "取消點讚失敗")), s)
  | Some id =>
      if rejects s then (Ok (mkRes 500 (Text "取消點讚失敗")), tick s)
      else match Messages (db s) !! id with
           | None => (Ok (mkRes 404 (Text "留言不存在")), tick s)
           | Some m =>
               let m' := if bool_decide (m_likes m > 0)
                         then with_likes (js_sub (m_likes m) 1) m else m in
               if bool_decide (Message.valid m) then
                 if rejects (tick s)
                 then (Ok (mkRes 500 (Text "取消點讚失敗")), tick (tick s))
                 else (Ok (mkRes 200 (SentMessage id m')),
                       write (set_Messages (<[id := m']>) (db s)) (tick (tick s)))
               else (Ok (mkRes 500 (Text "取消點讚失敗")), tick s)
           end
  end.
Proof.
  unfold unlike_message, try_catch. db_simpl.
  destruct (cast_oid (param req "id")) as [id|]; db_simpl; [|done].
  destruct (rejects s); db_simpl; [done|].
  destruct (Messages (db s) !! id) as [m|] eqn:Hm; db_simpl; [|done].
  assert (Hv : forall b : bool,
    bool_decide (Message.valid (if b then with_likes (js_sub (m_likes m) 1) m else m))
    = bool_decide (Message.valid m)) by (by intros []).
  rewrite Hv.
  destruct (bool_decide (Message.valid m)); db_simpl; [|done].
  destruct (rejects (tick s)); db_simpl; [done|].
  rewrite Hm. by db_simpl.
Qed.

Lemma param_lookup req x v : params req !! x = Some v -> param req x = v.
Proof. unfold param. by intros ->. Qed.

Lemma likes_nonneg_insert d id m :
  likes_nonneg d -> 0 <= m_likes m ->
  likes_nonneg (set_Messages (<[id := m]>) d).
Proof.
  intros Hd Hm id' m'. simpl. rewrite lookup_insert.
  case_decide; [|by apply Hd]. intros [= <-]. exact Hm.
Qed.

Lemma vote_keeps_likes_nonneg v req s :
  likes_nonneg (db s) -> likes_nonneg (db (vote_handler v req s).2).
Proof.
  intros Hs. destruct v; simpl; [rewrite like_message_run|rewrite unlike_message_run];
    (destruct (cast_oid (param req "id")) as [id|]; [|done]);
    cbv zeta; (destruct (rejects s); [done|]);
    (destruct (Messages (db s) !! id) as [m|] eqn:Hm; [|done]);
    (destruct (bool_decide (Message.valid m)); [|done]);
    (destruct (rejects (tick s)); [done|]);
    simpl; apply likes_nonneg_insert; trivial; pose proof (Hs _ _ Hm).
  - simpl. apply js_round_nonneg. lia.
  - case_bool_decide; simpl; [apply js_round_nonneg|]; lia.
Qed.

(** C4, as the claim has it, fails at the largest count a number holds
    exactly: on a message with 2^53 likes, like answers 200 and stores
    2^53 again, the count is not incremented. *)
Lemma like_at_2_53_does_not_increment :
  Messages (db st_max) !! mid1 = Some msg1_max /\
  m_likes msg1_max = 2 ^ 53 /\
  exists s',
    like_message (request [("id", mid1)] [] (Some bob)) st_max
    = (Ok (mkRes 200 (SentMessage mid1 msg1_max)), s') /\
    Messages (db s') !! mid1 = Some msg1_max /\
    m_likes msg1_max ≠ 2 ^ 53 + 1.
Proof.
  split; [reflexivity|]. split; [reflexivity|]. eexists. split.
  - rewrite like_message_run. vm_compute. reflexivity.
  - split; [vm_compute; reflexivity|]. vm_compute. discriminate.
Qed.

(** C4 (amended).  On a stored message that passes its schema's
    validation, with a count below 2^53, like stores the count plus one
    and nothing else of the message changes; unlike stores the count
    minus one when it is above zero and leaves the message as it is
    otherwise, answering 200 all the same.  No sequence of like and
    unlike requests, whatever the driver does and however large the
    counts, takes a store without negative counts to one with a negative
    count. *)
Theorem like_count_below_2_53 :
  (forall req s x id m,
      params req !! "id" = Some x -> cast_oid x = Some id ->
      Messages (db s) !! id = Some m -> Message.valid m ->
      faults s = [] -> 0 <= m_likes m < 2 ^ 53 ->
      exists m',
        like_message req s
        = (Ok (mkRes 200 (SentMessage id m')),
           write (set_Messages (<[id := m']>) (db s)) s) /\
        m_likes m' = m_likes m + 1 /\
        m' = mkMessage (m_name m) (m_message m) (m_userId m) (m_textColor m)
               (m_images m) (m_likes m + 1) (m_replies m)) /\
  (forall req s x id m,
      params req !! "id" = Some x -> cast_oid x = Some id ->
      Messages (db s) !! id = Some m -> Message.valid m ->
      faults s = [] -> 0 < m_likes m <= 2 ^ 53 ->
      exists m',
        unlike_message req s
        = (Ok (mkRes 200 (SentMessage id m')),
           write (set_Messages (<[id := m']>) (db s)) s) /\
        m_likes m' = m_likes m - 1 /\
        m' = mkMessage (m_name m) (m_message m) (m_userId m) (m_textColor m)
               (m_images m) (m_likes m - 1) (m_replies m)) /\
  (forall req s x id m,
      params req !! "id" = Some x -> cast_oid x = Some id ->
      Messages (db s) !! id = Some m -> Message.valid m ->
      faults s = [] -> m_likes m = 0 ->
      unlike_message req s = (Ok (mkRes 200 (SentMessage id m)), s)) /\
  (forall l s, likes_nonneg (db s) -> likes_nonneg (db (serve_votes l s))).
Proof.
  split; [|split; [|split]].
  - intros req s x id m Hid Hc Hm Hv Hq Hrange. rewrite like_message_run.
    rewrite (param_lookup _ _ _ Hid), Hc. cbv zeta.
    rewrite !(tick_quiet _ Hq), !(rejects_quiet _ Hq), Hm.
    rewrite (bool_decide_eq_true_2 _ Hv).
    unfold js_add. rewrite js_round_exact by lia.
    eexists. split; [reflexivity|]. split; reflexivity.
  - intros req s x id m Hid Hc Hm Hv Hq Hrange. rewrite unlike_message_run.
    rewrite (param_lookup _ _ _ Hid), Hc. cbv zeta.
    rewrite !(tick_quiet _ Hq), !(rejects_quiet _ Hq), Hm.
    rewrite (bool_decide_eq_true_2 _ Hv).
    rewrite (bool_decide_eq_true_2 (m_likes m > 0)) by lia.
    unfold js_sub. rewrite js_round_exact by lia.
    eexists. split; [reflexivity|]. split; reflexivity.
  - intros req s x id m Hid Hc Hm Hv Hq Hzero. rewrite unlike_message_run.
    rewrite (param_lookup _ _ _ Hid), Hc. cbv zeta.
    rewrite !(tick_quiet _ Hq), !(rejects_quiet _ Hq), Hm.
    rewrite (bool_decide_eq_true_2 _ Hv).
    rewrite (bool_decide_eq_false_2 (m_likes m > 0)) by lia.
    f_equal. destruct s as [[ms rs aps] fs n t]. simpl in *.
    unfold write, set_Messages. simpl. by rewrite insert_id.
  - induction l as [|[v req] l IH]; intros s Hs; [exact Hs|].
    simpl. apply IH. by apply vote_keeps_likes_nonneg.
Qed.

Lemma likes_nonneg_db0 : likes_nonneg db0.
Proof.
  intros id m H. unfold db0 in H. cbn [Messages] in H.
  apply lookup_insert_Some in H as [[_ <-]|[_ H]]; [done|].
  apply lookup_insert_Some in H as [[_ <-]|[_ H]]; [done|].
  by rewrite lookup_empty in H.
Qed.

Lemma valid_msg1 : Message.valid msg1.
Proof. split; discriminate. Defined.

Lemma valid_msg2 : Message.valid msg2.
Proof. split; discriminate. Defined.

Lemma like_count_below_2_53_witness :
  (exists s',
     like_message (request [("id", mid1)] [] (Some bob)) st0
     = (Ok (mkRes 200 (SentMessage mid1
              (mkMessage "alice" "hi" (userId alice) "#000" [] 1 [rid1]))), s') /\
     Messages (db s') !! mid1
     = Some (mkMessage "alice" "hi" (userId alice) "#000" [] 1 [rid1])) /\
  (exists s',
     unlike_message (request [("id", mid2)] [] (Some alice)) st0
     = (Ok (mkRes 200 (SentMessage mid2
              (mkMessage "bob" "hello" (userId bob) "#00f" ["1700000000000-cat.png"] 1 []))),
        s') /\
     Messages (db s') !! mid2
     = Some (mkMessage "bob" "hello" (userId bob) "#00f" ["1700000000000-cat.png"] 1 [])) /\
  unlike_message (request [("id", mid1)] [] (Some bob)) st0
  = (Ok (mkRes 200 (SentMessage mid1 msg1)), st0) /\
  likes_nonneg
    (db (serve_votes
           [(Like, request [("id", mid1)] [] (Some bob));
            (Unlike, request [("id", mid1)] [] (Some bob));
            (Unlike, request [("id", mid1)] [] (Some alice))] st0)).
Proof.
  split; [|split; [|split]].
  - destruct (proj1 like_count_below_2_53
                (request [("id", mid1)] [] (Some bob)) st0 mid1 mid1 msg1
                eq_refl eq_refl eq_refl valid_msg1 eq_refl)
      as (m' & Hrun & _ & ->).
    + split; [discriminate | reflexivity].
    + eexists. split; [exact Hrun | reflexivity].
  - destruct (proj1 (proj2 like_count_below_2_53)
                (request [("id", mid2)] [] (Some alice)) st0 mid2 mid2 msg2
                eq_refl eq_refl eq_refl valid_msg2 eq_refl)
      as (m' & Hrun & _ & ->).
    + split; [reflexivity | discriminate].
    + eexists. split; [exact Hrun | reflexivity].
  - exact (proj1 (proj2 (proj2 like_count_below_2_53))
             (request [("id", mid1)] [] (Some bob)) st0 mid1 mid1 msg1
             eq_refl eq_refl eq_refl valid_msg1 eq_refl eq_refl).
  - apply (proj2 (proj2 (proj2 like_count_below_2_53))).
    exact likes_nonneg_db0.
Defined.

(** ** Deleting an appeal *)

Lemma delete_appeal_run req s :
  delete_appeal req s =
  match cast_oid (param req "id") with
  | None => (Ok (mkRes 500 (JsonMessage "無法刪除申訴")), s)
  | Some id =>
      if rejects s
      then (Ok (mkRes 500 (JsonMessage "無法刪除申訴")), tick s)
      else (Ok (mkRes 200 (JsonMessage "申訴已刪除")),
            write (set_Appeals (delete id) (db s)) (tick s))
  end.
Proof.
  unfold delete_appeal, try_catch. db_simpl.
  destruct (cast_oid (param req "id")); db_simpl; [|done].
  by destruct (rejects s); db_simpl.
Qed.

(** C7, as the claim has it, fails for an id that is not an ObjectId:
    [DELETE /api/appeals/abc] is answered 500 although the driver
    answers every call, and no call is made. *)
Lemma delete_appeal_with_malformed_id :
  faults st0 = [] /\
  delete_appeal (request [("id", "abc")] [] (Some bob)) st0
  = (Ok (mkRes 500 (JsonMessage "無法刪除申訴")), st0).
Proof. split; reflexivity. Qed.

(** C7 (amended).  The appeal deletion reads neither [req.user] nor the
    stored appeal, only the form of the id.  Where the id is a
    well-formed ObjectId string it answers 200, with the id removed from
    the collection, unless the driver rejects the call, and then it
    answers 500.  Where it is not, it answers 500 and makes no call.  It
    never answers 403 or 404. *)
Theorem delete_appeal_checks_only_the_id (req : Request) (s : St) :
  (forall id,
      cast_oid (param req "id") = Some id ->
      delete_appeal req s =
      if rejects s
      then (Ok (mkRes 500 (JsonMessage "無法刪除申訴")), tick s)
      else (Ok (mkRes 200 (JsonMessage "申訴已刪除")),
            write (set_Appeals (delete id) (db s)) (tick s))) /\
  (cast_oid (param req "id") = None ->
   delete_appeal req s = (Ok (mkRes 500 (JsonMessage "無法刪除申訴")), s)) /\
  (forall u, delete_appeal (mkReq (authorization req) (params req) (body req) u) s
             = delete_appeal req s) /\
  (exists res s',
      delete_appeal req s = (Ok res, s') /\
      (status res = 200%nat \/ status res = 500%nat) /\
      status res <> 403%nat /\ status res <> 404%nat /\
      (forall id,
          cast_oid (param req "id") = Some id -> faults s = [] ->
          status res = 200%nat /\ Appeals (db s') !! id = None)).
Proof.
  split; [|split; [|split]].
  - intros id Hc. by rewrite delete_appeal_run, Hc.
  - intros Hc. by rewrite delete_appeal_run, Hc.
  - intros u. by rewrite !delete_appeal_run.
  - rewrite delete_appeal_run.
    destruct (cast_oid (param req "id")) as [id|] eqn:Hc;
      [destruct (rejects s) eqn:E|]; eexists _, _;
      (split; [reflexivity|]); simpl; (split; [by (left + right)|]);
      (split; [done|]); (split; [done|]); intros id' Hid' Hq; try discriminate.
    + rewrite (rejects_quiet _ Hq) in E. discriminate.
    + injection Hid' as <-. split; [done|]. apply lookup_delete_eq.
Qed.

Lemma delete_appeal_checks_only_the_id_witness :
  Appeals (db st0) !! mid2 = None /\
  (exists res s',
    delete_appeal (request [("id", mid2)] [] (Some bob)) st0 = (Ok res, s') /\
    status res = 200%nat) /\
  delete_appeal (request [("id", "xyz")] [] (Some root)) st0
  = (Ok (mkRes 500 (JsonMessage "無法刪除申訴")), st0).
Proof.
  split; [reflexivity|]. split.
  - destruct (proj2 (proj2 (proj2 (delete_appeal_checks_only_the_id
                              (request [("id", mid2)] [] (Some bob)) st0))))
      as (res & s' & Hrun & _ & _ & _ & Hq).
    exists res, s'. split; [exact Hrun|]. exact (proj1 (Hq mid2 eq_refl eq_refl)).
  - exact (proj1 (proj2 (delete_appeal_checks_only_the_id
                           (request [("id", "xyz")] [] (Some root)) st0)) eq_refl).
Defined.

(** ** What a deletion leaves behind *)

(** C9.  A permitted deletion of a message removes the message only: the
    collection of replies is the same afterwards, so every reply whose
    messageId is the deleted message is still stored. *)
Theorem delete_message_keeps_replies
    (req : Request) (c : JwtPayload) (s : St)
    (x : string) (id : oid) (m : MessageDoc) :
  user req = Some c ->
  params req !! "id" = Some x -> cast_oid x = Some id ->
  Messages (db s) !! id = Some m ->
  m_userId m = userId c \/ role c = "admin" ->
  exists res s',
    delete_message req s = (Ok res, s') /\
    Replies (db s') = Replies (db s) /\
    (forall rid r,
        Replies (db s) !! rid = Some r -> r_messageId r = id ->
        Replies (db s') !! rid = Some r) /\
    (faults s = [] -> status res = 200%nat /\ Messages (db s') !! id = None).
Proof.
  intros Hu Hid Hc Hm Hp. rewrite (delete_message_allowed _ _ _ _ _ _ Hu Hid Hc Hm Hp).
  destruct (rejects s) eqn:E1; [|destruct (rejects (tick s)) eqn:E2]; simpl;
    eexists _, _; (split; [reflexivity|]); (split; [reflexivity|]);
    (split; [by intros rid r Hr _|]); intros Hq;
    rewrite ?(tick_quiet _ Hq), ?(rejects_quiet _ Hq) in *; try discriminate.
  split; [done|]. simpl. apply lookup_delete_eq.
Qed.

Lemma delete_message_keeps_replies_witness :
  r_messageId reply1 = mid1 /\
  exists res s',
    delete_message (request [("id", mid1)] [] (Some alice)) st0 = (Ok res, s') /\
    status res = 200%nat /\
    Messages (db s') !! mid1 = None /\
    Replies (db s') !! rid1 = Some reply1.
Proof.
  split; [reflexivity|].
  destruct (delete_message_keeps_replies
              (request [("id", mid1)] [] (Some alice)) alice st0 mid1 mid1 msg1
              eq_refl eq_refl eq_refl eq_refl (or_introl eq_refl))
    as (res & s' & Hrun & _ & Hkept & Hq).
  destruct (Hq eq_refl) as [H200 Hgone].
  exists res, s'. split; [exact Hrun|]. split; [exact H200|]. split; [exact Hgone|].
  exact (Hkept rid1 reply1 eq_refl eq_refl).
Defined.

Lemma delete_reply_not_found req s x y messageId replyId m :
  params req !! "messageId" = Some x -> cast_oid x = Some messageId ->
  params req !! "replyId" = Some y -> cast_oid y = Some replyId ->
  Messages (db s) !! messageId = Some m ->
  Replies (db s) !! replyId = None ->
  faults s = [] ->
  delete_reply req s = (Ok (mkRes 404 (Text "回覆未找到")), s).
Proof.
  intros Hmid Hcm Hrid Hcr Hm Hr Hq. unfold delete_reply, try_catch, param.
  rewrite Hmid, Hrid. simpl default. db_quiet Hq. rewrite Hm.
  db_quiet Hq. rewrite Hr. by db_quiet Hq.
Qed.

Lemma not_in_without_reply replyId m : replyId ∉ m_replies (without_reply replyId m).
Proof.
  unfold without_reply. simpl. intros H.
  apply list_elem_of_filter in H as [H _]. by apply H.
Qed.

(** The filter keeps every id whose [toString()] is not the string
    given: all of them, when the string is not in lower case. *)
Lemma without_reply_other y m :
  y ∉ m_replies m -> without_reply y m = m.
Proof.
  intros Hy. destruct m as [n t u c i l rs]. unfold without_reply, with_replies.
  simpl in *. f_equal.
  induction rs as [|r rs IH]; [reflexivity|].
  apply not_elem_of_cons in Hy as [Hne Hy].
  rewrite filter_cons_True by (intros ->; by apply Hne). by rewrite IH.
Qed.

(** C6 (the code departs from it).  Two permitted deletions of a stored
    reply under its stored parent that leave the reply's id in the
    parent's list although the reply is gone.  With the reply's id
    spelled in upper case, the reply is found and deleted under the id
    the string casts to, the parent's list is filtered by the string
    itself, which no stored id equals, and the answer is 200.  With the
    driver rejecting the save of the parent, the reply has been deleted
    already, and the answer is 500. *)
Theorem delete_reply_leaves_reference :
  Messages (db st0) !! mid1 = Some msg1 /\
  Replies (db st0) !! rid1 = Some reply1 /\
  r_userId reply1 = userId bob /\
  cast_oid rid1_upper = Some rid1 /\
  (exists s',
      delete_reply (request [("messageId", mid1); ("replyId", rid1_upper)] [] (Some bob)) st0
      = (Ok (mkRes 200 (Text "回覆已刪除")), s') /\
      Replies (db s') !! rid1 = None /\
      Messages (db s') !! mid1 = Some msg1 /\
      rid1 ∈ m_replies msg1) /\
  (exists s',
      delete_reply (request [("messageId", mid1); ("replyId", rid1)] [] (Some bob))
        (mkSt db0 [false; false; false; true] 1 1700001800000)
      = (Ok (mkRes 500 (Text "刪除回覆失敗")), s') /\
      Replies (db s') !! rid1 = None /\
      Messages (db s') !! mid1 = Some msg1 /\
      rid1 ∈ m_replies msg1).
Proof.
  do 4 (split; [reflexivity|]). split.
  - eexists. split.
    + rewrite (delete_reply_allowed
                 (request [("messageId", mid1); ("replyId", rid1_upper)] [] (Some bob))
                 bob st0 mid1 rid1_upper mid1 rid1 msg1 reply1
                 eq_refl eq_refl eq_refl eq_refl eq_refl eq_refl eq_refl
                 (or_introl eq_refl)).
      reflexivity.
    + split; [reflexivity|]. split; [reflexivity|]. apply list_elem_of_here.
  - eexists. split.
    + rewrite (delete_reply_allowed
                 (request [("messageId", mid1); ("replyId", rid1)] [] (Some bob))
                 bob (mkSt db0 [false; false; false; true] 1 1700001800000)
                 mid1 rid1 mid1 rid1 msg1 reply1
                 eq_refl eq_refl eq_refl eq_refl eq_refl eq_refl eq_refl
                 (or_introl eq_refl)).
      reflexivity.
    + split; [reflexivity|]. split; [reflexivity|]. apply list_elem_of_here.
Qed.

(** What the handler does achieve: with the reply's id in lower case, as
    [toString()] gives it, an answer of 200 means that the reply is gone
    and that its id has left the list of the named message. *)
Lemma delete_reply_lower_case
    (req : Request) (c : JwtPayload) (s : St)
    (x : string) (messageId replyId : oid) (m : MessageDoc) (r : ReplyDoc) :
  user req = Some c ->
  params req !! "messageId" = Some x -> cast_oid x = Some messageId ->
  params req !! "replyId" = Some replyId -> cast_oid replyId = Some replyId ->
  Messages (db s) !! messageId = Some m ->
  Replies (db s) !! replyId = Some r ->
  r_userId r = userId c \/ role c = "admin" ->
  exists res s',
    delete_reply req s = (Ok res, s') /\
    (status res = 200%nat \/ status res = 500%nat) /\
    (status res = 200%nat ->
     Replies (db s') = delete replyId (Replies (db s)) /\
     Messages (db s') !! messageId = Some (without_reply replyId m) /\
     (replyId ∉ m_replies (without_reply replyId m)) /\
     (forall z, z ≠ replyId -> z ∈ m_replies m -> z ∈ m_replies (without_reply replyId m)) /\
     (faults s' = [] ->
      delete_reply req s' = (Ok (mkRes 404 (Text "回覆未找到")), s'))) /\
    (faults s = [] -> Message.valid m -> status res = 200%nat).
Proof.
  intros Hu Hmid Hcm Hrid Hcr Hm Hr Hp.
  rewrite (delete_reply_allowed _ _ _ _ _ _ _ _ _ Hu Hmid Hrid Hcm Hcr Hm Hr Hp).
  cbv zeta. unfold failed.
  destruct (rejects s) eqn:E1; [|destruct (rejects (tick s)) eqn:E2;
    [|destruct (rejects (tick (tick s))) eqn:E3;
      [|destruct (bool_decide (Message.valid m)) eqn:Ev;
        [destruct (rejects (tick (tick (tick s)))) eqn:E4|]]]];
    eexists _, _; (split; [reflexivity|]); simpl status;
    (split; [by (left + right)|]);
    (split; [|intros Hq Hv; rewrite ?(tick_quiet _ Hq), ?(rejects_quiet _ Hq) in *;
              rewrite ?(bool_decide_eq_true_2 _ Hv) in *;
              first [discriminate | reflexivity]]);
    try (intros; discriminate).
  intros _. rewrite !db_write. simpl Replies. simpl Messages.
  split; [reflexivity|].
  split; [apply lookup_insert_eq|]. split; [apply not_in_without_reply|].
  split.
  - intros z Hne Hz. unfold without_reply. simpl.
    apply list_elem_of_filter. by split.
  - intros Hq.
    apply (delete_reply_not_found _ _ x replyId messageId replyId
             (without_reply replyId m) Hmid Hcm Hrid Hcr);
      [apply lookup_insert_eq | apply lookup_delete_eq | exact Hq].
Qed.

(** C10.  The reply deletion does not compare the reply's messageId with
    the message named in the request.  When the reply belongs to another
    message, a permitted request still deletes the reply; the named
    message is the only one rewritten, so a message holding the reply's id
    in its list, the reply's own parent in particular, still holds it
    after the reply is gone.  The answer is 200 when the named message
    passes its schema's validation, and the 500 of the rejected save
    otherwise. *)
Theorem delete_reply_under_another_message
    (req : Request) (c : JwtPayload) (s : St)
    (x y : string) (messageId replyId : oid) (m : MessageDoc) (r : ReplyDoc) :
  user req = Some c ->
  params req !! "messageId" = Some x -> cast_oid x = Some messageId ->
  params req !! "replyId" = Some y -> cast_oid y = Some replyId ->
  Messages (db s) !! messageId = Some m ->
  Replies (db s) !! replyId = Some r ->
  r_userId r = userId c \/ role c = "admin" ->
  r_messageId r ≠ messageId ->
  faults s = [] ->
  exists res s',
    delete_reply req s = (Ok res, s') /\
    res = (if bool_decide (Message.valid m)
           then mkRes 200 (Text "回覆已刪除")
           else mkRes 500 (Text "刪除回覆失敗")) /\
    Replies (db s') !! replyId = None /\
    (forall id, id ≠ messageId -> Messages (db s') !! id = Messages (db s) !! id) /\
    (forall parent,
        Messages (db s) !! r_messageId r = Some parent ->
        replyId ∈ m_replies parent ->
        Messages (db s') !! r_messageId r = Some parent /\
        replyId ∈ m_replies parent /\
        Replies (db s') !! replyId = None).
Proof.
  intros Hu Hmid Hcm Hrid Hcr Hm Hr Hp Hother Hq.
  rewrite (delete_reply_allowed _ _ _ _ _ _ _ _ _ Hu Hmid Hrid Hcm Hcr Hm Hr Hp).
  cbv zeta. unfold failed. rewrite !(tick_quiet _ Hq), (rejects_quiet _ Hq).
  destruct (bool_decide (Message.valid m));
    eexists _, _; (split; [reflexivity|]); (split; [reflexivity|]); simpl;
    (split; [apply lookup_delete_eq|]); split.
  - intros id Hne. by rewrite lookup_insert_ne.
  - intros parent Hparent Hin.
    split; [|split; [exact Hin | apply lookup_delete_eq]].
    by rewrite lookup_insert_ne.
  - done.
  - intros parent Hparent Hin.
    split; [exact Hparent|split; [exact Hin | apply lookup_delete_eq]].
Qed.

Lemma delete_reply_under_another_message_witness :
  r_messageId reply1 = mid1 /\
  exists s',
    delete_reply (request [("messageId", mid2); ("replyId", rid1)] [] (Some bob)) st0
    = (Ok (mkRes 200 (Text "回覆已刪除")), s') /\
    Replies (db s') !! rid1 = None /\
    Messages (db s') !! mid1 = Some msg1 /\
    rid1 ∈ m_replies msg1.
Proof.
  split; [reflexivity|].
  destruct (delete_reply_under_another_message
              (request [("messageId", mid2); ("replyId", rid1)] [] (Some bob))
              bob st0 mid2 rid1 mid2 rid1 msg2 reply1
              eq_refl eq_refl eq_refl eq_refl eq_refl eq_refl eq_refl
              (or_introl eq_refl))
    as (res & s' & Hrun & -> & Hgone & _ & Hparent).
  - discriminate.
  - reflexivity.
  - exists s'. split; [exact Hrun|]. split; [exact Hgone|].
    destruct (Hparent msg1 eq_refl) as (Hkept & Hin & _).
    + apply list_elem_of_here.
    + split; [exact Hkept | exact Hin].
Defined.

(** ** Creating a reply *)

Lemma Reply_create_run messageId uid reply s :
  Reply.create messageId uid reply s =
  match cast_oid messageId with
  | None => (Throw, s)
  | Some mid =>
      let id := ObjectId (next_oid s) in
      let doc := mkReply mid uid reply (now s) in
      let s1 := mkSt (db s) (tail (faults s)) (N.succ (next_oid s)) (now s) in
      if rejects s then (Throw, tick s)
      else match Replies (db s) !! id with
           | Some _ => (Throw, s1)
           | None => (Ok (id, doc), write (set_Replies (<[id := doc]>) (db s)) s1)
           end
  end.
Proof.
  unfold Reply.create. rewrite casting_run. destruct (cast_oid messageId); [|done].
  unfold driver_call. rewrite bind_run.
  destruct (rejects s); [done|]. cbv zeta. rewrite bind_run.
  unfold new_ObjectId. rewrite bind_run, Date_now_run. rewrite bind_run.
  unfold get_db. simpl.
  by destruct (Replies (db s) !! ObjectId (next_oid s)).
Qed.

Lemma Message_findByIdAndUpdate_push_replies_run x rid s :
  Message.findByIdAndUpdate_push_replies x rid s =
  match cast_oid x with
  | None => (Throw, s)
  | Some id =>
      if rejects s then (Throw, tick s)
      else (Ok tt, write (set_Messages (alter (push_reply rid) id) (db s)) (tick s))
  end.
Proof.
  unfold Message.findByIdAndUpdate_push_replies. rewrite casting_run.
  destruct (cast_oid x); [|done].
  unfold driver_call. rewrite bind_run. by destruct (rejects s).
Qed.

(** What the handler does with a non-empty text when the driver answers:
    the parent message is not looked up before the reply is stored. *)
Lemma post_reply_run req c s text mid :
  user req = Some c ->
  body req !! "reply" = Some text -> text ≠ "" ->
  cast_oid (param req "id") = Some mid ->
  faults s = [] ->
  Replies (db s) !! ObjectId (next_oid s) = None ->
  post_reply req s =
  let rid := ObjectId (next_oid s) in
  let doc := mkReply mid (userId c) text (now s) in
  (Ok (mkRes 201 (SentReply rid doc)),
   mkSt (set_Messages (alter (push_reply rid) mid)
           (set_Replies (<[rid := doc]>) (db s)))
        [] (N.succ (next_oid s)) (now s)).
Proof.
  intros Hu Hb Hne Hc Hq Hfresh. unfold post_reply, try_catch.
  rewrite Hb. unfold falsy. rewrite bool_decide_eq_false_2 by done.
  db_simpl. rewrite (req_user_run _ _ _ Hu). db_simpl.
  rewrite Reply_create_run, Hc. cbv zeta. rewrite (rejects_quiet _ Hq), Hfresh.
  db_simpl. rewrite Message_findByIdAndUpdate_push_replies_run, Hc.
  destruct s as [d fs n t]. simpl in Hq. subst fs. reflexivity.
Qed.

Lemma post_reply_requires_text req s :
  falsy (body req !! "reply") = true ->
  post_reply req s = (Ok (mkRes 400 (Text "回覆内容是必须的")), s).
Proof. intros H. unfold post_reply, try_catch. by rewrite H. Qed.

(** The handler has no 404 answer at all. *)
Lemma post_reply_statuses req s :
  exists res s',
    post_reply req s = (Ok res, s') /\
    (status res = 201%nat \/ status res = 400%nat \/ status res = 500%nat).
Proof.
  unfold post_reply, try_catch.
  destruct (falsy (body req !! "reply")); [by eexists _, _; split; [done|auto]|].
  db_simpl. unfold req_user.
  destruct (user req) as [c|]; db_simpl; [|by eexists _, _; split; [done|auto]].
  rewrite Reply_create_run. cbv zeta.
  destruct (cast_oid (param req "id")) as [mid|] eqn:Hc; db_simpl;
    [|by eexists _, _; split; [done|auto]].
  destruct (rejects s); db_simpl; [by eexists _, _; split; [done|auto]|].
  destruct (Replies (db s) !! ObjectId (next_oid s)); db_simpl;
    [by eexists _, _; split; [done|auto]|].
  rewrite Message_findByIdAndUpdate_push_replies_run, Hc.
  match goal with |- context [rejects ?x] => destruct (rejects x) end;
    db_simpl; by eexists _, _; split; [done|auto].
Qed.

(** A route id that is not an ObjectId fails the validation of the new
    reply: nothing is stored and no call is made. *)
Example post_reply_with_malformed_id :
  post_reply (request [("id", "abc")] [("reply", "hi")] (Some alice)) st0
  = (Ok (mkRes 500 (Text "伺服器錯誤")), st0).
Proof. reflexivity. Qed.

(** C5 (the code departs from it).  A reply posted under the id of a
    message that is not stored: the handler answers 201 and a reply
    document carrying that messageId is stored, where the claim has a
    NotFound answer and no reply created. *)
Theorem post_reply_to_missing_message :
  Messages (db st0) !! mid_missing = None /\
  exists s',
    post_reply (request [("id", mid_missing)] [("reply", "hi")] (Some alice)) st0
    = (Ok (mkRes 201
             (SentReply (ObjectId 1) (mkReply mid_missing (userId alice) "hi" (now st0)))),
       s') /\
    Replies (db st0) !! ObjectId 1 = None /\
    Replies (db s') !! ObjectId 1
    = Some (mkReply mid_missing (userId alice) "hi" (now st0)) /\
    Messages (db s') = Messages (db st0).
Proof.
  split; [reflexivity|]. eexists. split.
  - rewrite (post_reply_run (request [("id", mid_missing)] [("reply", "hi")] (Some alice))
               alice st0 "hi" mid_missing eq_refl eq_refl); [reflexivity|done..].
  - split; [reflexivity|]. split; [reflexivity|]. vm_compute. reflexivity.
Qed.

(** ** A route end to end *)

(** An administrator's token on [DELETE /api/messages/:id] for a message
    of Alice's: the validator lets the request through and the handler
    deletes the message. *)
Example admin_deletes_through_the_route :
  exists s',
    protected None sample_decode delete_message
      (mkReq (Some "Bearer tok.root") (list_to_map [("id", mid1)]) ∅ None) st0
    = (Ok (mkRes 200 (JsonMessage "Message deleted successfully")), s') /\
    Messages (db s') !! mid1 = None /\
    Messages (db s') !! mid2 = Some msg2.
Proof.
  eexists. split; [vm_compute; reflexivity|]. split; reflexivity.
Qed.

(** The same request once the token's hour is over. *)
Example expired_token_through_the_route :
  protected None sample_decode delete_message
    (mkReq (Some "Bearer tok.root") (list_to_map [("id", mid1)]) ∅ None)
    (mkSt db0 [] 1 1700003600000)
  = (Ok (mkRes 403 (Text "無效的 token")), mkSt db0 [] 1 1700003600000).
Proof. reflexivity. Qed.

(** * Further properties of the handlers *)

(** Case analysis on everything a handler branches on. *)
Ltac db_cases :=
  repeat first
    [ progress db_simpl
    | rewrite Reply_create_run
    | rewrite Message_findByIdAndUpdate_push_replies_run
    | progress (simpl Messages; simpl Replies; simpl Appeals)
    | match goal with
      | H : ?x = _ |- context [match ?x with _ => _ end] => rewrite H
      | |- context [match cast_oid ?x with _ => _ end] => destruct (cast_oid x) eqn:?
      | |- context [if rejects ?x then _ else _] => destruct (rejects x) eqn:?
      | |- context [match Messages ?d !! ?i with _ => _ end] =>
          destruct (Messages d !! i) eqn:?
      | |- context [_ <$> Messages ?d !! ?i] => destruct (Messages d !! i) eqn:?
      | |- context [match Replies ?d !! ?i with _ => _ end] =>
          destruct (Replies d !! i) eqn:?
      | |- context [match user ?r with _ => _ end] => destruct (user r) eqn:?
      | |- context [if falsy ?v then _ else _] => destruct (falsy v) eqn:?
      | |- context [if bool_decide ?P then _ else _] => destruct (bool_decide P) eqn:?
      | |- context [if ?a && ?b then _ else _] => destruct (a && b) eqn:?
      end ].

(** Case analysis on the [decide] of a map lookup in the goal. *)
Ltac goal_decide :=
  match goal with
  | |- context [decide ?P] => destruct (decide P)
  end.

Ltac unfold_handlers :=
  unfold route_handler, delete_message, put_message, like_message, unlike_message,
    post_reply, delete_reply, delete_appeal, try_catch, req_user.

(** ** Every request is answered *)

(** X1.  Each handler answers every request in every state and under
    every fault schedule, with or without [req.user]: its catch block
    takes every rejection.  The status codes are those listed; reply
    creation has no 404 among them. *)
Theorem handlers_always_answer (req : Request) (s : St) :
  (exists res s', delete_message req s = (Ok res, s') /\
     (status res = 200 \/ status res = 403 \/ status res = 404 \/ status res = 500)%nat) /\
  (exists res s', put_message req s = (Ok res, s') /\
     (status res = 200 \/ status res = 403 \/ status res = 404 \/ status res = 500)%nat) /\
  (exists res s', like_message req s = (Ok res, s') /\
     (status res = 200 \/ status res = 404 \/ status res = 500)%nat) /\
  (exists res s', unlike_message req s = (Ok res, s') /\
     (status res = 200 \/ status res = 404 \/ status res = 500)%nat) /\
  (exists res s', post_reply req s = (Ok res, s') /\
     (status res = 201 \/ status res = 400 \/ status res = 500)%nat) /\
  (exists res s', delete_reply req s = (Ok res, s') /\
     (status res = 200 \/ status res = 403 \/ status res = 404 \/ status res = 500)%nat) /\
  (exists res s', delete_appeal req s = (Ok res, s') /\
     (status res = 200 \/ status res = 500)%nat).
Proof.
  (split; [|split; [|split; [|split; [|split; [|split]]]]]);
    unfold_handlers; db_cases;
    eexists _, _; (split; [reflexivity|]); simpl; tauto.
Qed.

(** ** What a request leaves alone *)

(** X2.  Whatever the request and the fault schedule, a handler changes
    no message but the one its route's id casts to, creates no message,
    modifies no stored reply (a reply deletion removes the one its route
    names, a reply creation adds one), and leaves the appeals alone
    unless it is the appeal deletion, which changes nothing but the
    appeal its route names. *)
Theorem routes_touch_only_their_documents (r : Route) (req : Request) (s : St) :
  let s' := (route_handler r req s).2 in
  (forall j, cast_oid (param req (message_param r)) ≠ Some j ->
             Messages (db s') !! j = Messages (db s) !! j) /\
  (forall j, Messages (db s) !! j = None -> Messages (db s') !! j = None) /\
  (forall j x, Replies (db s) !! j = Some x ->
               (r = DeleteReply -> cast_oid (param req "replyId") ≠ Some j) ->
               Replies (db s') !! j = Some x) /\
  (forall j, r ≠ PostReply -> Replies (db s) !! j = None ->
             Replies (db s') !! j = None) /\
  (forall j, (r = DeleteAppeal -> cast_oid (param req "id") ≠ Some j) ->
             Appeals (db s') !! j = Appeals (db s) !! j).
Proof.
  destruct r; unfold_handlers; unfold message_param; db_cases; simpl;
    (split; [intros k Hk|split; [intros k Hk|split;
       [intros k x Hx Hk|split; [intros k Hr Hk|intros k Hk]]]]);
    try done.
  all: repeat match goal with
       | H : Some ?i ≠ Some ?k |- _ =>
           assert (i ≠ k) by (intros ->; by apply H); clear H
       | H : _ -> Some ?i ≠ Some ?k |- _ =>
           assert (i ≠ k) by (intros ->; by apply H); clear H
       | H : ?a = Some ?i, H' : ?a ≠ Some ?k |- _ =>
           assert (i ≠ k) by (intros ->; by apply H'); clear H'
       | H : ?a = Some ?i, H' : _ -> ?a ≠ Some ?k |- _ =>
           assert (i ≠ k) by (intros ->; by apply H'); clear H'
       end.
  all: rewrite ?lookup_delete_ne, ?lookup_insert_ne, ?lookup_alter_ne by (done || auto);
    try done.
  all: try (rewrite lookup_delete; goal_decide; done).
  all: try (rewrite lookup_insert; goal_decide; [subst; congruence|done]).
  all: try (rewrite lookup_alter; goal_decide; subst; by rewrite Hk).
Qed.

(** ** Requests on documents that are not stored *)

(** X3.  The deletion, the edit, the like and the unlike of a message,
    before [req.user] is read.  An id that is a well-formed ObjectId
    string and names no stored message is answered 404, and nothing
    changes.  An id that is not well formed is answered 500 by each
    handler's catch block, without a call to the driver. *)
Theorem message_routes_not_found (req : Request) (s : St) (x : string) :
  params req !! "id" = Some x ->
  (forall id,
      cast_oid x = Some id ->
      Messages (db s) !! id = None ->
      faults s = [] ->
      delete_message req s = (Ok (mkRes 404 (JsonMessage "沒有找到留言")), s) /\
      put_message req s = (Ok (mkRes 404 (Text "留言不存在")), s) /\
      like_message req s = (Ok (mkRes 404 (Text "留言不存在")), s) /\
      unlike_message req s = (Ok (mkRes 404 (Text "留言不存在")), s)) /\
  (cast_oid x = None ->
   delete_message req s = (Ok (mkRes 500 (JsonMessage "伺服器錯誤")), s) /\
   put_message req s = (Ok (mkRes 500 (Text "編輯留言失敗")), s) /\
   like_message req s = (Ok (mkRes 500 (Text "點讚失败")), s) /\
   unlike_message req s = (Ok (mkRes 500 (Text "取消點讚失敗")), s)).
Proof.
  intros Hid. split.
  - intros id Hc Hm Hq.
    repeat split; unfold_handlers; rewrite (param_lookup _ _ _ Hid);
      db_quiet Hq; rewrite Hm; by db_quiet Hq.
  - intros Hc.
    repeat split; unfold_handlers; rewrite (param_lookup _ _ _ Hid); by db_simpl.
Qed.

Lemma message_routes_not_found_witness :
  delete_message (request [("id", mid_missing)] [] (Some root)) st0
  = (Ok (mkRes 404 (JsonMessage "沒有找到留言")), st0) /\
  like_message (request [("id", mid_missing)] [] None) st0
  = (Ok (mkRes 404 (Text "留言不存在")), st0) /\
  put_message (request [("id", "abc")] [] (Some alice)) st0
  = (Ok (mkRes 500 (Text "編輯留言失敗")), st0).
Proof.
  destruct (proj1 (message_routes_not_found (request [("id", mid_missing)] [] (Some root))
                     st0 mid_missing eq_refl)
              mid_missing eq_refl eq_refl eq_refl) as (Hdel & _).
  destruct (proj1 (message_routes_not_found (request [("id", mid_missing)] [] None)
                     st0 mid_missing eq_refl)
              mid_missing eq_refl eq_refl eq_refl) as (_ & _ & Hlike & _).
  destruct (proj2 (message_routes_not_found (request [("id", "abc")] [] (Some alice))
                     st0 "abc" eq_refl) eq_refl) as (_ & Hput & _).
  split; [exact Hdel | split; [exact Hlike | exact Hput]].
Defined.

(** X4.  The reply deletion looks the named message up first: when its
    id is well formed and it is not stored the answer is 404 for the
    message, also for the reply's owner and for an administrator, and
    the reply stays.  With the message stored and the reply's id well
    formed, in whatever case its digits are, and naming no stored reply,
    the answer is 404 for the reply.  An id that is not well formed is
    answered 500: the message's at once, the reply's once the message
    has been found. *)
Theorem delete_reply_not_found_answers
    (req : Request) (s : St) (x y : string) :
  params req !! "messageId" = Some x ->
  params req !! "replyId" = Some y ->
  (forall messageId,
      cast_oid x = Some messageId -> faults s = [] ->
      Messages (db s) !! messageId = None ->
      delete_reply req s = (Ok (mkRes 404 (Text "留言未找到")), s)) /\
  (forall messageId replyId m,
      cast_oid x = Some messageId -> cast_oid y = Some replyId -> faults s = [] ->
      Messages (db s) !! messageId = Some m ->
      Replies (db s) !! replyId = None ->
      delete_reply req s = (Ok (mkRes 404 (Text "回覆未找到")), s)) /\
  (cast_oid x = None ->
   delete_reply req s = (Ok (mkRes 500 (Text "刪除回覆失敗")), s)) /\
  (forall messageId m,
      cast_oid x = Some messageId -> cast_oid y = None -> faults s = [] ->
      Messages (db s) !! messageId = Some m ->
      delete_reply req s = (Ok (mkRes 500 (Text "刪除回覆失敗")), s)).
Proof.
  intros Hmid Hrid. split; [|split; [|split]].
  - intros messageId Hc Hq Hm. unfold_handlers. rewrite (param_lookup _ _ _ Hmid).
    db_quiet Hq. rewrite Hm. by db_quiet Hq.
  - intros messageId replyId m Hcm Hcr Hq Hm Hr.
    by apply (delete_reply_not_found req s x y messageId replyId m).
  - intros Hc. unfold_handlers. rewrite (param_lookup _ _ _ Hmid). by db_simpl.
  - intros messageId m Hcm Hcr Hq Hm. unfold_handlers.
    rewrite (param_lookup _ _ _ Hmid), (param_lookup _ _ _ Hrid).
    db_quiet Hq. rewrite Hm. by db_quiet Hq.
Qed.

Lemma delete_reply_not_found_answers_witness :
  Replies (db st0) !! rid1 = Some reply1 /\
  delete_reply (request [("messageId", mid_missing); ("replyId", rid1)] [] (Some bob)) st0
  = (Ok (mkRes 404 (Text "留言未找到")), st0) /\
  delete_reply (request [("messageId", mid1); ("replyId", "64B0000000000000000002FF")] []
                  (Some bob)) st0
  = (Ok (mkRes 404 (Text "回覆未找到")), st0) /\
  delete_reply (request [("messageId", mid1); ("replyId", "abc")] [] (Some bob)) st0
  = (Ok (mkRes 500 (Text "刪除回覆失敗")), st0).
Proof.
  split; [reflexivity|]. split; [|split].
  - exact (proj1 (delete_reply_not_found_answers
                    (request [("messageId", mid_missing); ("replyId", rid1)] [] (Some bob))
                    st0 mid_missing rid1 eq_refl eq_refl)
             mid_missing eq_refl eq_refl eq_refl).
  - exact (proj1 (proj2 (delete_reply_not_found_answers
                    (request [("messageId", mid1); ("replyId", "64B0000000000000000002FF")] []
                       (Some bob))
                    st0 mid1 "64B0000000000000000002FF" eq_refl eq_refl))
             mid1 "64b0000000000000000002ff" msg1 eq_refl eq_refl eq_refl eq_refl eq_refl).
  - exact (proj2 (proj2 (proj2 (delete_reply_not_found_answers
                    (request [("messageId", mid1); ("replyId", "abc")] [] (Some bob))
                    st0 mid1 "abc" eq_refl eq_refl)))
             mid1 msg1 eq_refl eq_refl eq_refl eq_refl).
Defined.

(** ** Likes compose *)

Lemma with_likes_same (m : MessageDoc) : with_likes (m_likes m) m = m.
Proof. by destruct m. Qed.

Lemma quiet_write_back (s : St) (id : oid) (m : MessageDoc) :
  Messages (db s) !! id = Some m ->
  write (set_Messages (<[id := m]>) (db s)) s = s.
Proof.
  intros Hm. destruct s as [[ms rs aps] fs n t]. simpl in *.
  unfold write, set_Messages. simpl. by rewrite insert_id.
Qed.

(** X5.  On a stored message that passes its schema's validation and
    whose count is not negative and below 2^53, a like followed by an
    unlike answers with the message as it was and leaves the state as it
    was. *)
Theorem like_then_unlike_restores
    (req : Request) (s : St) (x : string) (id : oid) (m : MessageDoc) :
  params req !! "id" = Some x -> cast_oid x = Some id ->
  Messages (db s) !! id = Some m ->
  Message.valid m ->
  faults s = [] ->
  0 <= m_likes m < 2 ^ 53 ->
  like_message req s
  = (Ok (mkRes 200 (SentMessage id (with_likes (m_likes m + 1) m))),
     (like_message req s).2) /\
  Messages (db (like_message req s).2) !! id = Some (with_likes (m_likes m + 1) m) /\
  unlike_message req (like_message req s).2 = (Ok (mkRes 200 (SentMessage id m)), s).
Proof.
  intros Hid Hc Hm Hv Hq Hnn.
  assert (Hlike : like_message req s
    = (Ok (mkRes 200 (SentMessage id (with_likes (m_likes m + 1) m))),
       write (set_Messages (<[id := with_likes (m_likes m + 1) m]>) (db s)) s)).
  { rewrite like_message_run, (param_lookup _ _ _ Hid), Hc. cbv zeta.
    rewrite !(tick_quiet _ Hq), !(rejects_quiet _ Hq), Hm.
    rewrite (bool_decide_eq_true_2 _ Hv).
    unfold js_add. by rewrite js_round_exact by lia. }
  rewrite Hlike. split; [reflexivity|]. cbn [snd].
  split; [simpl; apply lookup_insert_eq|].
  set (s1 := write _ s).
  assert (Hq1 : faults s1 = []) by exact Hq.
  rewrite unlike_message_run, (param_lookup _ _ _ Hid), Hc. cbv zeta.
  rewrite !(tick_quiet _ Hq1), !(rejects_quiet _ Hq1).
  subst s1. rewrite db_write. simpl Messages.
  rewrite lookup_insert_eq. rewrite valid_with_likes, (bool_decide_eq_true_2 _ Hv).
  rewrite bool_decide_eq_true_2 by (simpl; lia).
  unfold js_sub. cbn [m_likes with_likes]. rewrite js_round_exact by lia.
  replace (with_likes _ (with_likes _ m)) with m
    by (destruct m; unfold with_likes; simpl; f_equal; lia).
  do 2 f_equal. destruct s as [[ms rs aps] fs n t]. simpl in *.
  unfold write, set_Messages. simpl. by rewrite insert_insert_eq, insert_id.
Qed.

Lemma like_then_unlike_restores_witness :
  Messages (db (like_message (request [("id", mid2)] [] (Some alice)) st0).2) !! mid2
  = Some (mkMessage "bob" "hello" (userId bob) "#00f" ["1700000000000-cat.png"] 3 []) /\
  unlike_message (request [("id", mid2)] [] (Some alice))
    (like_message (request [("id", mid2)] [] (Some alice)) st0).2
  = (Ok (mkRes 200 (SentMessage mid2 msg2)), st0).
Proof.
  refine (proj2 (like_then_unlike_restores (request [("id", mid2)] [] (Some alice))
                   st0 mid2 mid2 msg2 eq_refl eq_refl eq_refl valid_msg2 eq_refl _)).
  split; [discriminate | reflexivity].
Defined.

(** ** Replies: creation, and creation followed by deletion *)

(** X6.  A reply with a non-empty text posted on a stored message: the
    answer is 201 with the new reply, whose owner is the session's user,
    whose messageId is the id the route's string casts to and whose
    creation time is the clock's; its id is appended at the end of the
    parent's reply list; the other fields of the parent and every reply
    stored before are kept. *)
Theorem post_reply_appends_to_parent
    (req : Request) (c : JwtPayload) (s : St)
    (x : string) (id : oid) (m : MessageDoc) (text : string) :
  user req = Some c ->
  params req !! "id" = Some x -> cast_oid x = Some id ->
  body req !! "reply" = Some text -> text ≠ "" ->
  Messages (db s) !! id = Some m ->
  Replies (db s) !! ObjectId (next_oid s) = None ->
  faults s = [] ->
  exists s',
    post_reply req s
    = (Ok (mkRes 201 (SentReply (ObjectId (next_oid s))
                        (mkReply id (userId c) text (now s)))), s') /\
    Replies (db s') = <[ObjectId (next_oid s) := mkReply id (userId c) text (now s)]>
                        (Replies (db s)) /\
    Messages (db s') !! id
    = Some (with_replies (m_replies m ++ [ObjectId (next_oid s)]) m) /\
    (forall j, j ≠ id -> Messages (db s') !! j = Messages (db s) !! j) /\
    Appeals (db s') = Appeals (db s).
Proof.
  intros Hu Hid Hc Hb Hne Hm Hfresh Hq.
  rewrite <- (param_lookup _ _ _ Hid) in Hc.
  rewrite (post_reply_run req c s text id Hu Hb Hne Hc Hq Hfresh).
  cbv zeta.
  eexists. split; [reflexivity|]. simpl.
  split; [reflexivity|]. split; [|split; [|reflexivity]].
  - by rewrite lookup_alter_eq, Hm.
  - intros j Hj. by rewrite lookup_alter_ne.
Qed.

Lemma post_reply_appends_to_parent_witness :
  exists s',
    post_reply (request [("id", mid1)] [("reply", "thanks")] (Some alice)) st0
    = (Ok (mkRes 201 (SentReply (ObjectId 1)
                        (mkReply mid1 (userId alice) "thanks" (now st0)))), s') /\
    Messages (db s') !! mid1
    = Some (mkMessage "alice" "hi" (userId alice) "#000" [] 0 [rid1; ObjectId 1]).
Proof.
  destruct (post_reply_appends_to_parent
              (request [("id", mid1)] [("reply", "thanks")] (Some alice))
              alice st0 mid1 mid1 msg1 "thanks" eq_refl eq_refl eq_refl eq_refl)
    as (s' & Hrun & _ & Hparent & _).
  - discriminate.
  - reflexivity.
  - reflexivity.
  - reflexivity.
  - exists s'. split; [exact Hrun | exact Hparent].
Defined.

Lemma filter_snoc_fresh (l : list string) (x : string) :
  x ∉ l -> filter (fun r => r ≠ x) (l ++ [x])%list = l.
Proof.
  intros Hx. rewrite filter_app. simpl.
  rewrite filter_cons_False by (intros H; by apply H).
  rewrite filter_nil, app_nil_r.
  induction l as [|y l IH]; [done|].
  rewrite filter_cons_True by (intros ->; apply Hx; left).
  f_equal. apply IH. intros H. apply Hx. by right.
Qed.

(** X7.  Posting a reply on a stored message that passes its schema's
    validation and then deleting that reply through the same message,
    under the id the creation answered, as its author or as an
    administrator, gives back the store as it was, when the new id was
    not already in the parent's list. *)
Theorem post_then_delete_reply_restores
    (req1 req2 : Request) (c1 c2 : JwtPayload) (s : St)
    (x1 x2 : string) (id : oid) (m : MessageDoc) (text : string) :
  user req1 = Some c1 ->
  params req1 !! "id" = Some x1 -> cast_oid x1 = Some id ->
  body req1 !! "reply" = Some text -> text ≠ "" ->
  Messages (db s) !! id = Some m ->
  Message.valid m ->
  Replies (db s) !! ObjectId (next_oid s) = None ->
  ObjectId (next_oid s) ∉ m_replies m ->
  faults s = [] ->
  user req2 = Some c2 ->
  params req2 !! "messageId" = Some x2 -> cast_oid x2 = Some id ->
  params req2 !! "replyId" = Some (ObjectId (next_oid s)) ->
  userId c1 = userId c2 \/ role c2 = "admin" ->
  exists s2,
    delete_reply req2 (post_reply req1 s).2
    = (Ok (mkRes 200 (Text "回覆已刪除")), s2) /\
    db s2 = db s.
Proof.
  intros Hu1 Hid Hc1 Hb Hne Hm Hv Hfresh Hnew Hq Hu2 Hmid Hc2 Hrid Hp.
  rewrite <- (param_lookup _ _ _ Hid) in Hc1.
  rewrite (post_reply_run req1 c1 s text id Hu1 Hb Hne Hc1 Hq Hfresh).
  cbv zeta. cbn [snd].
  set (rid := ObjectId (next_oid s)) in *.
  set (doc := mkReply id (userId c1) text (now s)).
  set (s1 := mkSt _ [] _ _).
  assert (Hq1 : faults s1 = []) by reflexivity.
  assert (Hm1 : Messages (db s1) !! id = Some (push_reply rid m))
    by (subst s1; simpl; by rewrite lookup_alter_eq, Hm).
  assert (Hr1 : Replies (db s1) !! rid = Some doc)
    by (subst s1; simpl; apply lookup_insert_eq).
  rewrite (delete_reply_allowed req2 c2 s1 x2 rid id rid (push_reply rid m) doc
             Hu2 Hmid Hrid Hc2 (cast_ObjectId _) Hm1 Hr1 Hp).
  cbv zeta. rewrite !(tick_quiet _ Hq1), (rejects_quiet _ Hq1).
  change (bool_decide (Message.valid (push_reply rid m)))
    with (bool_decide (Message.valid m)).
  rewrite (bool_decide_eq_true_2 _ Hv).
  eexists. split; [reflexivity|].
  subst s1. simpl. destruct s as [[ms rs aps] fs n t]. simpl in *.
  unfold set_Messages, set_Replies. simpl. f_equal.
  - rewrite insert_alter_eq.
    replace (without_reply rid (push_reply rid m)) with m.
    { by apply insert_id. }
    unfold without_reply, push_reply. simpl.
    rewrite filter_snoc_fresh by done. by destruct m.
  - rewrite delete_insert_eq. by apply delete_id.
Qed.

Lemma post_then_delete_reply_restores_witness :
  exists s2,
    delete_reply
      (request [("messageId", mid1); ("replyId", ObjectId 1)] [] (Some alice))
      (post_reply (request [("id", mid1)] [("reply", "thanks")] (Some alice)) st0).2
    = (Ok (mkRes 200 (Text "回覆已刪除")), s2) /\
    db s2 = db0.
Proof.
  refine (post_then_delete_reply_restores
            (request [("id", mid1)] [("reply", "thanks")] (Some alice))
            (request [("messageId", mid1); ("replyId", ObjectId 1)] [] (Some alice))
            alice alice st0 mid1 mid1 mid1 msg1 "thanks"
            eq_refl eq_refl eq_refl eq_refl _ eq_refl valid_msg1 eq_refl _ eq_refl
            eq_refl eq_refl eq_refl eq_refl (or_introl eq_refl)).
  - discriminate.
  - apply not_elem_of_cons. split; [discriminate | apply not_elem_of_nil].
Defined.

(** ** Edits compose *)

Lemma assign_patch_idempotent (b : gmap string string) (m : MessageDoc) :
  let patch m :=
    assign_if_defined (b !! "textColor") with_textColor
      (assign_if_defined (b !! "message") with_message
         (assign_if_defined (b !! "name") with_name m)) in
  patch (patch m) = patch m /\ m_userId (patch m) = m_userId m.
Proof. by destruct (b !! "textColor"), (b !! "message"), (b !! "name"). Qed.

(** X8.  An edit by the owner, sent a second time, is answered as the
    first time and changes nothing more. *)
Theorem edit_twice_is_edit_once
    (req : Request) (c : JwtPayload) (s : St)
    (x : string) (id : oid) (m : MessageDoc) :
  user req = Some c ->
  params req !! "id" = Some x -> cast_oid x = Some id ->
  Messages (db s) !! id = Some m ->
  m_userId m = userId c ->
  faults s = [] ->
  put_message req (put_message req s).2 = put_message req s.
Proof.
  intros Hu Hid Hc Hm Hp Hq.
  rewrite (put_message_allowed req c s x id m Hu Hid Hc Hm Hp).
  cbv zeta. rewrite !(tick_quiet _ Hq), (rejects_quiet _ Hq).
  pose proof (assign_patch_idempotent (body req) m) as Hpatch.
  cbv zeta in Hpatch.
  remember (assign_if_defined (body req !! "textColor") with_textColor
              (assign_if_defined (body req !! "message") with_message
                 (assign_if_defined (body req !! "name") with_name m))) as m' eqn:Em'.
  destruct Hpatch as [Hidem Howner]. rewrite <- !Em' in Hidem, Howner.
  destruct (bool_decide (Message.valid m')) eqn:Ev; cbn [snd].
  - set (s1 := write _ s).
    assert (Hq1 : faults s1 = []) by exact Hq.
    assert (Hm1 : Messages (db s1) !! id = Some m')
      by (subst s1; simpl; apply lookup_insert_eq).
    rewrite (put_message_allowed req c s1 x id m' Hu Hid Hc Hm1 (eq_trans Howner Hp)).
    cbv zeta. rewrite !(tick_quiet _ Hq1), (rejects_quiet _ Hq1).
    rewrite Hidem, Ev. f_equal.
    subst s1. unfold write, set_Messages. simpl. by rewrite insert_insert_eq.
  - rewrite (put_message_allowed req c s x id m Hu Hid Hc Hm Hp).
    cbv zeta. rewrite !(tick_quiet _ Hq), (rejects_quiet _ Hq).
    rewrite <- Em'. by rewrite Ev.
Qed.

Lemma edit_twice_is_edit_once_witness :
  put_message (request [("id", mid1)] [("name", "Alice"); ("textColor", "#f00")] (Some alice))
    (put_message (request [("id", mid1)] [("name", "Alice"); ("textColor", "#f00")]
                    (Some alice)) st0).2
  = put_message (request [("id", mid1)] [("name", "Alice"); ("textColor", "#f00")]
      (Some alice)) st0.
Proof.
  exact (edit_twice_is_edit_once
           (request [("id", mid1)] [("name", "Alice"); ("textColor", "#f00")] (Some alice))
           alice st0 mid1 mid1 msg1 eq_refl eq_refl eq_refl eq_refl eq_refl eq_refl).
Defined.

(** X9.  An edit by the owner, of a message that passes its schema's
    validation, whose body has none of name, message and textColor is
    answered 200 with the message as stored, and the state is as
    before. *)
Theorem edit_with_empty_patch
    (req : Request) (c : JwtPayload) (s : St)
    (x : string) (id : oid) (m : MessageDoc) :
  user req = Some c ->
  params req !! "id" = Some x -> cast_oid x = Some id ->
  Messages (db s) !! id = Some m ->
  Message.valid m ->
  m_userId m = userId c ->
  body req !! "name" = None ->
  body req !! "message" = None ->
  body req !! "textColor" = None ->
  faults s = [] ->
  put_message req s = (Ok (mkRes 200 (SentMessage id m)), s).
Proof.
  intros Hu Hid Hcast Hm Hv Hp Hn Hmsg Hc Hq.
  rewrite (put_message_allowed req c s x id m Hu Hid Hcast Hm Hp).
  cbv zeta. rewrite !(tick_quiet _ Hq), (rejects_quiet _ Hq), Hn, Hmsg, Hc.
  simpl. rewrite (bool_decide_eq_true_2 _ Hv).
  by rewrite (quiet_write_back s id m Hm).
Qed.

Lemma edit_with_empty_patch_witness :
  put_message (request [("id", mid2)] [("likes", "100")] (Some bob)) st0
  = (Ok (mkRes 200 (SentMessage mid2 msg2)), st0).
Proof.
  exact (edit_with_empty_patch (request [("id", mid2)] [("likes", "100")] (Some bob))
           bob st0 mid2 mid2 msg2 eq_refl eq_refl eq_refl eq_refl valid_msg2
           eq_refl eq_refl eq_refl eq_refl eq_refl).
Defined.

(** ** Deleting twice *)

(** X10.  A message deleted by a permitted request is not found by the
    same request sent again: the second answer is 404 and changes
    nothing.  An appeal deletion under a well-formed id, whoever sends
    it and whether or not the appeal is stored, is answered 200 and
    leaves no appeal under the id; sent again it is answered as the
    first time and changes nothing more. *)
Theorem deleting_twice :
  (forall (req : Request) (c : JwtPayload) (s : St) (x : string) (id : oid) (m : MessageDoc),
      user req = Some c ->
      params req !! "id" = Some x -> cast_oid x = Some id ->
      Messages (db s) !! id = Some m ->
      m_userId m = userId c \/ role c = "admin" ->
      faults s = [] ->
      delete_message req (delete_message req s).2
      = (Ok (mkRes 404 (JsonMessage "沒有找到留言")), (delete_message req s).2)) /\
  (forall (req : Request) (s : St) (id : oid),
      cast_oid (param req "id") = Some id ->
      faults s = [] ->
      (delete_appeal req s).1 = Ok (mkRes 200 (JsonMessage "申訴已刪除")) /\
      Appeals (db (delete_appeal req s).2) !! id = None /\
      delete_appeal req (delete_appeal req s).2 = delete_appeal req s).
Proof.
  split.
  - intros req c s x id m Hu Hid Hc Hm Hp Hq.
    rewrite (delete_message_allowed req c s x id m Hu Hid Hc Hm Hp).
    rewrite !(tick_quiet _ Hq), (rejects_quiet _ Hq). cbn [snd orb].
    set (s1 := write _ s).
    assert (Hq1 : faults s1 = []) by exact Hq.
    assert (Hm1 : Messages (db s1) !! id = None)
      by (subst s1; simpl; apply lookup_delete_eq).
    unfold_handlers. rewrite (param_lookup _ _ _ Hid). db_quiet Hq1.
    rewrite Hm1. by db_quiet Hq1.
  - intros req s id Hc Hq.
    assert (Hrun : forall s0, faults s0 = [] ->
              delete_appeal req s0
              = (Ok (mkRes 200 (JsonMessage "申訴已刪除")),
                 write (set_Appeals (delete id) (db s0)) s0)).
    { intros s0 Hq0. rewrite delete_appeal_run, Hc.
      by rewrite (rejects_quiet _ Hq0), (tick_quiet _ Hq0). }
    rewrite (Hrun s Hq). cbn [fst snd]. split; [reflexivity|].
    split; [simpl; apply lookup_delete_eq|].
    rewrite Hrun by exact Hq. f_equal.
    unfold write, set_Appeals. simpl. by rewrite delete_delete_eq.
Qed.

Lemma deleting_twice_witness :
  delete_message (request [("id", mid1)] [] (Some root))
    (delete_message (request [("id", mid1)] [] (Some root)) st0).2
  = (Ok (mkRes 404 (JsonMessage "沒有找到留言")),
     (delete_message (request [("id", mid1)] [] (Some root)) st0).2) /\
  Appeals (db st0) !! aid1 = Some appeal1 /\
  (delete_appeal (request [("id", aid1)] [] None) st0).1
  = Ok (mkRes 200 (JsonMessage "申訴已刪除")) /\
  Appeals (db (delete_appeal (request [("id", aid1)] [] None) st0).2) !! aid1 = None /\
  delete_appeal (request [("id", aid1)] [] None)
    (delete_appeal (request [("id", aid1)] [] None) st0).2
  = delete_appeal (request [("id", aid1)] [] None) st0.
Proof.
  split; [|split; [reflexivity|]].
  - exact (proj1 deleting_twice (request [("id", mid1)] [] (Some root))
             root st0 mid1 mid1 msg1 eq_refl eq_refl eq_refl eq_refl
             (or_intror eq_refl) eq_refl).
  - exact (proj2 deleting_twice (request [("id", aid1)] [] None) st0 aid1
             eq_refl eq_refl).
Defined.

(** ** The token is the second segment of the header *)

Lemma split_no_space (a : string) :
  no_space a = true -> split " " a = [a].
Proof.
  induction a as [|c a IH]; [done|]. simpl.
  intros [Hc Ha]%andb_true_iff. apply negb_true_iff in Hc.
  by rewrite Hc, (IH Ha).
Qed.

Lemma split_app_space (a rest : string) :
  no_space a = true ->
  split " " (a ++ String " " rest) = a :: split " " rest.
Proof.
  induction a as [|c a IH]; [done|]. simpl.
  intros [Hc Ha]%andb_true_iff. apply negb_true_iff in Hc.
  by rewrite Hc, (IH Ha).
Qed.

Lemma append_empty_r (a : string) : a ++ "" = a.
Proof.
  induction a as [|c a IH]; [done|].
  change (String c (a ++ "") = String c a). by rewrite IH.
Qed.

Lemma second_segment (scheme token tail : string) :
  no_space scheme = true -> no_space token = true ->
  tail = "" \/ (exists t, tail = String " " t) ->
  split " " (scheme ++ " " ++ token ++ tail) !! 1%nat = Some token.
Proof.
  intros Hs Ht Htail.
  change (scheme ++ " " ++ token ++ tail) with (scheme ++ String " " (token ++ tail)).
  rewrite (split_app_space _ _ Hs). simpl.
  destruct Htail as [-> | [t ->]].
  - rewrite append_empty_r. by rewrite (split_no_space _ Ht).
  - by rewrite (split_app_space _ _ Ht).
Qed.

(** X11.  The validator reads the second space-separated segment of the
    header and nothing else: a header made of any first segment (Bearer
    or not, empty included), a space, a token that verifies, and then
    nothing or a space and anything, lets the request through with the
    decoded payload as [req.user]. *)
Theorem authMiddleware_reads_second_segment
    (env_SECRET_KEY : option string) (jwt_decode : string -> string -> option JwtPayload)
    (req : Request) (next : Handler) (s : St)
    (scheme token tail : string) (decoded : JwtPayload) :
  no_space scheme = true ->
  no_space token = true -> token ≠ "" ->
  tail = "" \/ (exists t, tail = String " " t) ->
  authorization req = Some (scheme ++ " " ++ token ++ tail) ->
  jwt_decode token (SECRET_KEY env_SECRET_KEY) = Some decoded ->
  (forall e, exp decoded = Some e -> now s / 1000 < e) ->
  split " " (scheme ++ " " ++ token ++ tail) !! 1%nat = Some token /\
  authMiddleware env_SECRET_KEY jwt_decode req next s
  = next (mkReq (authorization req) (params req) (body req) (Some decoded)) s.
Proof.
  intros Hs Ht Hne Htail Hh Hdec Hlive.
  pose proof (second_segment scheme token tail Hs Ht Htail) as Hseg.
  split; [exact Hseg|].
  unfold authMiddleware. rewrite Hh. unfold default, from_option, id, falsy.
  rewrite bool_decide_eq_false_2 by (by destruct scheme).
  rewrite Hseg.
  rewrite bool_decide_eq_false_2 by done.
  unfold jwt_verify, try_catch, with_user. rewrite Hdec.
  db_simpl. rewrite Date_now_run. db_simpl.
  destruct (exp decoded) as [e|] eqn:He; [|db_simpl; by rewrite Hh].
  specialize (Hlive e eq_refl).
  rewrite bool_decide_eq_false_2 by lia. db_simpl. by rewrite Hh.
Qed.

Lemma authMiddleware_reads_second_segment_witness :
  authMiddleware None sample_decode
    (mkReq (Some "Basic tok.alice and more") (list_to_map [("id", mid1)]) ∅ None)
    like_message st0
  = like_message
      (mkReq (Some "Basic tok.alice and more") (list_to_map [("id", mid1)]) ∅ (Some alice))
      st0.
Proof.
  refine (proj2 (authMiddleware_reads_second_segment None sample_decode
                   (mkReq (Some "Basic tok.alice and more")
                      (list_to_map [("id", mid1)]) ∅ None)
                   like_message st0
                   "Basic" "tok.alice" " and more" alice
                   eq_refl eq_refl _ (or_intror (ex_intro _ "and more" eq_refl))
                   eq_refl eq_refl _)).
  - discriminate.
  - intros e He. injection He as <-. reflexivity.
Defined.

(** ** Invariants of the store under any sequence of requests *)

Lemma likes_nonneg_delete d id :
  likes_nonneg d -> likes_nonneg (set_Messages (delete id) d).
Proof.
  intros Hd j m. simpl. rewrite lookup_delete.
  destruct (decide (id = j)); [done|]. apply Hd.
Qed.

Lemma likes_nonneg_alter d id f :
  (forall m, m_likes (f m) = m_likes m) ->
  likes_nonneg d -> likes_nonneg (set_Messages (alter f id) d).
Proof.
  intros Hf Hd j m. simpl. rewrite lookup_alter.
  destruct (decide (id = j)) as [->|]; [|apply Hd].
  destruct (Messages d !! j) as [m0|] eqn:Hm0; [|done].
  intros [= <-]. rewrite Hf. by apply (Hd j).
Qed.

Lemma route_keeps_likes_nonneg (r : Route) (req : Request) (s : St) :
  likes_nonneg (db s) -> likes_nonneg (db (route_handler r req s).2).
Proof.
  intros Hs. destruct r; unfold_handlers; db_cases; cbn [snd]; rewrite ?db_write;
    rewrite ?tick_db; try exact Hs.
  all: repeat match goal with
       | |- likes_nonneg (set_Messages (delete _) _) => apply likes_nonneg_delete
       | |- likes_nonneg (set_Messages (alter _ _) _) =>
           apply likes_nonneg_alter; [done|]
       | |- likes_nonneg (set_Messages (<[_ := _]>) _) => apply likes_nonneg_insert
       | |- likes_nonneg (set_Replies _ _) => exact Hs
       | |- likes_nonneg (set_Appeals _ _) => exact Hs
       end; try exact Hs.
  all: match goal with
       | H : Messages _ !! _ = Some ?m |- _ => pose proof (Hs _ _ H)
       end.
  all: try (by destruct (body req !! "textColor"), (body req !! "message"),
                 (body req !! "name")).
  all: simpl; try lia; try done.
  all: try match goal with
       | Hpos : bool_decide (_ > 0) = true |- _ => apply bool_decide_eq_true_1 in Hpos
       end.
  all: apply js_round_nonneg; lia.
Qed.

(** X12.  No sequence of requests to the routes on messages, replies and
    appeals, under any fault schedule, takes a store without negative
    like counts to one with a negative count. *)
Theorem serve_keeps_likes_nonneg (l : list (Route * Request)) (s : St) :
  likes_nonneg (db s) -> likes_nonneg (db (serve l s)).
Proof.
  revert s. induction l as [|[r req] l IH]; intros s Hs; [exact Hs|].
  simpl. apply IH. by apply route_keeps_likes_nonneg.
Qed.

Lemma serve_keeps_likes_nonneg_witness :
  likes_nonneg
    (db (serve
           [(UnlikeMessage, request [("id", mid1)] [] (Some bob));
            (PutMessage, request [("id", mid2)] [("likes", "-5")] (Some bob));
            (PostReply, request [("id", mid2)] [("reply", "hi")] (Some alice));
            (DeleteMessage, request [("id", mid1)] [] (Some root))] st0)).
Proof. apply serve_keeps_likes_nonneg. exact likes_nonneg_db0. Defined.

Lemma route_never_creates_messages (r : Route) (req : Request) (s : St) id m' :
  Messages (db (route_handler r req s).2) !! id = Some m' ->
  exists m, Messages (db s) !! id = Some m /\
            m_userId m' = m_userId m /\ m_images m' = m_images m.
Proof.
  destruct r; unfold_handlers; db_cases; cbn [snd]; rewrite ?db_write, ?tick_db;
    simpl Messages; intros Hm'; try (by exists m').
  all: try (apply lookup_delete_Some in Hm' as [_ Hm']; by exists m').
  all: try (rewrite lookup_insert in Hm'; destruct (decide _) as [<-|];
            [injection Hm' as <-|by exists m']; eexists; split; [eassumption|];
            by destruct (body req !! "textColor"), (body req !! "message"),
                 (body req !! "name")).
  all: try (rewrite lookup_insert in Hm'; destruct (decide _) as [<-|];
            [injection Hm' as <-|by exists m']; eexists; split; [eassumption|];
            by case_bool_decide).
  all: try (rewrite lookup_alter in Hm'; destruct (decide _) as [<-|];
            [|by exists m'];
            destruct (Messages (db s) !! _) as [m0|]; [|done];
            injection Hm' as <-; by exists m0).
Qed.

(** X13.  The routes on messages, replies and appeals create no message
    and never change a message's owner or images: after any sequence of
    requests, under any fault schedule, a message found under an id was
    under that id at the start, with the same owner and the same images. *)
Theorem serve_never_creates_messages
    (l : list (Route * Request)) (s : St) (id : oid) (m' : MessageDoc) :
  Messages (db (serve l s)) !! id = Some m' ->
  exists m, Messages (db s) !! id = Some m /\
            m_userId m' = m_userId m /\ m_images m' = m_images m.
Proof.
  revert s. induction l as [|[r req] l IH]; intros s Hm'.
  - by exists m'.
  - simpl in Hm'. destruct (IH _ Hm') as (m1 & Hm1 & Hu1 & Hi1).
    destruct (route_never_creates_messages _ _ _ _ _ Hm1) as (m & Hm & Hu & Hi).
    exists m. split; [exact Hm|]. split; congruence.
Qed.

Lemma serve_never_creates_messages_witness :
  exists m, Messages (db st0) !! mid1 = Some m /\
            m_userId (mkMessage "root" "hi" (userId alice) "#000" [] 1 [rid1]) = m_userId m /\
            m_images (mkMessage "root" "hi" (userId alice) "#000" [] 1 [rid1]) = m_images m.
Proof.
  exact (serve_never_creates_messages
           [(PutMessage, request [("id", mid1)] [("name", "root")] (Some alice));
            (PutMessage, request [("id", mid1)] [("name", "eve")] (Some root));
            (LikeMessage, request [("id", mid1)] [] (Some root))]
           st0 mid1 (mkMessage "root" "hi" (userId alice) "#000" [] 1 [rid1]) eq_refl).
Defined.

(** ** A rejected first call *)

(** X14.  When the driver rejects the first call of a request, the
    handler answers 500 with its own text and the store is as before;
    this holds for every handler whose first step is a driver call, and
    for the reply creation once the text is not empty and [req.user] is
    set.  The rejected call is the only one made; none is made when the
    route's id is not well formed, and the answer is the same 500. *)
Theorem rejected_first_call (req : Request) (s : St) :
  rejects s = true ->
  let after x := match cast_oid (param req x) with Some _ => tick s | None => s end in
  db (tick s) = db s /\
  delete_message req s = (Ok (mkRes 500 (JsonMessage "伺服器錯誤")), after "id") /\
  put_message req s = (Ok (mkRes 500 (Text "編輯留言失敗")), after "id") /\
  like_message req s = (Ok (mkRes 500 (Text "點讚失败")), after "id") /\
  unlike_message req s = (Ok (mkRes 500 (Text "取消點讚失敗")), after "id") /\
  delete_reply req s = (Ok (mkRes 500 (Text "刪除回覆失敗")), after "messageId") /\
  delete_appeal req s = (Ok (mkRes 500 (JsonMessage "無法刪除申訴")), after "id") /\
  (falsy (body req !! "reply") = false -> is_Some (user req) ->
   post_reply req s = (Ok (mkRes 500 (Text "伺服器錯誤")), after "id")).
Proof.
  intros Hr after. subst after. split; [reflexivity|].
  repeat split; unfold_handlers; db_simpl;
    try (match goal with
         | |- context [cast_oid ?x] => destruct (cast_oid x) eqn:?
         end; db_simpl; rewrite ?Hr; db_simpl; reflexivity).
  intros Hb [c Hc]. rewrite Hb, Hc. db_simpl. rewrite Reply_create_run.
  destruct (cast_oid (param req "id")); [|by db_simpl].
  cbv zeta. rewrite Hr. by db_simpl.
Qed.

Lemma rejected_first_call_witness :
  delete_message (request [("id", mid1)] [] (Some alice)) (mkSt db0 [true] 1 0)
  = (Ok (mkRes 500 (JsonMessage "伺服器錯誤")), mkSt db0 [] 1 0).
Proof.
  exact (proj1 (proj2 (rejected_first_call (request [("id", mid1)] [] (Some alice))
                         (mkSt db0 [true] 1 0) eq_refl))).
Defined.

(** ** Creating an appeal *)

Lemma Appeal_create_run uid appealType report content s :
  Appeal_create uid appealType report content s =
  let id := ObjectId (next_oid s) in
  let doc := mkAppeal uid appealType report content in
  let s1 := mkSt (db s) (tail (faults s)) (N.succ (next_oid s)) (now s) in
  if rejects s then (Throw, tick s)
  else match Appeals (db s) !! id with
       | Some _ => (Throw, s1)
       | None => (Ok (id, doc), write (set_Appeals (<[id := doc]>) (db s)) s1)
       end.
Proof.
  unfold Appeal_create, driver_call. rewrite bind_run.
  destruct (rejects s); [done|]. cbv zeta. rewrite bind_run.
  unfold new_ObjectId. rewrite bind_run. unfold get_db. simpl.
  by destruct (Appeals (db s) !! ObjectId (next_oid s)).
Qed.

(** X15.  An appeal needs its three fields: when one of appealType,
    report and content is missing or empty the answer is 400 and the
    state is untouched, whatever the fault schedule.  With the three
    given, the stored appeal belongs to the session's user, whatever else
    the body holds, and nothing else in the store changes. *)
Theorem post_appeal_requires_fields_and_owns
    (req : Request) (s : St) :
  (falsy (body req !! "appealType") = true \/ falsy (body req !! "report") = true
   \/ falsy (body req !! "content") = true ->
   post_appeal req s = (Ok (mkAns 400 (Plain (Text "所有字段都是必填的"))), s)) /\
  (forall c appealType report content,
      user req = Some c ->
      body req !! "appealType" = Some appealType -> appealType ≠ "" ->
      body req !! "report" = Some report -> report ≠ "" ->
      body req !! "content" = Some content -> content ≠ "" ->
      Appeals (db s) !! ObjectId (next_oid s) = None ->
      faults s = [] ->
      exists s',
        post_appeal req s
        = (Ok (mkAns 201 (SentAppeal (ObjectId (next_oid s))
                            (mkAppeal (userId c) appealType report content))), s') /\
        Appeals (db s')
        = <[ObjectId (next_oid s) := mkAppeal (userId c) appealType report content]>
            (Appeals (db s)) /\
        Messages (db s') = Messages (db s) /\
        Replies (db s') = Replies (db s)).
Proof.
  split.
  - intros H. unfold post_appeal, try_catch.
    replace (falsy (body req !! "appealType") || falsy (body req !! "report")
             || falsy (body req !! "content")) with true; [done|].
    symmetry. destruct H as [->|[->| ->]]; rewrite ?orb_true_r; done.
  - intros c a r t Hu Ha Hane Hr Hrne Ht Htne Hfresh Hq.
    unfold post_appeal, try_catch. rewrite Ha, Hr, Ht. unfold falsy.
    rewrite !bool_decide_eq_false_2 by done. cbn [orb default from_option id].
    db_simpl. rewrite (req_user_run _ _ _ Hu). db_simpl.
    rewrite Appeal_create_run. cbv zeta. rewrite (rejects_quiet _ Hq), Hfresh.
    db_simpl. eexists. split; [reflexivity|]. by simpl.
Qed.

Lemma post_appeal_requires_fields_and_owns_witness :
  exists s',
    post_appeal
      (request [] [("appealType", "spam"); ("report", "alice"); ("content", "again");
                   ("userId", userId alice)] (Some bob)) st0
    = (Ok (mkAns 201 (SentAppeal (ObjectId 1)
                        (mkAppeal (userId bob) "spam" "alice" "again"))), s') /\
    Appeals (db s') !! aid1 = Some appeal1.
Proof.
  destruct (proj2 (post_appeal_requires_fields_and_owns
                     (request [] [("appealType", "spam"); ("report", "alice");
                                  ("content", "again"); ("userId", userId alice)]
                        (Some bob)) st0)
              bob "spam" "alice" "again" eq_refl eq_refl)
    as (s' & Hrun & Happeals & _); try discriminate; try reflexivity.
  exists s'. split; [exact Hrun|]. rewrite Happeals. reflexivity.
Defined.

(** ** Creating a message *)

Lemma Message_create_run name message textColor uid images s :
  Message_create name message textColor uid images s =
  let id := ObjectId (next_oid s) in
  let doc :=
    mkMessage (default "" name) (default "" message) uid (default "#000" textColor)
      (match images with Some v => [v] | None => [] end) 0 [] in
  let s1 := mkSt (db s) (tail (faults s)) (N.succ (next_oid s)) (now s) in
  if falsy name || falsy message then (Throw, s)
  else if rejects s then (Throw, tick s)
  else match Messages (db s) !! id with
       | Some _ => (Throw, s1)
       | None => (Ok (id, doc), write (set_Messages (<[id := doc]>) (db s)) s1)
       end.
Proof.
  unfold Message_create, driver_call.
  destruct (falsy name || falsy message); [done|]. rewrite bind_run.
  destruct (rejects s); [done|]. cbv zeta. rewrite bind_run.
  unfold new_ObjectId. rewrite bind_run. unfold get_db. simpl.
  by destruct (Messages (db s) !! ObjectId (next_oid s)).
Qed.

(** X16.  A message is created for the session's user only: without
    [req.user] the answer is 401 and the state is untouched whatever the
    fault schedule.  A created message belongs to the session's user,
    starts with no like and no reply whatever else the body holds, takes
    the default colour when none is given, and changes nothing else in
    the store. *)
Theorem post_message_creates_for_the_session
    (req : Request) (s : St) :
  (user req = None ->
   post_message req s = (Ok (mkAns 401 (JsonError "未授權")), s)) /\
  (forall c name message,
      user req = Some c ->
      body req !! "name" = Some name -> name ≠ "" ->
      body req !! "message" = Some message -> message ≠ "" ->
      Messages (db s) !! ObjectId (next_oid s) = None ->
      faults s = [] ->
      exists s' m,
        post_message req s
        = (Ok (mkAns 201 (Plain (SentMessage (ObjectId (next_oid s)) m))), s') /\
        m_name m = name /\ m_message m = message /\
        m_userId m = userId c /\
        m_textColor m = default "#000" (body req !! "textColor") /\
        m_likes m = 0 /\ m_replies m = [] /\
        Messages (db s') = <[ObjectId (next_oid s) := m]> (Messages (db s)) /\
        Replies (db s') = Replies (db s) /\
        Appeals (db s') = Appeals (db s)).
Proof.
  split.
  - intros Hu. unfold post_message, try_catch. by rewrite Hu.
  - intros c name message Hu Hn Hnne Hm Hmne Hfresh Hq.
    unfold post_message, try_catch. rewrite Hu. cbv zeta.
    rewrite bind_run, Message_create_run. cbv zeta.
    rewrite Hn, Hm. unfold falsy. rewrite !bool_decide_eq_false_2 by done.
    cbn [orb]. rewrite (rejects_quiet _ Hq), Hfresh. db_simpl.
    eexists _, _. split; [reflexivity|]. by simpl.
Qed.

Lemma post_message_creates_for_the_session_witness :
  exists s',
    post_message
      (request [] [("name", "bob"); ("message", "hello"); ("likes", "100");
                   ("userId", userId alice)] (Some bob)) st0
    = (Ok (mkAns 201 (Plain (SentMessage (ObjectId 1)
                               (mkMessage "bob" "hello" (userId bob) "#000" [] 0 [])))),
       s').
Proof.
  destruct (proj2 (post_message_creates_for_the_session
                     (request [] [("name", "bob"); ("message", "hello"); ("likes", "100");
                                  ("userId", userId alice)] (Some bob)) st0)
              bob "bob" "hello" eq_refl eq_refl)
    as (s' & m & Hrun & _); try discriminate; try reflexivity.
  exists s'. rewrite Hrun. apply (f_equal fst) in Hrun. simpl in Hrun.
  injection Hrun as <-. reflexivity.
Defined.

(** X17.  A message needs a name and a text: when one of them is missing
    or empty the creation answers 500 and the state is untouched,
    whatever the fault schedule. *)
Theorem post_message_requires_name_and_text
    (req : Request) (c : JwtPayload) (s : St) :
  user req = Some c ->
  falsy (body req !! "name") = true \/ falsy (body req !! "message") = true ->
  post_message req s = (Ok (mkAns 500 (Plain (Text "伺服器錯誤"))), s).
Proof.
  intros Hu H. unfold post_message, try_catch. rewrite Hu. cbv zeta.
  rewrite bind_run, Message_create_run. cbv zeta.
  replace (falsy (body req !! "name") || falsy (body req !! "message")) with true;
    [done|].
  symmetry. destruct H as [->| ->]; rewrite ?orb_true_r; done.
Qed.

Lemma post_message_requires_name_and_text_witness :
  post_message (request [] [("name", "bob"); ("message", "")] (Some bob)) st0
  = (Ok (mkAns 500 (Plain (Text "伺服器錯誤"))), st0).
Proof.
  exact (post_message_requires_name_and_text
           (request [] [("name", "bob"); ("message", "")] (Some bob)) bob st0
           eq_refl (or_intror eq_refl)).
Defined.

(** X18.  Creating a message and then deleting it, as its author or as
    an administrator, gives back the store as it was. *)
Theorem post_then_delete_message_restores
    (req1 req2 : Request) (c1 c2 : JwtPayload) (s : St) (name message : string) :
  user req1 = Some c1 ->
  body req1 !! "name" = Some name -> name ≠ "" ->
  body req1 !! "message" = Some message -> message ≠ "" ->
  Messages (db s) !! ObjectId (next_oid s) = None ->
  faults s = [] ->
  user req2 = Some c2 ->
  params req2 !! "id" = Some (ObjectId (next_oid s)) ->
  userId c1 = userId c2 \/ role c2 = "admin" ->
  exists s2,
    delete_message req2 (post_message req1 s).2
    = (Ok (mkRes 200 (JsonMessage "Message deleted successfully")), s2) /\
    db s2 = db s.
Proof.
  intros Hu1 Hn Hnne Hm Hmne Hfresh Hq Hu2 Hid Hp.
  unfold post_message, try_catch. rewrite Hu1. cbv zeta.
  rewrite bind_run, Message_create_run. cbv zeta.
  rewrite Hn, Hm. unfold falsy. rewrite !bool_decide_eq_false_2 by done.
  cbn [orb]. rewrite (rejects_quiet _ Hq), Hfresh. db_simpl. cbn [snd].
  set (mid := ObjectId (next_oid s)) in *.
  set (doc := mkMessage _ _ _ _ _ _ _).
  set (s1 := write _ _).
  assert (Hq1 : faults s1 = []) by (subst s1; simpl; by rewrite Hq).
  assert (Hm1 : Messages (db s1) !! mid = Some doc)
    by (subst s1; simpl; apply lookup_insert_eq).
  rewrite (delete_message_allowed req2 c2 s1 mid mid doc Hu2 Hid (cast_ObjectId _) Hm1 Hp).
  rewrite !(tick_quiet _ Hq1), (rejects_quiet _ Hq1). cbn [orb].
  eexists. split; [reflexivity|].
  subst s1. simpl. destruct s as [[ms rs aps] fs n t]. simpl in *.
  unfold set_Messages. simpl. f_equal.
  rewrite delete_insert_eq. by apply delete_id.
Qed.

Lemma post_then_delete_message_restores_witness :
  exists s2,
    delete_message (request [("id", ObjectId 1)] [] (Some root))
      (post_message (request [] [("name", "bob"); ("message", "hello")] (Some bob)) st0).2
    = (Ok (mkRes 200 (JsonMessage "Message deleted successfully")), s2) /\
    db s2 = db0.
Proof.
  refine (post_then_delete_message_restores
            (request [] [("name", "bob"); ("message", "hello")] (Some bob))
            (request [("id", ObjectId 1)] [] (Some root))
            bob root st0 "bob" "hello"
            eq_refl eq_refl _ eq_refl _ eq_refl eq_refl eq_refl eq_refl
            (or_intror eq_refl)); discriminate.
Defined.

(** * Accounts *)

Lemma ubind_run {A B} (c : UDB A) (f : A -> UDB B) (w : World) :
  ((c ≫= f) : UDB B) w =
  match c w with
  | (Ok a, w') => f a w'
  | (Throw, w') => (Throw, w')
  end.
Proof. reflexivity. Qed.

Lemma uret_run {A} (a : A) (w : World) : (mret a : UDB A) w = (Ok a, w).
Proof. reflexivity. Qed.

Lemma uthrow_run {A} (w : World) : @uthrow A w = (Throw, w).
Proof. reflexivity. Qed.

Lemma lift_driver_call_run (w : World) :
  lift driver_call w =
  if rejects (base w) then (Throw, mkWorld (Users w) (tick (base w)))
  else (Ok tt, mkWorld (Users w) (tick (base w))).
Proof. unfold lift, driver_call. by destruct (rejects (base w)). Qed.

Lemma world_quiet (w : World) :
  faults (base w) = [] -> mkWorld (Users w) (tick (base w)) = w.
Proof. intros H. rewrite (tick_quiet _ H). by destruct w. Qed.

Lemma User_findOne_run username w :
  User_findOne username w =
  if rejects (base w) then (Throw, mkWorld (Users w) (tick (base w)))
  else (Ok (head (map_to_list (filter (fun kv => u_username kv.2 = username) (Users w)))),
        mkWorld (Users w) (tick (base w))).
Proof.
  unfold User_findOne. rewrite ubind_run, lift_driver_call_run.
  by destruct (rejects (base w)).
Qed.

Lemma User_findById_run id w :
  User_findById id w =
  if rejects (base w) then (Throw, mkWorld (Users w) (tick (base w)))
  else (Ok (Users w !! id), mkWorld (Users w) (tick (base w))).
Proof.
  unfold User_findById. rewrite ubind_run, lift_driver_call_run.
  by destruct (rejects (base w)).
Qed.

(** *** Looking a user up by name *)

Lemma find_by_name_Some (us : gmap string UserDoc) name i u :
  head (map_to_list (filter (fun kv => u_username kv.2 = name) us)) = Some (i, u) ->
  us !! i = Some u /\ u_username u = name.
Proof.
  intros H%head_Some_elem_of. apply elem_of_map_to_list in H.
  by apply map_lookup_filter_Some in H.
Qed.

Lemma find_by_name_None (us : gmap string UserDoc) name :
  head (map_to_list (filter (fun kv => u_username kv.2 = name) us)) = None <->
  forall i u, us !! i = Some u -> u_username u ≠ name.
Proof.
  rewrite head_None, map_to_list_empty_iff. split.
  - intros Hempty i u Hu Hname.
    assert (filter (fun kv => u_username kv.2 = name) us !! i = Some u) as H
      by (by apply map_lookup_filter_Some).
    rewrite Hempty in H. by rewrite lookup_empty in H.
  - intros Hnone. apply map_eq. intros i. rewrite lookup_empty.
    destruct (filter _ us !! i) as [u|] eqn:E; [|done].
    apply map_lookup_filter_Some in E as [Hu Hname]. by destruct (Hnone i u Hu).
Qed.

Lemma find_by_name_unique (us : gmap string UserDoc) i u :
  unique_usernames us -> us !! i = Some u ->
  head (map_to_list (filter (fun kv => u_username kv.2 = u_username u) us)) = Some (i, u).
Proof.
  intros Huniq Hu.
  destruct (head _) as [[j v]|] eqn:E.
  - apply find_by_name_Some in E as [Hv Hname].
    assert (j = i) as -> by (by apply (Huniq j i v u)).
    congruence.
  - by destruct (proj1 (find_by_name_None us (u_username u)) E i u Hu).
Qed.

Lemma User_create_run username password gender age w :
  User_create username password gender age w =
  let id := ObjectId (next_oid (base w)) in
  let doc := mkUser username password "user" gender age in
  let s1 := mkSt (db (base w)) (tail (faults (base w)))
              (N.succ (next_oid (base w))) (now (base w)) in
  if bool_decide (username = "") || bool_decide (password = "")
     || bool_decide (gender = "") || bool_decide (age = "")
  then (Throw, w)
  else if rejects (base w) then (Throw, mkWorld (Users w) (tick (base w)))
  else match Users w !! id,
             head (map_to_list (filter (fun kv => u_username kv.2 = username) (Users w)))
       with
       | None, None => (Ok (id, doc), mkWorld (<[id := doc]> (Users w)) s1)
       | _, _ => (Throw, mkWorld (Users w) s1)
       end.
Proof.
  unfold User_create.
  destruct (_ || _ || _ || _); [done|].
  rewrite ubind_run, lift_driver_call_run.
  destruct (rejects (base w)); [done|]. cbv zeta. rewrite ubind_run.
  unfold lift at 1, new_ObjectId. simpl. rewrite ubind_run. unfold get_users.
  simpl.
  destruct (Users w !! ObjectId (next_oid (base w))); [done|].
  by destruct (head (map_to_list _)).
Qed.

(** Symbolic execution of an account handler applied to a world. *)
Ltac udb_simpl :=
  repeat first
    [ progress (lazy beta iota zeta)
    | rewrite ubind_run
    | rewrite uret_run
    | rewrite uthrow_run
    | rewrite User_findOne_run
    | rewrite User_findById_run
    | rewrite User_create_run ].

Ltac udb_cases :=
  repeat first
    [ progress udb_simpl
    | progress (cbn [Users base fst snd])
    | match goal with
      | H : ?x = _ |- context [match ?x with _ => _ end] => rewrite H
      | |- context [if rejects ?x then _ else _] => destruct (rejects x) eqn:?
      | |- context [match head ?l with _ => _ end] => destruct (head l) as [[??]|] eqn:?
      | |- context [match Users ?w !! ?i with _ => _ end] => destruct (Users w !! i) eqn:?
      | |- context [match user ?r with _ => _ end] => destruct (user r) eqn:?
      | |- context [match ?e with Some _ => _ | None => _ end] => destruct e eqn:?
      | |- context [if negb ?b then _ else _] => destruct b eqn:?
      | |- context [if bool_decide ?P then _ else _] => destruct (bool_decide P) eqn:?
      | |- context [if ?a || ?b then _ else _] => destruct (a || b) eqn:?
      end ].

(** ** Registration *)

(** X19.  Registration leaves every stored user as it is and every
    stored message, reply and appeal as it is; a user it adds has the
    role [user]; and it keeps the usernames distinct.  This holds for
    every request, whatever its body holds, and every fault schedule. *)
Theorem register_adds_plain_users
    (bcrypt_hash : string -> string) (req : Request) (w : World) :
  let w' := (register bcrypt_hash req w).2 in
  (forall i u, Users w !! i = Some u -> Users w' !! i = Some u) /\
  (forall i u, Users w' !! i = Some u -> Users w !! i = Some u \/ u_role u = "user") /\
  (unique_usernames (Users w) -> unique_usernames (Users w')) /\
  db (base w') = db (base w).
Proof.
  unfold register, utry_catch. udb_cases; cbn [snd Users base db];
    (split; [|split; [|split]]); try done; try (intros; by left).
  - intros i u Hu. rewrite lookup_insert.
    destruct (decide _) as [<-|]; [congruence|done].
  - intros i u. rewrite lookup_insert.
    destruct (decide _) as [<-|]; [intros [= <-]; by right|by left].
  - intros Huniq i j u v. rewrite !lookup_insert.
    match goal with
    | H : head _ = None |- _ => pose proof (proj1 (find_by_name_None _ _) H) as Hfree
    end.
    destruct (decide _) as [<-|], (decide _) as [<-|]; try done.
    + intros [= <-] Hv Hname. simpl in Hname. by destruct (Hfree j v Hv).
    + intros Hu [= <-] Hname. simpl in Hname. by destruct (Hfree i u Hu).
    + apply Huniq.
Qed.

Lemma register_run_new
    (bcrypt_hash : string -> string) (req : Request) (w : World)
    (username password gender age : string) :
  body req !! "username" = Some username -> username ≠ "" ->
  body req !! "password" = Some password -> password ≠ "" ->
  body req !! "gender" = Some gender -> gender ≠ "" ->
  body req !! "age" = Some age -> age ≠ "" ->
  bcrypt_hash password ≠ "" ->
  (forall i u, Users w !! i = Some u -> u_username u ≠ username) ->
  Users w !! ObjectId (next_oid (base w)) = None ->
  faults (base w) = [] ->
  register bcrypt_hash req w =
  let id := ObjectId (next_oid (base w)) in
  let doc := mkUser username (bcrypt_hash password) "user" gender age in
  (Ok (mkAcc 201 (SentNewUser id doc)),
   mkWorld (<[id := doc]> (Users w))
     (mkSt (db (base w)) [] (N.succ (next_oid (base w))) (now (base w)))).
Proof.
  intros Hu Hune Hp Hpne Hg Hgne Ha Hane Hhash Hfree Hfresh Hq.
  unfold register, utry_catch. rewrite Hu, Hp, Hg, Ha. unfold falsy.
  rewrite !bool_decide_eq_false_2 by done. cbn [orb default from_option id].
  udb_simpl. rewrite (rejects_quiet _ Hq), (tick_quiet _ Hq).
  rewrite (proj2 (find_by_name_None (Users w) username) Hfree).
  udb_simpl. rewrite !bool_decide_eq_false_2 by done. cbn [orb Users base].
  rewrite (rejects_quiet _ Hq), Hfresh.
  rewrite (proj2 (find_by_name_None (Users w) username) Hfree).
  cbn [fst snd]. by rewrite Hq.
Qed.

(** X20.  A registration with its four fields and a username nobody
    has is answered 201 with the new user: the password stored is the
    hash, never the text sent, and the role is [user] even when the body
    asks for another. *)
Theorem register_stores_hash_and_plain_role
    (bcrypt_hash : string -> string) (req : Request) (w : World)
    (username password gender age : string) :
  body req !! "username" = Some username -> username ≠ "" ->
  body req !! "password" = Some password -> password ≠ "" ->
  body req !! "gender" = Some gender -> gender ≠ "" ->
  body req !! "age" = Some age -> age ≠ "" ->
  bcrypt_hash password ≠ "" ->
  (forall i u, Users w !! i = Some u -> u_username u ≠ username) ->
  Users w !! ObjectId (next_oid (base w)) = None ->
  faults (base w) = [] ->
  exists w',
    register bcrypt_hash req w
    = (Ok (mkAcc 201 (SentNewUser (ObjectId (next_oid (base w)))
                        (mkUser username (bcrypt_hash password) "user" gender age))), w') /\
    Users w' !! ObjectId (next_oid (base w))
    = Some (mkUser username (bcrypt_hash password) "user" gender age).
Proof.
  intros Hu Hune Hp Hpne Hg Hgne Ha Hane Hhash Hfree Hfresh Hq.
  rewrite (register_run_new bcrypt_hash req w username password gender age) by done.
  cbv zeta. eexists. split; [reflexivity|]. apply lookup_insert_eq.
Qed.

Lemma register_stores_hash_and_plain_role_witness :
  exists w',
    register sample_hash
      (request [] [("username", "carol"); ("password", "pw123"); ("gender", "female");
                   ("age", "22"); ("role", "admin")] None)
      (mkWorld ∅ st0)
    = (Ok (mkAcc 201 (SentNewUser (ObjectId 1)
                        (mkUser "carol" "$2b$10$pw123" "user" "female" "22"))), w').
Proof.
  destruct (register_stores_hash_and_plain_role sample_hash
              (request [] [("username", "carol"); ("password", "pw123");
                           ("gender", "female"); ("age", "22"); ("role", "admin")] None)
              (mkWorld ∅ st0) "carol" "pw123" "female" "22"
              eq_refl) as (w' & Hrun & _).
  all: try discriminate.
  all: try reflexivity.
  all: try (intros i u Hu; by rewrite lookup_empty in Hu).
  by exists w'.
Defined.

(** X21.  A registration is refused with 400 and changes nothing when
    one of its four fields is missing or empty, whatever the fault
    schedule, and when a stored user already has the username. *)
Theorem register_refusals
    (bcrypt_hash : string -> string) (req : Request) (w : World) :
  (falsy (body req !! "username") = true \/ falsy (body req !! "password") = true \/
   falsy (body req !! "gender") = true \/ falsy (body req !! "age") = true ->
   register bcrypt_hash req w = (Ok (mkAcc 400 (Said "所有字段都是必填的")), w)) /\
  (forall username i u,
      body req !! "username" = Some username ->
      falsy (body req !! "username") = false ->
      falsy (body req !! "password") = false ->
      falsy (body req !! "gender") = false ->
      falsy (body req !! "age") = false ->
      Users w !! i = Some u -> u_username u = username ->
      faults (base w) = [] ->
      register bcrypt_hash req w = (Ok (mkAcc 400 (Said "用戶名已存在")), w)).
Proof.
  split.
  - intros H. unfold register, utry_catch.
    replace (falsy (body req !! "username") || falsy (body req !! "password")
             || falsy (body req !! "gender") || falsy (body req !! "age")) with true;
      [done|].
    symmetry. destruct H as [->|[->|[->| ->]]]; rewrite ?orb_true_r; done.
  - intros username i u Hb Hu Hp Hg Ha Hi Hname Hq.
    unfold register, utry_catch. rewrite Hu, Hp, Hg, Ha. cbn [orb].
    rewrite Hb. cbn [default from_option id].
    udb_simpl. rewrite (rejects_quiet _ Hq), (world_quiet _ Hq).
    destruct (head _) as [[j v]|] eqn:E; [done|].
    by destruct (proj1 (find_by_name_None (Users w) username) E i u Hi).
Qed.

Lemma register_refusals_witness :
  register sample_hash
    (request [] [("username", "carol"); ("password", "other"); ("gender", "male");
                 ("age", "30")] None)
    (mkWorld (<["64b0000000000000000000d4" := mkUser "carol" "$2b$10$pw123" "user" "female" "22"]> ∅) st0)
  = (Ok (mkAcc 400 (Said "用戶名已存在")),
     mkWorld (<["64b0000000000000000000d4" := mkUser "carol" "$2b$10$pw123" "user" "female" "22"]> ∅) st0).
Proof.
  exact (proj2 (register_refusals sample_hash
                  (request [] [("username", "carol"); ("password", "other");
                               ("gender", "male"); ("age", "30")] None)
                  (mkWorld (<["64b0000000000000000000d4" :=
                                mkUser "carol" "$2b$10$pw123" "user" "female" "22"]> ∅) st0))
           "carol" "64b0000000000000000000d4"
           (mkUser "carol" "$2b$10$pw123" "user" "female" "22")
           eq_refl eq_refl eq_refl eq_refl eq_refl eq_refl eq_refl eq_refl).
Defined.

(** ** Login *)

Lemma sign_for_an_hour_run
    (jwt_sign : JwtPayload -> string -> string) (key uid role gender : string)
    (avatar : option string) (w : World) :
  key ≠ "" ->
  sign_for_an_hour (Some key) jwt_sign uid role avatar gender w =
  (Ok (jwt_sign (mkPayload uid role avatar gender (now (base w) / 1000)
                   (Some (now (base w) / 1000 + 3600))) key),
   w).
Proof.
  intros Hk. unfold sign_for_an_hour. rewrite bool_decide_eq_false_2 by done.
  rewrite ubind_run. unfold lift, Date_now. simpl. by destruct w.
Qed.

Lemma sign_for_an_hour_no_key
    (env_SECRET_KEY : option string) (jwt_sign : JwtPayload -> string -> string)
    (uid role gender : string) (avatar : option string) (w : World) :
  env_SECRET_KEY = None \/ env_SECRET_KEY = Some "" ->
  sign_for_an_hour env_SECRET_KEY jwt_sign uid role avatar gender w = (Throw, w).
Proof. by intros [-> | ->]. Qed.

Section Login.
Variable env_SECRET_KEY : option string.
Variable bcrypt_compare : string -> string -> bool.
Variable jwt_sign : JwtPayload -> string -> string.
Variables (req : Request) (w : World) (username password : string).
Hypothesis Husername : body req !! "username" = Some username.
Hypothesis Husername_ne : username ≠ "".
Hypothesis Hpassword : body req !! "password" = Some password.
Hypothesis Hpassword_ne : password ≠ "".
Hypothesis Hquiet : faults (base w) = [].

Lemma login_run :
  login env_SECRET_KEY bcrypt_compare jwt_sign req w =
  match head (map_to_list (filter (fun kv => u_username kv.2 = username) (Users w))) with
  | None => (Ok (mkAcc 400 (Said "用戶不存在")), w)
  | Some (i, u) =>
      if bcrypt_compare password (u_password u)
      then match sign_for_an_hour env_SECRET_KEY jwt_sign i (u_role u) None (u_gender u) w with
           | (Ok token, w') => (Ok (mkAcc 200 (SentLogin token i None (u_gender u))), w')
           | (Throw, w') => (Ok (mkAcc 500 (Said "伺服器錯誤")), w')
           end
      else (Ok (mkAcc 400 (Said "密碼錯誤")), w)
  end.
Proof.
  unfold login, utry_catch. rewrite Husername, Hpassword. unfold falsy.
  rewrite !bool_decide_eq_false_2 by done. cbn [orb default from_option id].
  udb_simpl. rewrite (rejects_quiet _ Hquiet), (world_quiet _ Hquiet).
  destruct (head _) as [[i u]|]; udb_simpl; [|done]. cbn [fst snd].
  destruct (bcrypt_compare password (u_password u)); cbn [negb]; udb_simpl; [|done].
  by destruct (sign_for_an_hour _ _ _ _ _ _ w) as [[token|] w'].
Qed.
End Login.

(** X22.  A login never changes the users or the rest of the store,
    whatever the request and the fault schedule.  It answers 400 when the
    username or the password is missing or empty; and, when the driver
    answers, 400 when no stored user has the username and 400 when the
    password does not match the stored hash. *)
Theorem login_refusals
    (env_SECRET_KEY : option string) (bcrypt_compare : string -> string -> bool)
    (jwt_sign : JwtPayload -> string -> string) (req : Request) (w : World) :
  (Users (login env_SECRET_KEY bcrypt_compare jwt_sign req w).2 = Users w /\
   db (base (login env_SECRET_KEY bcrypt_compare jwt_sign req w).2) = db (base w)) /\
  (falsy (body req !! "username") = true \/ falsy (body req !! "password") = true ->
   login env_SECRET_KEY bcrypt_compare jwt_sign req w
   = (Ok (mkAcc 400 (Said "用戶名和密碼是必填的")), w)) /\
  (forall username password,
      body req !! "username" = Some username -> username ≠ "" ->
      body req !! "password" = Some password -> password ≠ "" ->
      faults (base w) = [] ->
      ((forall i u, Users w !! i = Some u -> u_username u ≠ username) ->
       login env_SECRET_KEY bcrypt_compare jwt_sign req w
       = (Ok (mkAcc 400 (Said "用戶不存在")), w)) /\
      (forall i u,
          unique_usernames (Users w) ->
          Users w !! i = Some u -> u_username u = username ->
          bcrypt_compare password (u_password u) = false ->
          login env_SECRET_KEY bcrypt_compare jwt_sign req w
          = (Ok (mkAcc 400 (Said "密碼錯誤")), w))).
Proof.
  split; [|split].
  - unfold login, utry_catch.
    destruct (falsy (body req !! "username") || falsy (body req !! "password"));
      [done|].
    udb_simpl. destruct (rejects (base w)); udb_simpl; [done|].
    destruct (head _) as [[i u]|]; udb_simpl; [|done]. cbn [fst snd].
    destruct (bcrypt_compare _ _); cbn [negb]; udb_simpl; [|done].
    unfold sign_for_an_hour.
    destruct env_SECRET_KEY as [key|]; [|done].
    destruct (bool_decide (key = "")); [done|].
    udb_simpl. unfold lift, Date_now. by udb_simpl.
  - intros H. unfold login, utry_catch.
    replace (falsy (body req !! "username") || falsy (body req !! "password")) with true;
      [done|].
    symmetry. destruct H as [->| ->]; rewrite ?orb_true_r; done.
  - intros username password Hu Hune Hp Hpne Hq.
    rewrite (login_run env_SECRET_KEY bcrypt_compare jwt_sign req w username password)
      by done.
    split.
    + intros Hfree. by rewrite (proj2 (find_by_name_None (Users w) username) Hfree).
    + intros i u Huniq Hi <- Hbad.
      by rewrite (find_by_name_unique (Users w) i u Huniq Hi), Hbad.
Qed.

Lemma unique_usernames_world0 : unique_usernames (Users world0).
Proof.
  intros i j u v Hu Hv _. unfold world0 in Hu, Hv. cbn [Users] in Hu, Hv.
  apply lookup_insert_Some in Hu as [[<- _]|[_ Hu]];
    [|by rewrite lookup_empty in Hu].
  apply lookup_insert_Some in Hv as [[<- _]|[_ Hv]];
    [done|by rewrite lookup_empty in Hv].
Qed.

Lemma login_refusals_witness :
  login (Some "s3cret") sample_compare sample_sign
    (request [] [("username", "carol"); ("password", "guess")] None) world0
  = (Ok (mkAcc 400 (Said "密碼錯誤")), world0).
Proof.
  refine (proj2 (proj2 (proj2 (login_refusals (Some "s3cret") sample_compare sample_sign
            (request [] [("username", "carol"); ("password", "guess")] None) world0))
            "carol" "guess" eq_refl _ eq_refl _ eq_refl)
          carol_id carol unique_usernames_world0 eq_refl eq_refl eq_refl);
    discriminate.
Defined.

(** X23.  A login with the password of the stored user, under a
    configured key: the answer is 200 with the user's id and a token made
    of that id, the stored role and gender, the clock in seconds as
    [iat], and [exp] set 3600 seconds later; nothing changes. *)
Theorem login_issues_one_hour_token
    (bcrypt_compare : string -> string -> bool)
    (jwt_sign : JwtPayload -> string -> string) (key : string)
    (req : Request) (w : World) (username password : string) (i : oid) (u : UserDoc) :
  body req !! "username" = Some username -> username ≠ "" ->
  body req !! "password" = Some password -> password ≠ "" ->
  faults (base w) = [] ->
  key ≠ "" ->
  unique_usernames (Users w) ->
  Users w !! i = Some u -> u_username u = username ->
  bcrypt_compare password (u_password u) = true ->
  login (Some key) bcrypt_compare jwt_sign req w
  = (Ok (mkAcc 200
           (SentLogin
              (jwt_sign (mkPayload i (u_role u) None (u_gender u)
                           (now (base w) / 1000) (Some (now (base w) / 1000 + 3600)))
                 key)
              i None (u_gender u))),
     w).
Proof.
  intros Hu Hune Hp Hpne Hq Hk Huniq Hi <- Hok.
  rewrite (login_run (Some key) bcrypt_compare jwt_sign req w (u_username u) password)
    by done.
  rewrite (find_by_name_unique (Users w) i u Huniq Hi), Hok.
  by rewrite sign_for_an_hour_run.
Qed.

Lemma login_issues_one_hour_token_witness :
  login (Some "s3cret") sample_compare sample_sign
    (request [] [("username", "carol"); ("password", "pw123")] None) world0
  = (Ok (mkAcc 200 (SentLogin ("tok." ++ carol_id) carol_id None "female")), world0).
Proof.
  refine (login_issues_one_hour_token sample_compare sample_sign "s3cret"
            (request [] [("username", "carol"); ("password", "pw123")] None) world0
            "carol" "pw123" carol_id carol
            eq_refl _ eq_refl _ eq_refl _ unique_usernames_world0 eq_refl eq_refl eq_refl);
    discriminate.
Defined.

(** X24.  Without a configured key (the variable unset, or empty) a
    login with the right password is answered 500: server.js reads the
    key without the default the validator falls back on. *)
Theorem login_needs_secret_key
    (env_SECRET_KEY : option string) (bcrypt_compare : string -> string -> bool)
    (jwt_sign : JwtPayload -> string -> string)
    (req : Request) (w : World) (username password : string) (i : oid) (u : UserDoc) :
  env_SECRET_KEY = None \/ env_SECRET_KEY = Some "" ->
  body req !! "username" = Some username -> username ≠ "" ->
  body req !! "password" = Some password -> password ≠ "" ->
  faults (base w) = [] ->
  unique_usernames (Users w) ->
  Users w !! i = Some u -> u_username u = username ->
  bcrypt_compare password (u_password u) = true ->
  login env_SECRET_KEY bcrypt_compare jwt_sign req w
  = (Ok (mkAcc 500 (Said "伺服器錯誤")), w) /\
  SECRET_KEY env_SECRET_KEY = "your_secret_key".
Proof.
  intros Hk Hu Hune Hp Hpne Hq Huniq Hi <- Hok. split.
  - rewrite (login_run env_SECRET_KEY bcrypt_compare jwt_sign req w (u_username u) password)
      by done.
    rewrite (find_by_name_unique (Users w) i u Huniq Hi), Hok.
    by rewrite sign_for_an_hour_no_key.
  - by destruct Hk as [-> | ->].
Qed.

Lemma login_needs_secret_key_witness :
  login None sample_compare sample_sign
    (request [] [("username", "carol"); ("password", "pw123")] None) world0
  = (Ok (mkAcc 500 (Said "伺服器錯誤")), world0).
Proof.
  refine (proj1 (login_needs_secret_key None sample_compare sample_sign
            (request [] [("username", "carol"); ("password", "pw123")] None) world0
            "carol" "pw123" carol_id carol (or_introl eq_refl)
            eq_refl _ eq_refl _ eq_refl unique_usernames_world0 eq_refl eq_refl eq_refl));
    discriminate.
Defined.

Lemma find_by_name_after_insert (us : gmap string UserDoc) id doc :
  (forall i u, us !! i = Some u -> u_username u ≠ u_username doc) ->
  head (map_to_list (filter (fun kv => u_username kv.2 = u_username doc)
                       (<[id := doc]> us)))
  = Some (id, doc).
Proof.
  intros Hfree. destruct (head _) as [[j v]|] eqn:E.
  - apply find_by_name_Some in E as [Hv Hname].
    apply lookup_insert_Some in Hv as [[<- <-]|[_ Hv]]; [done|].
    by destruct (Hfree j v Hv).
  - destruct (proj1 (find_by_name_None _ _) E id doc); [apply lookup_insert_eq|done].
Qed.

(** X25.  A user who has just registered can log in with the same
    username and password: the answer is 200 with the new user's id and
    a token for that id with the role [user]. *)
Theorem register_then_login
    (bcrypt_hash : string -> string) (bcrypt_compare : string -> string -> bool)
    (jwt_sign : JwtPayload -> string -> string) (key : string)
    (req1 req2 : Request) (w : World) (username password gender age : string) :
  body req1 !! "username" = Some username -> username ≠ "" ->
  body req1 !! "password" = Some password -> password ≠ "" ->
  body req1 !! "gender" = Some gender -> gender ≠ "" ->
  body req1 !! "age" = Some age -> age ≠ "" ->
  bcrypt_hash password ≠ "" ->
  bcrypt_compare password (bcrypt_hash password) = true ->
  (forall i u, Users w !! i = Some u -> u_username u ≠ username) ->
  Users w !! ObjectId (next_oid (base w)) = None ->
  faults (base w) = [] ->
  key ≠ "" ->
  body req2 !! "username" = Some username ->
  body req2 !! "password" = Some password ->
  login (Some key) bcrypt_compare jwt_sign req2 (register bcrypt_hash req1 w).2
  = (Ok (mkAcc 200
           (SentLogin
              (jwt_sign (mkPayload (ObjectId (next_oid (base w))) "user" None gender
                           (now (base w) / 1000) (Some (now (base w) / 1000 + 3600)))
                 key)
              (ObjectId (next_oid (base w))) None gender)),
     (register bcrypt_hash req1 w).2).
Proof.
  intros Hu Hune Hp Hpne Hg Hgne Ha Hane Hhash Hok Hfree Hfresh Hq Hk Hu2 Hp2.
  rewrite (register_run_new bcrypt_hash req1 w username password gender age) by done.
  cbv zeta. cbn [snd].
  set (doc := mkUser username (bcrypt_hash password) "user" gender age).
  set (w1 := mkWorld _ _).
  rewrite (login_run (Some key) bcrypt_compare jwt_sign req2 w1 username password)
    by done.
  subst w1. cbn [Users].
  rewrite (find_by_name_after_insert (Users w) _ doc Hfree).
  cbn [u_password doc]. rewrite Hok.
  by rewrite sign_for_an_hour_run.
Qed.

Lemma register_then_login_witness :
  exists w1,
    login (Some "s3cret") sample_compare sample_sign
      (request [] [("username", "dave"); ("password", "hunter2")] None)
      (register sample_hash
         (request [] [("username", "dave"); ("password", "hunter2"); ("gender", "male");
                      ("age", "30")] None) world0).2
    = (Ok (mkAcc 200 (SentLogin ("tok." ++ ObjectId 1) (ObjectId 1) None "male")), w1).
Proof.
  eexists.
  refine (register_then_login sample_hash sample_compare sample_sign "s3cret"
            (request [] [("username", "dave"); ("password", "hunter2"); ("gender", "male");
                         ("age", "30")] None)
            (request [] [("username", "dave"); ("password", "hunter2")] None)
            world0 "dave" "hunter2" "male" "30"
            eq_refl _ eq_refl _ eq_refl _ eq_refl _ _ eq_refl _ eq_refl eq_refl _
            eq_refl eq_refl); try discriminate.
  intros i u Hu. unfold world0 in Hu. cbn [Users] in Hu.
  apply lookup_insert_Some in Hu as [[_ <-]|[_ Hu]]; [discriminate|].
  by rewrite lookup_empty in Hu.
Defined.

(** ** From the login to the validator *)

Lemma authMiddleware_token_run
    (env_SECRET_KEY : option string) (jwt_decode : string -> string -> option JwtPayload)
    (req : Request) (next : Handler) (s : St) (h token : string) :
  authorization req = Some h -> h ≠ "" ->
  split " " h !! 1%nat = Some token -> token ≠ "" ->
  authMiddleware env_SECRET_KEY jwt_decode req next s =
  match jwt_decode token (SECRET_KEY env_SECRET_KEY) with
  | None => (Ok (mkRes 403 (Text "無效的 token")), s)
  | Some decoded =>
      match exp decoded with
      | Some e =>
          if bool_decide (now s / 1000 >= e)
          then (Ok (mkRes 403 (Text "無效的 token")), s)
          else next (mkReq (authorization req) (params req) (body req) (Some decoded)) s
      | None => next (mkReq (authorization req) (params req) (body req) (Some decoded)) s
      end
  end.
Proof.
  intros Hh Hne Hseg Htok.
  unfold authMiddleware. rewrite Hh. unfold default, from_option, id, falsy.
  rewrite bool_decide_eq_false_2 by done. rewrite Hseg.
  rewrite bool_decide_eq_false_2 by done.
  unfold jwt_verify, try_catch, with_user.
  destruct (jwt_decode token _) as [decoded|]; db_simpl; [|done].
  rewrite Date_now_run. db_simpl.
  destruct (exp decoded) as [e|]; db_simpl; [|by rewrite Hh].
  destruct (bool_decide _); db_simpl; [done|by rewrite Hh].
Qed.

(** X26.  The token of a successful login opens the protected routes
    for an hour.  With the same key configured for both and a token
    library that decodes what it signed, a request carrying
    [Bearer <token>] reaches its handler with the payload of the login as
    [req.user] as long as the clock, in seconds, is below the login's
    plus 3600, and is answered 403 from then on. *)
Theorem login_token_is_valid_for_an_hour
    (bcrypt_compare : string -> string -> bool)
    (jwt_sign : JwtPayload -> string -> string)
    (jwt_decode : string -> string -> option JwtPayload) (key : string)
    (req : Request) (w : World) (username password : string) (i : oid) (u : UserDoc) :
  let payload :=
    mkPayload i (u_role u) None (u_gender u)
      (now (base w) / 1000) (Some (now (base w) / 1000 + 3600)) in
  let token := jwt_sign payload key in
  body req !! "username" = Some username -> username ≠ "" ->
  body req !! "password" = Some password -> password ≠ "" ->
  faults (base w) = [] ->
  key ≠ "" ->
  unique_usernames (Users w) ->
  Users w !! i = Some u -> u_username u = username ->
  bcrypt_compare password (u_password u) = true ->
  jwt_decode token key = Some payload ->
  no_space token = true -> token ≠ "" ->
  login (Some key) bcrypt_compare jwt_sign req w
  = (Ok (mkAcc 200 (SentLogin token i None (u_gender u))), w) /\
  (forall (req' : Request) (next : Handler) (s' : St),
      authorization req' = Some ("Bearer " ++ token) ->
      (now s' / 1000 < now (base w) / 1000 + 3600 ->
       authMiddleware (Some key) jwt_decode req' next s'
       = next (mkReq (authorization req') (params req') (body req') (Some payload)) s') /\
      (now (base w) / 1000 + 3600 <= now s' / 1000 ->
       authMiddleware (Some key) jwt_decode req' next s'
       = (Ok (mkRes 403 (Text "無效的 token")), s'))).
Proof.
  intros payload token Hu Hune Hp Hpne Hq Hk Huniq Hi <- Hok Hdec Hns Htne.
  split.
  - rewrite (login_run (Some key) bcrypt_compare jwt_sign req w (u_username u) password)
      by done.
    rewrite (find_by_name_unique (Users w) i u Huniq Hi), Hok.
    by rewrite sign_for_an_hour_run.
  - intros req' next s' Hh.
    assert (Hkey : SECRET_KEY (Some key) = key)
      by (unfold SECRET_KEY; by rewrite bool_decide_eq_false_2).
    assert (Hseg : split " " ("Bearer " ++ token) !! 1%nat = Some token).
    { change ("Bearer " ++ token) with ("Bearer" ++ String " " token).
      rewrite split_app_space by reflexivity. simpl.
      by rewrite (split_no_space _ Hns). }
    rewrite (authMiddleware_token_run (Some key) jwt_decode req' next s'
               ("Bearer " ++ token) token Hh) by done.
    rewrite Hkey, Hdec. cbn [exp payload].
    split; intros Hclock.
    + by rewrite bool_decide_eq_false_2 by lia.
    + by rewrite bool_decide_eq_true_2 by lia.
Qed.

Lemma login_token_is_valid_for_an_hour_witness :
  (forall next : Handler,
      authMiddleware (Some "s3cret") sample_verify
        (mkReq (Some ("Bearer tok." ++ carol_id)) ∅ ∅ None) next
        (mkSt db0 [] 7 1700005399999)
      = next (mkReq (Some ("Bearer tok." ++ carol_id)) ∅ ∅
                (Some (mkPayload carol_id "user" None "female" 1700001800 (Some 1700005400))))
          (mkSt db0 [] 7 1700005399999)) /\
  (forall next : Handler,
      authMiddleware (Some "s3cret") sample_verify
        (mkReq (Some ("Bearer tok." ++ carol_id)) ∅ ∅ None) next
        (mkSt db0 [] 7 1700005400000)
      = (Ok (mkRes 403 (Text "無效的 token")), mkSt db0 [] 7 1700005400000)).
Proof.
  assert (H := login_token_is_valid_for_an_hour sample_compare sample_sign sample_verify
            "s3cret" (request [] [("username", "carol"); ("password", "pw123")] None)
            world0 "carol" "pw123" carol_id carol).
  cbv zeta in H.
  destruct H as [_ H]; try discriminate; try reflexivity;
    [exact unique_usernames_world0|].
  split; intros next.
  - refine (proj1 (H (mkReq (Some ("Bearer tok." ++ carol_id)) ∅ ∅ None) next
                     (mkSt db0 [] 7 1700005399999) eq_refl) _).
    reflexivity.
  - refine (proj2 (H (mkReq (Some ("Bearer tok." ++ carol_id)) ∅ ∅ None) next
                     (mkSt db0 [] 7 1700005400000) eq_refl) _).
    discriminate.
Defined.

(** ** The session's user *)

(** X27.  The identity route answers with the role stored for the
    session's user, not with the role in the token, and with 404 once
    the user is no longer stored; it changes nothing. *)
Theorem get_user_reads_the_stored_role (req : Request) (c : JwtPayload) (w : World) :
  user req = Some c ->
  faults (base w) = [] ->
  get_user req w =
  match Users w !! userId c with
  | Some u => (Ok (mkAcc 200 (SentIdentity (userId c) (u_role u))), w)
  | None => (Ok (mkAcc 404 (SaidMessage "用戶未找到")), w)
  end.
Proof.
  intros Hu Hq. unfold get_user, utry_catch. rewrite Hu. udb_simpl.
  rewrite (rejects_quiet _ Hq), (world_quiet _ Hq).
  by destruct (Users w !! userId c).
Qed.

Lemma get_user_reads_the_stored_role_witness :
  get_user
    (request [] [] (Some (mkPayload carol_id "admin" None "female" 1700001800 (Some 1700005400))))
    world0
  = (Ok (mkAcc 200 (SentIdentity carol_id "user")), world0) /\
  get_user (request [] [] (Some alice)) world0
  = (Ok (mkAcc 404 (SaidMessage "用戶未找到")), world0).
Proof.
  split.
  - exact (get_user_reads_the_stored_role
             (request [] [] (Some (mkPayload carol_id "admin" None "female" 1700001800
                                     (Some 1700005400))))
             (mkPayload carol_id "admin" None "female" 1700001800 (Some 1700005400))
             world0 eq_refl eq_refl).
  - exact (get_user_reads_the_stored_role (request [] [] (Some alice)) alice world0
             eq_refl eq_refl).
Defined.

(** * Listings *)

Lemma lift_run_quiet {A} (c : DB A) (w : World) (a : A) :
  c (base w) = (Ok a, base w) -> lift c w = (Ok a, w).
Proof. intros H. unfold lift. rewrite H. by destruct w. Qed.

Lemma Reply_find_quiet messageId mid s :
  cast_oid messageId = Some mid ->
  faults s = [] ->
  Reply_find messageId s
  = (Ok (map_to_list (filter (fun kv => r_messageId kv.2 = mid) (Replies (db s)))), s).
Proof.
  intros Hc Hq. unfold Reply_find. rewrite casting_run, Hc.
  unfold driver_call. rewrite bind_run.
  by rewrite (rejects_quiet _ Hq), (tick_quiet _ Hq).
Qed.

Lemma lift_throw_run {A} (c : DB A) (w : World) :
  c (base w) = (Throw, base w) -> lift c w = (Throw, w).
Proof. intros H. unfold lift. rewrite H. by destruct w. Qed.

Lemma Appeal_find_quiet s :
  faults s = [] -> Appeal_find s = (Ok (map_to_list (Appeals (db s))), s).
Proof.
  intros Hq. unfold Appeal_find, driver_call. rewrite bind_run.
  by rewrite (rejects_quiet _ Hq), (tick_quiet _ Hq).
Qed.

Lemma populate_quiet {A V} (owner : A -> oid) (select : oid -> UserDoc -> V)
    (docs : list (oid * A)) (w : World) :
  faults (base w) = [] ->
  populate owner select docs w
  = (Ok ((fun kv => (kv.1, kv.2, populate_one select (Users w) (owner kv.2))) <$> docs), w).
Proof.
  intros Hq. unfold populate. rewrite ubind_run, lift_driver_call_run.
  by rewrite (rejects_quiet _ Hq), (world_quiet _ Hq).
Qed.

Lemma elem_of_populated {A V} (owner : A -> oid) (select : oid -> UserDoc -> V)
    (us : gmap string UserDoc) (docs : list (oid * A)) id x v :
  (id, x, v) ∈ (fun kv => (kv.1, kv.2, populate_one select us (owner kv.2))) <$> docs <->
  (id, x) ∈ docs /\ v = populate_one select us (owner x).
Proof.
  rewrite list_elem_of_fmap. split.
  - intros [[j y] [[= -> -> ->] Hin]]. by split.
  - intros [Hin ->]. by exists (id, x).
Qed.

(** X28.  The replies of a message are listed to anyone, [req.user] or
    not, and by their messageId alone: under a well-formed id, in
    whatever case its digits are, a stored reply is in the answer
    exactly when its messageId is the id the route's string casts to,
    whether or not a message is stored under that id or lists the reply.
    Each comes with its author's name and gender, or null when no user
    has the author's id.  An id that is not well formed is answered 500.
    Nothing changes. *)
Theorem get_replies_lists_by_messageId (req : Request) (w : World) :
  (forall mid,
      cast_oid (param req "id") = Some mid ->
      faults (base w) = [] ->
      exists l,
        get_replies req w = (Ok (mkList 200 (SentReplies l)), w) /\
        forall id r v,
          (id, r, v) ∈ l <->
          Replies (db (base w)) !! id = Some r /\ r_messageId r = mid /\
          v = populate_one select_view (Users w) (r_userId r)) /\
  (cast_oid (param req "id") = None ->
   get_replies req w = (Ok (mkList 500 (SaidList "獲取回覆失敗")), w)).
Proof.
  split.
  - intros mid Hc Hq. unfold get_replies, utry_catch. cbv zeta.
    rewrite ubind_run, (lift_run_quiet _ _ _ (Reply_find_quiet (param req "id") mid _ Hc Hq)).
    rewrite ubind_run, (populate_quiet _ _ _ _ Hq), uret_run.
    eexists. split; [reflexivity|].
    intros id r v. rewrite elem_of_populated, elem_of_map_to_list.
    rewrite map_lookup_filter_Some. simpl. tauto.
  - intros Hc. unfold get_replies, utry_catch. cbv zeta.
    rewrite ubind_run, (lift_throw_run (Reply_find (param req "id")) w).
    + reflexivity.
    + unfold Reply_find. by rewrite casting_run, Hc.
Qed.

Lemma get_replies_lists_by_messageId_witness :
  Messages (db (base (mkWorld (Users world0) (mkSt (set_Messages (delete mid1) db0) [] 1 0))))
    !! mid1 = None /\
  (exists l,
    get_replies (request [("id", "64B000000000000000000101")] [] None)
      (mkWorld (Users world0) (mkSt (set_Messages (delete mid1) db0) [] 1 0))
    = (Ok (mkList 200 (SentReplies l)),
       mkWorld (Users world0) (mkSt (set_Messages (delete mid1) db0) [] 1 0)) /\
    (rid1, reply1, None) ∈ l) /\
  get_replies (request [("id", "abc")] [] None) world0
  = (Ok (mkList 500 (SaidList "獲取回覆失敗")), world0).
Proof.
  split; [reflexivity|]. split.
  - destruct (proj1 (get_replies_lists_by_messageId
                       (request [("id", "64B000000000000000000101")] [] None)
                       (mkWorld (Users world0) (mkSt (set_Messages (delete mid1) db0) [] 1 0)))
                mid1 eq_refl eq_refl) as (l & Hrun & Hin).
    exists l. split; [exact Hrun|]. apply Hin.
    split; [vm_compute; reflexivity|]. split; vm_compute; reflexivity.
  - exact (proj2 (get_replies_lists_by_messageId (request [("id", "abc")] [] None) world0)
             eq_refl).
Defined.

(** X29.  The appeals are listed in full to every session: the answer
    holds each stored appeal, with its reporter's name or null, and does
    not depend on [req.user] or its role.  Nothing changes. *)
Theorem get_appeals_lists_all (req : Request) (w : World) :
  faults (base w) = [] ->
  exists l,
    get_appeals req w = (Ok (mkList 200 (SentAppeals l)), w) /\
    (forall id a v,
        (id, a, v) ∈ l <->
        Appeals (db (base w)) !! id = Some a /\
        v = populate_one select_username (Users w) (a_userId a)) /\
    forall u, get_appeals (mkReq (authorization req) (params req) (body req) u) w
              = get_appeals req w.
Proof.
  intros Hq. unfold get_appeals, utry_catch.
  rewrite ubind_run, (lift_run_quiet _ _ _ (Appeal_find_quiet _ Hq)).
  rewrite ubind_run, (populate_quiet _ _ _ _ Hq), uret_run.
  eexists. split; [reflexivity|]. split; [|done].
  intros id a v. by rewrite elem_of_populated, elem_of_map_to_list.
Qed.

Lemma get_appeals_lists_all_witness :
  exists l,
    get_appeals (request [] [] (Some bob)) world0
    = (Ok (mkList 200 (SentAppeals l)), world0) /\
    (aid1, appeal1, None) ∈ l.
Proof.
  destruct (get_appeals_lists_all (request [] [] (Some bob)) world0 eq_refl)
    as (l & Hrun & Hin & _).
  exists l. split; [exact Hrun|]. apply Hin.
  repeat split; vm_compute; reflexivity.
Defined.

(** * Every other request is answered too *)

Lemma lift_Reply_find_run messageId (w : World) :
  lift (Reply_find messageId) w =
  match cast_oid messageId with
  | None => (Throw, w)
  | Some mid =>
      if rejects (base w) then (Throw, mkWorld (Users w) (tick (base w)))
      else (Ok (map_to_list (filter (fun kv => r_messageId kv.2 = mid)
                               (Replies (db (base w))))),
            mkWorld (Users w) (tick (base w)))
  end.
Proof.
  unfold lift, Reply_find. rewrite casting_run.
  destruct (cast_oid messageId); [|by destruct w].
  unfold driver_call. rewrite bind_run.
  by destruct (rejects (base w)).
Qed.

Lemma lift_Appeal_find_run (w : World) :
  lift Appeal_find w =
  if rejects (base w) then (Throw, mkWorld (Users w) (tick (base w)))
  else (Ok (map_to_list (Appeals (db (base w)))), mkWorld (Users w) (tick (base w))).
Proof.
  unfold lift, Appeal_find, driver_call. rewrite bind_run.
  by destruct (rejects (base w)).
Qed.

Lemma populate_run {A V} (owner : A -> oid) (select : oid -> UserDoc -> V)
    (docs : list (oid * A)) (w : World) :
  populate owner select docs w =
  if rejects (base w) then (Throw, mkWorld (Users w) (tick (base w)))
  else (Ok ((fun kv => (kv.1, kv.2, populate_one select (Users w) (owner kv.2))) <$> docs),
        mkWorld (Users w) (tick (base w))).
Proof.
  unfold populate. rewrite ubind_run, lift_driver_call_run.
  by destruct (rejects (base w)).
Qed.

(** X30.  The creation, account and listing handlers answer every
    request in every state and under every fault schedule, with these
    status codes: no rejection of the driver, of the validation or of the
    signer gets past their catch blocks. *)
Theorem other_handlers_always_answer
    (env_SECRET_KEY : option string) (bcrypt_hash : string -> string)
    (bcrypt_compare : string -> string -> bool)
    (jwt_sign : JwtPayload -> string -> string) (req : Request) (w : World) :
  (exists a s', post_appeal req (base w) = (Ok a, s') /\
     (code a = 201 \/ code a = 400 \/ code a = 500)%nat) /\
  (exists a s', post_message req (base w) = (Ok a, s') /\
     (code a = 201 \/ code a = 401 \/ code a = 500)%nat) /\
  (exists a w', register bcrypt_hash req w = (Ok a, w') /\
     (acc_code a = 201 \/ acc_code a = 400 \/ acc_code a = 500)%nat) /\
  (exists a w', login env_SECRET_KEY bcrypt_compare jwt_sign req w = (Ok a, w') /\
     (acc_code a = 200 \/ acc_code a = 400 \/ acc_code a = 500)%nat) /\
  (exists a w', get_user req w = (Ok a, w') /\
     (acc_code a = 200 \/ acc_code a = 404 \/ acc_code a = 500)%nat) /\
  (exists a w', get_replies req w = (Ok a, w') /\
     (list_code a = 200 \/ list_code a = 500)%nat) /\
  (exists a w', get_appeals req w = (Ok a, w') /\
     (list_code a = 200 \/ list_code a = 500)%nat).
Proof.
  split; [|split; [|split; [|split; [|split; [|split]]]]].
  - unfold post_appeal, try_catch, req_user.
    destruct (_ || _ || _); [by eexists _, _; split; [done|auto]|].
    db_simpl. destruct (user req); db_simpl; [|by eexists _, _; split; [done|auto]].
    rewrite Appeal_create_run. cbv zeta.
    destruct (rejects (base w)); db_simpl; [by eexists _, _; split; [done|auto]|].
    destruct (Appeals _ !! _); db_simpl; by eexists _, _; split; [done|auto].
  - unfold post_message, try_catch. cbv zeta.
    destruct (user req); [|by eexists _, _; split; [done|auto]].
    rewrite bind_run, Message_create_run. cbv zeta.
    destruct (_ || _); [by eexists _, _; split; [done|auto]|].
    destruct (rejects (base w)); [by eexists _, _; split; [done|auto]|].
    destruct (Messages _ !! _); db_simpl; by eexists _, _; split; [done|auto].
  - unfold register, utry_catch.
    destruct (_ || _ || _ || _); [by eexists _, _; split; [done|auto]|].
    udb_simpl. destruct (rejects (base w)); udb_simpl;
      [by eexists _, _; split; [done|auto]|].
    destruct (head _) as [[i u]|]; udb_simpl; [by eexists _, _; split; [done|auto]|].
    destruct (_ || _ || _ || _); [by eexists _, _; split; [done|auto]|].
    cbn [Users base].
    destruct (rejects (tick (base w))); [by eexists _, _; split; [done|auto]|].
    destruct (Users w !! _); [by eexists _, _; split; [done|auto]|].
    destruct (head _) as [[i u]|]; by eexists _, _; split; [done|auto].
  - unfold login, utry_catch.
    destruct (_ || _); [by eexists _, _; split; [done|auto]|].
    udb_simpl. destruct (rejects (base w)); udb_simpl;
      [by eexists _, _; split; [done|auto]|].
    destruct (head _) as [[i u]|]; udb_simpl; [|by eexists _, _; split; [done|auto]].
    cbn [fst snd].
    destruct (bcrypt_compare _ _); cbn [negb]; udb_simpl;
      [|by eexists _, _; split; [done|auto]].
    unfold sign_for_an_hour.
    destruct env_SECRET_KEY as [key|]; [|by eexists _, _; split; [done|auto]].
    destruct (bool_decide (key = "")); [by eexists _, _; split; [done|auto]|].
    udb_simpl. unfold lift, Date_now. udb_simpl.
    by eexists _, _; split; [done|auto].
  - unfold get_user, utry_catch.
    destruct (user req); udb_simpl; [|by eexists _, _; split; [done|auto]].
    destruct (rejects (base w)); udb_simpl; [by eexists _, _; split; [done|auto]|].
    destruct (Users w !! _); by eexists _, _; split; [done|auto].
  - unfold get_replies, utry_catch. cbv zeta.
    rewrite ubind_run, lift_Reply_find_run.
    destruct (cast_oid (param req "id")); [|by eexists _, _; split; [done|auto]].
    destruct (rejects (base w)); [by eexists _, _; split; [done|auto]|].
    rewrite ubind_run, populate_run. cbn [base].
    destruct (rejects (tick (base w))); by eexists _, _; split; [done|auto].
  - unfold get_appeals, utry_catch.
    rewrite ubind_run, lift_Appeal_find_run.
    destruct (rejects (base w)); [by eexists _, _; split; [done|auto]|].
    rewrite ubind_run, populate_run. cbn [base].
    destruct (rejects (tick (base w))); by eexists _, _; split; [done|auto].
Qed.
